(** * AiCode: tool-call protocol, tool executor, code analyzer and
      conversation window of [aicode_compact.py]

    A shallow embedding of the class [CompactAiCode]: the methods
    [_process_conversation], [_get_system_prompt], [_send_to_model],
    [_execute_tool_request], [_execute_tool] and [_analyze_code_content].

    Python [str] values are modelled by Rocq strings whose characters are
    the code points U+0000 to U+00FF; the character classes below are the
    ones CPython uses on that range.  Everything the methods obtain from
    outside the class (files, the shell, the HTTP endpoint, the clock, the
    Python parser) is reached through the interface [Env]. *)

From Stdlib Require Import Ascii String ZArith Lia Permutation.
From stdpp Require Import base option list gmap strings pretty.

Set Warnings "-register-all".

(** ** Characters *)

Module Char.

Definition code (c : ascii) : N := N_of_ascii c.

Definition between (lo hi : N) (c : ascii) : bool :=
  ((lo <=? code c) && (code c <=? hi))%N.

(** [str.isspace] on one character, which is also the class [\s] of [re]. *)
Definition is_space (c : ascii) : bool :=
  between 9 13 c || between 28 32 c || (code c =? 133)%N || (code c =? 160)%N.

Definition is_ascii_upper (c : ascii) : bool := between 65 90 c.
Definition is_ascii_lower (c : ascii) : bool := between 97 122 c.
Definition is_ascii_digit (c : ascii) : bool := between 48 57 c.

(** The class [\w] of [re] for [str] patterns: alphanumeric or underscore.  *)
Definition is_word (c : ascii) : bool :=
  is_ascii_digit c || is_ascii_upper c || is_ascii_lower c || (code c =? 95)%N
  || (code c =? 170)%N || (code c =? 178)%N || (code c =? 179)%N
  || (code c =? 181)%N || (code c =? 185)%N || (code c =? 186)%N
  || between 188 190 c || between 192 214 c || between 216 246 c
  || between 248 255 c.

Definition newline : ascii := ascii_of_N 10.
Definition is_newline (c : ascii) : bool := (code c =? 10)%N.
Definition not_newline (c : ascii) : bool := negb (is_newline c).

Definition dquote : ascii := ascii_of_N 34.
Definition squote : ascii := ascii_of_N 39.
Definition equals : ascii := ascii_of_N 61.

(** The characters removed by [value.strip], the two quote marks. *)
Definition is_quote (c : ascii) : bool := (code c =? 34)%N || (code c =? 39)%N.
Definition is_equals (c : ascii) : bool := (code c =? 61)%N.

(** Simple case folding of the letters A to Z, enough to compare a character
    with an ASCII literal under [re.IGNORECASE]. *)
Definition lower (c : ascii) : ascii :=
  if is_ascii_upper c then ascii_of_N (code c + 32) else c.

(** [str.upper] on one character.  U+00DF becomes two characters; U+00B5 and
    U+00FF have their upper case outside the modelled range and are kept. *)
Definition upper (c : ascii) : string :=
  if is_ascii_lower c || between 224 246 c || between 248 254 c
  then String (ascii_of_N (code c - 32)) ""
  else if (code c =? 223)%N then "SS"
  else String c "".

End Char.

(** ** The [str] methods used by the program *)

Module Str.

Definition nl : string := String Char.newline "".

Fixpoint contains_char (p : ascii -> bool) (s : string) : bool :=
  match s with
  | "" => false
  | String c s' => p c || contains_char p s'
  end.

Fixpoint drop_while (p : ascii -> bool) (s : string) : string :=
  match s with
  | "" => ""
  | String c s' => if p c then drop_while p s' else s
  end.

Fixpoint take_while (p : ascii -> bool) (s : string) : string :=
  match s with
  | "" => ""
  | String c s' => if p c then String c (take_while p s') else ""
  end.

Definition is_empty (s : string) : bool :=
  match s with "" => true | _ => false end.

(** [s.rstrip(chars)]: the trailing characters satisfying [p] are removed. *)
Fixpoint rstrip (p : ascii -> bool) (s : string) : string :=
  match s with
  | "" => ""
  | String c s' =>
      let r := rstrip p s' in
      if is_empty r && p c then "" else String c r
  end.

(** [s.strip(chars)] *)
Definition strip (p : ascii -> bool) (s : string) : string :=
  rstrip p (drop_while p s).

Definition cons_token (t : string) (ts : list string) : list string :=
  if is_empty t then ts else t :: ts.

(** [split_scan s] is the run of non-blank characters [s] starts with,
    and the words that follow that run. *)
Fixpoint split_scan (s : string) : string * list string :=
  match s with
  | "" => ("", [])
  | String c s' =>
      let '(t, ts) := split_scan s' in
      if Char.is_space c then ("", cons_token t ts) else (String c t, ts)
  end.

(** [s.split()]: the maximal runs of non-blank characters. *)
Definition split (s : string) : list string :=
  let '(t, ts) := split_scan s in cons_token t ts.

(** [s.split(sep, 1)] for a one-character separator. *)
Fixpoint split1 (sep : ascii -> bool) (s : string) : list string :=
  match s with
  | "" => [""]
  | String c s' =>
      if sep c then [""; s']
      else match split1 sep s' with
           | a :: rest => String c a :: rest
           | [] => []
           end
  end.

(** [sep.join(l)] *)
Fixpoint join (sep : string) (l : list string) : string :=
  match l with
  | [] => ""
  | [x] => x
  | x :: rest => x +:+ sep +:+ join sep rest
  end.

(** [s.upper()] *)
Fixpoint upper (s : string) : string :=
  match s with
  | "" => ""
  | String c s' => Char.upper c +:+ upper s'
  end.

Fixpoint starts_with (p s : string) : bool :=
  match p, s with
  | "", _ => true
  | String a p', String b s' => Ascii.eqb a b && starts_with p' s'
  | _, "" => false
  end.

(** [needle in s] *)
Fixpoint contains (needle s : string) : bool :=
  starts_with needle s ||
  match s with
  | "" => false
  | String _ s' => contains needle s'
  end.

Fixpoint take (n : nat) (s : string) : string :=
  match n, s with
  | S n', String c s' => String c (take n' s')
  | _, _ => ""
  end.

Fixpoint drop (n : nat) (s : string) : string :=
  match n, s with
  | S n', String _ s' => drop n' s'
  | _, _ => s
  end.

(** [str(z)] for an [int] *)
Definition of_int (z : Z) : string := pretty z.

End Str.

(** ** The fragment of [re] the program uses

    A pattern is a sequence of items: one character, a greedy repetition of
    one character, and the two brackets of a capturing group.  Matching is
    the backtracking search of [re]: a greedy repetition first takes as
    many characters as it can and gives them back one at a time while the
    rest of the pattern fails. *)

Module Re.

Inductive atom :=
| Lit (c : ascii)
| Class (p : ascii -> bool).

Inductive item :=
| One (a : atom)
| Star (a : atom)
| Plus (a : atom)
| GroupOpen
| GroupClose.

Definition accepts (ignorecase : bool) (a : atom) (c : ascii) : bool :=
  match a with
  | Lit l =>
      if ignorecase then Ascii.eqb (Char.lower c) (Char.lower l)
      else Ascii.eqb c l
  | Class p => p c
  end.

(** The outcome of a successful match: the captured groups, in the order
    in which they close, and the text left after the match. *)
Definition result : Type := list string * string.

Fixpoint star (ok : ascii -> bool) (k : string -> option result) (s : string)
  : option result :=
  match s with
  | String c s' =>
      if ok c then
        match star ok k s' with
        | Some r => Some r
        | None => k s
        end
      else k s
  | "" => k s
  end.

(** [run ic p opens caps s]: match the items [p] at the start of [s];
    [opens] holds, for every group still open, the text that was left when
    it opened. *)
Fixpoint run (ic : bool) (p : list item) (opens caps : list string) (s : string)
  : option result :=
  match p with
  | [] => Some (caps, s)
  | One a :: p' =>
      match s with
      | String c s' => if accepts ic a c then run ic p' opens caps s' else None
      | "" => None
      end
  | Star a :: p' => star (accepts ic a) (run ic p' opens caps) s
  | Plus a :: p' =>
      match s with
      | String c s' =>
          if accepts ic a c then star (accepts ic a) (run ic p' opens caps) s'
          else None
      | "" => None
      end
  | GroupOpen :: p' => run ic p' (s :: opens) caps s
  | GroupClose :: p' =>
      match opens with
      | s0 :: opens' =>
          run ic p' opens' (caps ++ [Str.take (String.length s0 - String.length s) s0]) s
      | [] => None
      end
  end.

(** The scan of [re.findall]: matches are searched from left to right and
    do not overlap; [skip] counts the characters of the last match that are
    still to be passed over. *)
Fixpoint scan (ic : bool) (p : list item) (skip : nat) (s : string)
  : list (list string) :=
  match s with
  | "" =>
      match skip, run ic p [] [] "" with
      | 0, Some (caps, _) => [caps]
      | _, _ => []
      end
  | String _ s' =>
      match skip with
      | S k => scan ic p k s'
      | 0 =>
          match run ic p [] [] s with
          | Some (caps, rest) =>
              caps :: scan ic p (String.length s - String.length rest - 1) s'
          | None => scan ic p 0 s'
          end
      end
  end.

Definition findall (ic : bool) (p : list item) (s : string) : list (list string) :=
  scan ic p 0 s.

Definition literal (s : string) : list item :=
  List.map (fun c => One (Lit c)) (list_ascii_of_string s).

End Re.

(** ** Exceptions and the outcome of a call *)

Inductive exc_class :=
| OSError
| TimeoutExpired
| UnicodeError
| SyntaxError
| ValueError
| KeyError
| IndexError
| TypeError
| RecursionError
| MemoryError
| RequestException
| MarkupError
| KeyboardInterrupt.

(** An exception object: its class and [str(e)]. *)
Record exn := Exn { exn_class : exc_class; exn_str : string }.

(** [isinstance(e, Exception)]: of the classes above, only
    [KeyboardInterrupt] derives from [BaseException] directly. *)
Definition is_Exception (k : exc_class) : bool :=
  match k with KeyboardInterrupt => false | _ => true end.

Definition is_SyntaxError (k : exc_class) : bool :=
  match k with SyntaxError => true | _ => false end.

Definition is_RequestException (k : exc_class) : bool :=
  match k with RequestException => true | _ => false end.

Inductive outcome (A : Type) :=
| Return (a : A)
| Raise (e : exn).
Arguments Return {A} a.
Arguments Raise {A} e.

(** A call reads and changes a state and either returns or raises; the
    state reached when it raises is kept, as in Python. *)
Definition M (S A : Type) : Type := S -> outcome A * S.

Definition ret {S A} (a : A) : M S A := fun s => (Return a, s).

Definition raise {S A} (e : exn) : M S A := fun s => (Raise e, s).

Definition bind {S A B} (m : M S A) (f : A -> M S B) : M S B :=
  fun s =>
    match m s with
    | (Return a, s') => f a s'
    | (Raise e, s') => (Raise e, s')
    end.

Definition of_outcome {S A} (o : outcome A) : M S A := fun s => (o, s).

(** [try: body / except cls as e: handler]; an exception of another
    class goes through. *)
Definition try_except {S A} (body : M S A) (cls : exc_class -> bool)
    (handler : exn -> M S A) : M S A :=
  fun s =>
    match body s with
    | (Return a, s') => (Return a, s')
    | (Raise e, s') =>
        if cls (exn_class e) then handler e s' else (Raise e, s')
    end.

Declare Scope py_scope.
Delimit Scope py_scope with py.
Notation "x <- m ; k" := (bind m (fun x => k))
  (at level 20, m at level 100, k at level 200, only parsing) : py_scope.
Notation "m ;; k" := (bind m (fun _ => k))
  (at level 100, k at level 200, only parsing, right associativity) : py_scope.

(** [for x in l: body x] *)
Fixpoint for_each {S A} (l : list A) (body : A -> M S unit) : M S unit :=
  match l with
  | [] => ret tt
  | x :: rest => bind (body x) (fun _ => for_each rest body)
  end.

(** ** Python values decoded from JSON *)

Module Py.

Inductive val :=
| VNone
| VBool (b : bool)
| VInt (z : Z)
| VFloat (mantissa exponent : Z)
| VStr (s : string)
| VList (l : list val)
| VDict (items : list (string * val)).

(** [bool(v)] *)
Definition truthy (v : val) : bool :=
  match v with
  | VNone => false
  | VBool b => b
  | VInt z => negb (z =? 0)%Z
  | VFloat m _ => negb (m =? 0)%Z
  | VStr s => negb (Str.is_empty s)
  | VList l => match l with [] => false | _ => true end
  | VDict d => match d with [] => false | _ => true end
  end.

Definition type_name (v : val) : string :=
  match v with
  | VNone => "NoneType"
  | VBool _ => "bool"
  | VInt _ => "int"
  | VFloat _ _ => "float"
  | VStr _ => "str"
  | VList _ => "list"
  | VDict _ => "dict"
  end.

Definition is_str (key : string) (v : val) : bool :=
  match v with VStr s => String.eqb s key | _ => false end.

Fixpoint assoc (key : string) (d : list (string * val)) : option val :=
  match d with
  | [] => None
  | (k, v) :: rest => if String.eqb k key then Some v else assoc key rest
  end.

(** [key in v] for a [str] key *)
Definition contains (key : string) (v : val) : outcome bool :=
  match v with
  | VDict d => Return (bool_decide (is_Some (assoc key d)))
  | VList l => Return (existsb (is_str key) l)
  | VStr s => Return (Str.contains key s)
  | _ => Raise (Exn TypeError
             ("argument of type '" +:+ type_name v +:+ "' is not iterable"))
  end.

(** [v[key]] for a [str] key *)
Definition getitem (v : val) (key : string) : outcome val :=
  match v with
  | VDict d =>
      match assoc key d with
      | Some x => Return x
      | None => Raise (Exn KeyError ("'" +:+ key +:+ "'"))
      end
  | VList _ =>
      Raise (Exn TypeError "list indices must be integers or slices, not str")
  | VStr _ => Raise (Exn TypeError "string indices must be integers, not 'str'")
  | _ => Raise (Exn TypeError
             ("'" +:+ type_name v +:+ "' object is not subscriptable"))
  end.

(** [v[0]]; the keys of a decoded JSON object are strings, so [0] is never
    one of them. *)
Definition getitem0 (v : val) : outcome val :=
  match v with
  | VList (x :: _) => Return x
  | VList [] => Raise (Exn IndexError "list index out of range")
  | VStr (String c _) => Return (VStr (String c ""))
  | VStr "" => Raise (Exn IndexError "string index out of range")
  | VDict _ => Raise (Exn KeyError "0")
  | _ => Raise (Exn TypeError
             ("'" +:+ type_name v +:+ "' object is not subscriptable"))
  end.

(** [l.insert(i, x)] *)
Definition insert {A} (i : Z) (x : A) (l : list A) : list A :=
  let n := Z.of_nat (length l) in
  let j := if (i <? 0)%Z then Z.max 0 (n + i) else Z.min i n in
  take (Z.to_nat j) l ++ x :: drop (Z.to_nat j) l.

(** [l[i:]] *)
Definition slice_from {A} (i : Z) (l : list A) : list A :=
  let n := Z.of_nat (length l) in
  let j := if (i <? 0)%Z then Z.max 0 (n + i) else Z.min i n in
  drop (Z.to_nat j) l.

End Py.

(** ** Syntax trees of the [ast] module

    A node keeps its class, the attributes the analyzer reads, and its
    child nodes in the order of [ast.iter_child_nodes]. *)

Module Ast.

Inductive kind :=
| Module_
| FunctionDef (name : string)
| AsyncFunctionDef (name : string)
| ClassDef (name : string)
| Import (names : list string)
| ImportFrom (module : option string)
| Other.

Inductive node := Node (k : kind) (children : list node).

Definition node_kind (n : node) : kind := match n with Node k _ => k end.
Definition children (n : node) : list node := match n with Node _ cs => cs end.

Fixpoint size (n : node) : nat :=
  match n with
  | Node _ cs => S (list_sum (List.map size cs))
  end.

Definition forest_size (l : list node) : nat := list_sum (List.map size l).

(** The loop of [ast.walk]: [todo] is the deque; the node at its left end
    is taken out and yielded, its children are put in at the right end.
    [fuel] bounds the number of turns. *)
Fixpoint walk_loop (fuel : nat) (todo : list node) : list node :=
  match fuel with
  | 0 => []
  | S fuel' =>
      match todo with
      | [] => []
      | n :: rest => n :: walk_loop fuel' (rest ++ children n)
      end
  end.

(** [ast.walk(tree)]; the loop takes one turn per node of the tree. *)
Definition walk (tree : node) : list node := walk_loop (size tree) [tree].

(** The nodes of a tree in the order of the source text: a statement comes
    before the statements nested in it, which come before the statement
    that follows it. *)
Fixpoint document_order (n : node) : list node :=
  match n with
  | Node _ cs => n :: List.concat (List.map document_order cs)
  end.

End Ast.

(** ** What the program obtains from outside *)

(** [subprocess.CompletedProcess] *)
Record completed := Completed {
  returncode : Z;
  stdout : string;
  stderr : string
}.

(** [requests.Response]: the status and what [response.json()] gives. *)
Record response := Response {
  status_code : Z;
  json : outcome Py.val
}.

(** One entry of [messages]. *)
Record message := Message { role : string; content : Py.val }.

(** What is handed to [console.print]. *)
Inductive renderable :=
| Text (markup : string)
| Markdown (v : Py.val)
| Panel (v : Py.val).

(** The operating system, the libraries and the endpoint, as operations on
    a world of type [W]; each may raise. *)
Class Env (W : Type) := {
  (** [with open(path, 'r') as f: f.read()] *)
  read_text : string -> M W string;
  (** [with open(path, 'w') as f: f.write(content)] *)
  write_text : string -> string -> M W unit;
  (** [subprocess.run(command, shell=True, capture_output=True, text=True,
      timeout=t)] *)
  subprocess_run : string -> Z -> M W completed;
  (** [os.listdir(path)] *)
  listdir : string -> M W (list string);
  (** [ast.parse(code)] *)
  ast_parse : string -> outcome Ast.node;
  (** The endpoint and settings are read from the configuration of the
      model named, and [requests.post] sends [messages] there. *)
  post_messages : string -> list message -> M W response;
  (** [datetime.now().isoformat()] *)
  now_isoformat : M W string;
  (** [console.print(x)] *)
  console_print : renderable -> M W unit
}.

(** ** The class [CompactAiCode] *)

(** One element of [self.conversation_history]. *)
Record exchange := Exchange {
  user : string;
  assistant : Py.val;
  timestamp : string
}.

(** The fields of [self] the methods below use, with the world. *)
Record state (W : Type) := State {
  conversation_history : list exchange;
  context : list string;
  current_model : string;
  world : W
}.
Arguments State {W}.
Arguments conversation_history {W}.
Arguments context {W}.
Arguments current_model {W}.
Arguments world {W}.

(** The names collected by the loop of [_analyze_code_content]. *)
Record names := Names {
  functions : list string;
  classes : list string;
  imports : list string
}.

Definition dq : string := String Char.dquote "".

Definition base_prompt : string :=
  "You are AiCode, a helpful coding assistant optimized for small local models. " +:+ Str.nl +:+
  "Be concise, practical, and focus on actionable solutions. " +:+ Str.nl +:+
  Str.nl +:+
  "Available tools: read_file, write_file, execute_command, analyze_code" +:+ Str.nl +:+
  Str.nl +:+
  "When user asks for file operations or code analysis, suggest using tools like:" +:+ Str.nl +:+
  "TOOL: read_file path=filename.py" +:+ Str.nl +:+
  "TOOL: write_file path=filename.py content=" +:+ dq +:+ "code here" +:+ dq +:+ Str.nl +:+
  "TOOL: execute_command command=" +:+ dq +:+ "python script.py" +:+ dq +:+ Str.nl +:+
  "TOOL: analyze_code code=" +:+ dq +:+ "code to analyze" +:+ dq +:+ " language=" +:+ dq +:+ "python" +:+ dq +:+ Str.nl +:+
  Str.nl +:+
  "Keep responses under 200 words unless explaining complex concepts.".

(** The heading under which the context lines are appended. *)
Definition context_heading : string :=
  Str.nl +:+ Str.nl +:+ "Project context:" +:+ Str.nl.

(** [_get_system_prompt]; it reads [self.context] only. *)
Definition _get_system_prompt (context : list string) : string :=
  match context with
  | [] => base_prompt
  | _ => base_prompt +:+ context_heading +:+ Str.join Str.nl (take 10 context)
  end.

(** [tool_pattern], compiled with [re.IGNORECASE]. *)
Definition tool_pattern : list Re.item :=
  Re.literal "TOOL:" ++
  [ Re.Star (Re.Class Char.is_space);
    Re.GroupOpen; Re.Plus (Re.Class Char.is_word); Re.GroupClose;
    Re.Star (Re.Class Char.is_space);
    Re.GroupOpen; Re.Star (Re.Class Char.not_newline); Re.GroupClose ].

(** [matches] in [_execute_tool_request]: one pair per match, since the
    pattern has two groups. *)
Definition tool_matches (user_input : string) : list (string * string) :=
  List.map (fun caps => (nth 0 caps "", nth 1 caps ""))
           (Re.findall true tool_pattern user_input).

(** The argument loop at the head of [_execute_tool].  Unpacking a list
    that does not have two elements raises. *)
Definition unpack2 (parts : list string) : outcome (string * string) :=
  match parts with
  | [a; b] => Return (a, b)
  | _ :: _ :: _ :: _ =>
      Raise (Exn ValueError "too many values to unpack (expected 2)")
  | _ =>
      Raise (Exn ValueError
               ("not enough values to unpack (expected 2, got "
                +:+ Str.of_int (Z.of_nat (length parts)) +:+ ")"))
  end.

Fixpoint parse_loop (tokens : list string) (args : gmap string string)
  : outcome (gmap string string) :=
  match tokens with
  | [] => Return args
  | arg :: rest =>
      if Str.contains_char Char.is_equals arg then
        match unpack2 (Str.split1 Char.is_equals arg) with
        | Return (key, value) =>
            parse_loop rest (<[key := Str.strip Char.is_quote value]> args)
        | Raise e => Raise e
        end
      else parse_loop rest args
  end.

Definition parse_args (args_str : string) : outcome (gmap string string) :=
  if Str.is_empty args_str then Return ∅
  else parse_loop (Str.split args_str) ∅.

(** [args.get(key, default)] *)
Definition get (args : gmap string string) (key default : string) : string :=
  match args !! key with Some v => v | None => default end.

(** [str(x)] inside an f-string for a value that may be [None]. *)
Definition str_of_optional (o : option string) : string :=
  match o with Some s => s | None => "None" end.

(** One turn of the loop over [ast.walk(tree)]. *)
Definition visit (acc : names) (n : Ast.node) : names :=
  match Ast.node_kind n with
  | Ast.FunctionDef name =>
      Names (functions acc ++ [name]) (classes acc) (imports acc)
  | Ast.ClassDef name =>
      Names (functions acc) (classes acc ++ [name]) (imports acc)
  | Ast.Import aliases =>
      Names (functions acc) (classes acc) (imports acc ++ aliases)
  | Ast.ImportFrom module =>
      Names (functions acc) (classes acc)
            (imports acc ++ ["from " +:+ str_of_optional module])
  | _ => acc
  end.

Definition collect (tree : Ast.node) : names :=
  fold_left visit (Ast.walk tree) (Names [] [] []).

(** The list [analysis], joined by newlines. *)
Definition report (code : string) (found : names) : string :=
  Str.join Str.nl
    (["Lines of code: " +:+ Str.of_int (Z.of_nat (length (Str.split code)))]
     ++ (match functions found with
         | [] => []
         | fs => ["Functions: " +:+ Str.join ", " fs]
         end)
     ++ (match classes found with
         | [] => []
         | cs => ["Classes: " +:+ Str.join ", " cs]
         end)
     ++ (match imports found with
         | [] => []
         | ims => ["Imports: " +:+ Str.join ", " (take 5 ims)]
         end)).

Section Program.

Context {W : Type} `{Env W}.

Local Open Scope py_scope.

(** [_analyze_code_content]: the two handlers are tried in order. *)
Definition _analyze_code_content (code : string) : outcome string :=
  match ast_parse code with
  | Return tree => Return (report code (collect tree))
  | Raise e =>
      if is_SyntaxError (exn_class e) then
        Return ("Syntax Error: " +:+ exn_str e)
      else if is_Exception (exn_class e) then
        Return ("Analysis Error: " +:+ exn_str e)
      else Raise e
  end.

(** The [try] block of [_execute_tool]. *)
Definition dispatch (tool_name : string) (args : gmap string string)
  : M W string :=
  if String.eqb tool_name "read_file" then
    let path := get args "path" "" in
    if Str.is_empty path then ret "Error: path parameter required"
    else read_text path
  else if String.eqb tool_name "write_file" then
    let path := get args "path" "" in
    let content := get args "content" "" in
    if Str.is_empty path then ret "Error: path parameter required"
    else write_text path content ;; ret ("File written: " +:+ path)
  else if String.eqb tool_name "execute_command" then
    let command := get args "command" "" in
    if Str.is_empty command then ret "Error: command parameter required"
    else
      (result <- subprocess_run command 30 ;
       ret ("Exit code: " +:+ Str.of_int (returncode result) +:+ Str.nl +:+
            "Output: " +:+ stdout result +:+ Str.nl +:+
            "Error: " +:+ stderr result))
  else if String.eqb tool_name "analyze_code" then
    let code := get args "code" "" in
    if Str.is_empty code then ret "Error: code parameter required"
    else of_outcome (_analyze_code_content code)
  else if String.eqb tool_name "list_files" then
    let path := get args "path" "." in
    (files <- listdir path ;
     ret (Str.join Str.nl files))
  else ret ("Unknown tool: " +:+ tool_name).

(** [_execute_tool]: the arguments are parsed before the [try] block. *)
Definition _execute_tool (tool_name args_str : string) : M W string :=
  args <- of_outcome (parse_args args_str) ;
  try_except (dispatch tool_name args) is_Exception
    (fun e => ret ("Tool error: " +:+ exn_str e)).

(** [_execute_tool_request] *)
Definition _execute_tool_request (user_input : string) : M W unit :=
  for_each (tool_matches user_input) (fun '(tool_name, args_str) =>
    result <- _execute_tool tool_name args_str ;
    console_print (Text ("[cyan]Tool result (" +:+ tool_name +:+ "):[/cyan]")) ;;
    console_print (Text result)).

(** A method of [W] run on the whole state. *)
Definition on_world {A} (m : M W A) : M (state W) A :=
  fun st =>
    let '(o, w) := m (world st) in
    (o, State (conversation_history st) (context st) (current_model st) w).

Definition get_state : M (state W) (state W) := fun st => (Return st, st).

(** [self.conversation_history.append(x)] *)
Definition append_history (x : exchange) : M (state W) unit :=
  fun st =>
    (Return tt,
     State (conversation_history st ++ [x]) (context st) (current_model st)
           (world st)).

(** [a and b] where [b] is evaluated only when [a] holds *)
Definition and_then (a : outcome bool) (b : outcome bool) : outcome bool :=
  match a with
  | Return true => b
  | other => other
  end.

Definition outcome_bind {A B} (o : outcome A) (f : A -> outcome B) : outcome B :=
  match o with
  | Return a => f a
  | Raise e => Raise e
  end.

(** The body of the branch [response.status_code == 200]: the reply, or
    [None] when [choices] is missing or empty. *)
Definition extract_reply (resp : response) : outcome Py.val :=
  outcome_bind (json resp) (fun data =>
  outcome_bind (and_then (Py.contains "choices" data)
                  (outcome_bind (Py.getitem data "choices")
                     (fun c => Return (Py.truthy c)))) (fun present =>
  if present then
    outcome_bind (Py.getitem data "choices") (fun choices =>
    outcome_bind (Py.getitem0 choices) (fun first =>
    outcome_bind (Py.getitem first "message") (fun msg =>
    Py.getitem msg "content")))
  else Return Py.VNone)).

(** [_send_to_model] *)
Definition _send_to_model (messages : list message) : M (state W) Py.val :=
  st <- get_state ;
  try_except
    (resp <- on_world (post_messages (current_model st) messages) ;
     if (status_code resp =? 200)%Z then of_outcome (extract_reply resp)
     else
       on_world (console_print
         (Text ("[red]Model error: HTTP " +:+ Str.of_int (status_code resp)
                +:+ "[/red]"))) ;;
       ret Py.VNone)
    is_RequestException
    (fun e =>
       on_world (console_print
         (Text ("[red]Connection error: " +:+ exn_str e +:+ "[/red]"))) ;;
       on_world (console_print
         (Text "[yellow]Check if your local model server is running[/yellow]")) ;;
       ret Py.VNone).

(** [_display_response] *)
Definition _display_response (reply : Py.val) : M (state W) unit :=
  fenced <- of_outcome (Py.contains "```" reply) ;
  if fenced then on_world (console_print (Markdown reply))
  else on_world (console_print (Panel reply)).

(** The messages built in [_process_conversation] before the request. *)
Definition splice (messages : list message) (e : exchange) : list message :=
  Py.insert (-1) (Message "assistant" (assistant e))
    (Py.insert (-1) (Message "user" (Py.VStr (user e))) messages).

Definition build_messages (context : list string) (history : list exchange)
    (user_input : string) : list message :=
  let messages :=
    [ Message "system" (Py.VStr (_get_system_prompt context));
      Message "user" (Py.VStr user_input) ] in
  match history with
  | [] => messages
  | _ => fold_left splice (Py.slice_from (-3) history) messages
  end.

(** [_process_conversation] *)
Definition _process_conversation (user_input : string) : M (state W) unit :=
  if Str.contains "TOOL:" (Str.upper user_input) then
    on_world (_execute_tool_request user_input)
  else
    st <- get_state ;
    let messages :=
      build_messages (context st) (conversation_history st) user_input in
    reply <- _send_to_model messages ;
    if Py.truthy reply then
      _display_response reply ;;
      stamp <- on_world now_isoformat ;
      append_history (Exchange user_input reply stamp)
    else
      on_world (console_print
        (Text "[red]Error: Could not get response from model[/red]")).

End Program.

(** ** Notions used to state the properties *)

(** Every exception the environment raises derives from [Exception]
    (an I/O or permission error, an expired timeout, a decoding error, a
    parser error), as opposed to an interrupt of the process. *)
Definition ordinary_faults {W} `{Env W} : Prop :=
  (forall p w e w', read_text p w = (Raise e, w') -> is_Exception (exn_class e) = true) /\
  (forall p c w e w', write_text p c w = (Raise e, w') -> is_Exception (exn_class e) = true) /\
  (forall c t w e w', subprocess_run c t w = (Raise e, w') -> is_Exception (exn_class e) = true) /\
  (forall p w e w', listdir p w = (Raise e, w') -> is_Exception (exn_class e) = true) /\
  (forall code e, ast_parse code = Raise e -> is_Exception (exn_class e) = true).

(** The names of the five built-in tools. *)
Definition registry : list string :=
  ["read_file"; "write_file"; "execute_command"; "analyze_code"; "list_files"].

Fixpoint lower_ascii (s : string) : string :=
  match s with
  | "" => ""
  | String c s' => String (Char.lower c) (lower_ascii s')
  end.

(** [needle] occurs in [s] in some letter case. *)
Definition occurs_ci (needle s : string) : Prop :=
  exists pre mid post,
    s = pre +:+ mid +:+ post /\ lower_ascii mid = lower_ascii needle.

(** [s] starts with [p], letter case apart. *)
Fixpoint starts_with_ci (p s : string) : bool :=
  match p, s with
  | "", _ => true
  | String a p', String b s' =>
      Ascii.eqb (Char.lower b) (Char.lower a) && starts_with_ci p' s'
  | _, "" => false
  end.

(** The match of [tool_pattern] at the start of a text, written out: the
    keyword, blanks, the longest run of word characters as the name,
    blanks again, and the characters up to the next newline as the
    arguments.  The result is the two groups and the text that is left. *)
Definition match_tool_at (s : string) : option Re.result :=
  if starts_with_ci "TOOL:" s then
    let s2 := Str.drop_while Char.is_space (Str.drop 5 s) in
    let name := Str.take_while Char.is_word s2 in
    if Str.is_empty name then None
    else
      let s4 := Str.drop_while Char.is_space (Str.drop_while Char.is_word s2) in
      Some ([name; Str.take_while Char.not_newline s4],
            Str.drop_while Char.not_newline s4)
  else None.

(** [t] is what is left of [s] after some of its first characters. *)
Definition suffix_of (t s : string) : Prop := exists pre, s = pre +:+ t.

(** The key and the raw value of an argument token: the text before and
    after its first equals sign. *)
Definition binding_of (arg : string) : option (string * string) :=
  if Str.contains_char Char.is_equals arg then
    Some (Str.take_while (fun c => negb (Char.is_equals c)) arg,
          match Str.drop_while (fun c => negb (Char.is_equals c)) arg with
          | String _ v => v
          | "" => ""
          end)
  else None.

(** The value of the last pair with the given key. *)
Fixpoint lookup_last (key : string) (l : list (string * string)) : option string :=
  match l with
  | [] => None
  | (k, v) :: rest =>
      match lookup_last key rest with
      | Some v' => Some v'
      | None => if String.eqb k key then Some v else None
      end
  end.

(** A word: not empty and without blanks. *)
Definition blank_free (t : string) : Prop :=
  t <> "" /\ Str.contains_char Char.is_space t = false.

Fixpoint all_chars (p : ascii -> bool) (s : string) : bool :=
  match s with
  | "" => true
  | String c s' => p c && all_chars p s'
  end.

Definition first_char (s : string) : option ascii :=
  match s with String c _ => Some c | "" => None end.

Fixpoint last_char (s : string) : option ascii :=
  match s with
  | "" => None
  | String c "" => Some c
  | String _ s' => last_char s'
  end.

(** The last [k] elements of a list. *)
Definition last_k {A} (k : nat) (l : list A) : list A :=
  drop (length l - k) l.

(** The two messages an exchange of the history is sent as. *)
Definition exchange_pair (e : exchange) : list message :=
  [Message "user" (Py.VStr (user e)); Message "assistant" (assistant e)].

Definition def_name (n : Ast.node) : option string :=
  match Ast.node_kind n with Ast.FunctionDef name => Some name | _ => None end.

Definition class_name (n : Ast.node) : option string :=
  match Ast.node_kind n with Ast.ClassDef name => Some name | _ => None end.

Definition import_targets (n : Ast.node) : list string :=
  match Ast.node_kind n with
  | Ast.Import aliases => aliases
  | Ast.ImportFrom module => ["from " +:+ str_of_optional module]
  | _ => []
  end.

(** The decoded response is an object whose [choices] is not empty. *)
Definition has_choices (data : Py.val) : Prop :=
  exists d c, data = Py.VDict d /\ Py.assoc "choices" d = Some c
              /\ Py.truthy c = true.

(** A call that leaves [self.conversation_history] as it was, whether it
    returns or raises. *)
Definition keeps_history {W A} (m : M (state W) A) : Prop :=
  forall st, conversation_history (m st).2 = conversation_history st.

(** A line of the report: absent when there is no name to list. *)
Definition optional_line (heading : string) (l : list string) : list string :=
  match l with
  | [] => []
  | _ => [heading +:+ Str.join ", " l]
  end.

Module AstOrder.

Fixpoint height (n : Ast.node) : nat :=
  match n with
  | Ast.Node _ cs => S (list_max (List.map height cs))
  end.

Definition forest_height (l : list Ast.node) : nat := list_max (List.map height l).

(** The children of the trees of a forest, from left to right. *)
Definition child_forest (l : list Ast.node) : list Ast.node :=
  List.concat (List.map Ast.children l).

(** Breadth-first order: the trees of the forest, then the nodes one level
    down, and so on for [depth] levels. *)
Fixpoint level_order (depth : nat) (l : list Ast.node) : list Ast.node :=
  match depth with
  | 0 => []
  | S d => l ++ level_order d (child_forest l)
  end.

Definition document_forest (l : list Ast.node) : list Ast.node :=
  List.concat (List.map Ast.document_order l).

Definition breadth_first (tree : Ast.node) : list Ast.node :=
  level_order (height tree) [tree].

End AstOrder.

(** ** A small environment to run the program in *)

Module Demo.

Record world := World {
  files : gmap string string;
  endpoint : outcome response;
  console : list renderable;
  ticks : nat
}.

Definition no_such_file (p : string) : exn :=
  Exn OSError ("[Errno 2] No such file or directory: '" +:+ p +:+ "'").

Definition demo_read (p : string) : M world string :=
  fun w =>
    match files w !! p with
    | Some c => (Return c, w)
    | None => (Raise (no_such_file p), w)
    end.

Definition demo_write (p c : string) : M world unit :=
  fun w =>
    (Return tt, World (<[p := c]> (files w)) (endpoint w) (console w) (ticks w)).

Definition demo_listdir (p : string) : M world (list string) :=
  fun w =>
    if String.eqb p "." then (Return (List.map fst (map_to_list (files w))), w)
    else (Raise (no_such_file p), w).

Definition demo_post (model : string) (messages : list message) : M world response :=
  fun w => (endpoint w, w).

Definition demo_now : M world string :=
  fun w =>
    (Return ("2024-01-01T00:00:" +:+ pretty (ticks w)),
     World (files w) (endpoint w) (console w) (S (ticks w))).

Definition demo_print (x : renderable) : M world unit :=
  fun w =>
    (Return tt, World (files w) (endpoint w) (console w ++ [x]) (ticks w)).

(** A shell in which [false] exits with status 1, [hang] outlives any
    timeout and every other command succeeds silently. *)
Definition demo_shell (c : string) (t : Z) : outcome completed :=
  if String.eqb c "false" then Return (Completed 1 "" "")
  else if String.eqb c "hang" then
    Raise (Exn TimeoutExpired
             ("Command '" +:+ c +:+ "' timed out after " +:+ pretty t +:+ " seconds"))
  else Return (Completed 0 "" "").

Definition demo_run (c : string) (t : Z) : M world completed :=
  fun w => (demo_shell c t, w).

(** [def f(): pass / class C: pass / import os] *)
Definition three_lines_src : string :=
  "def f(): pass" +:+ Str.nl +:+ "class C: pass" +:+ Str.nl +:+ "import os".

Definition three_lines_tree : Ast.node :=
  Ast.Node Ast.Module_
    [ Ast.Node (Ast.FunctionDef "f") [Ast.Node Ast.Other []; Ast.Node Ast.Other []];
      Ast.Node (Ast.ClassDef "C") [Ast.Node Ast.Other []];
      Ast.Node (Ast.Import ["os"]) [Ast.Node Ast.Other []] ].

(** [def f(): / def g(): pass / def h(): pass], with [g] inside [f]. *)
Definition nested_src : string :=
  "def f():" +:+ Str.nl +:+ "    def g(): pass" +:+ Str.nl +:+ "def h(): pass".

Definition nested_tree : Ast.node :=
  Ast.Node Ast.Module_
    [ Ast.Node (Ast.FunctionDef "f")
        [ Ast.Node Ast.Other [];
          Ast.Node (Ast.FunctionDef "g") [Ast.Node Ast.Other []; Ast.Node Ast.Other []] ];
      Ast.Node (Ast.FunctionDef "h") [Ast.Node Ast.Other []; Ast.Node Ast.Other []] ].

(** The trees [ast.parse] builds for the two texts above; the text
    [def f(:] is rejected. *)
Definition demo_parse (code : string) : outcome Ast.node :=
  if String.eqb code three_lines_src then Return three_lines_tree
  else if String.eqb code nested_src then Return nested_tree
  else Raise (Exn SyntaxError "invalid syntax (<unknown>, line 1)").

#[global] Instance env : Env world := {
  read_text := demo_read;
  write_text := demo_write;
  subprocess_run := demo_run;
  listdir := demo_listdir;
  ast_parse := demo_parse;
  post_messages := demo_post;
  now_isoformat := demo_now;
  console_print := demo_print
}.

Definition http_500 : outcome response := Return (Response 500 (Return Py.VNone)).

Definition reply_json (text : string) : Py.val :=
  Py.VDict [("choices",
     Py.VList [Py.VDict [("message", Py.VDict [("role", Py.VStr "assistant");
                                               ("content", Py.VStr text)])]])].

Definition http_ok (text : string) : outcome response :=
  Return (Response 200 (Return (reply_json text))).

(** A world with one file, [x], holding [hello]. *)
Definition w0 : world :=
  World {["x" := "hello"]} http_500 [] 0.

Definition st0 : state world := State [] [] "default" w0.

End Demo.

(** ** The small environment with the parser of Python 3.11

    [ast.parse] of Python 3.11 refuses a text that holds a null character
    with a [ValueError], before it parses anything. *)

Module NulDemo.

Definition is_nul (c : ascii) : bool := (Char.code c =? 0)%N.

Definition nul_parse (code : string) : outcome Ast.node :=
  if Str.contains_char is_nul code
  then Raise (Exn ValueError "source code string cannot contain null bytes")
  else Demo.demo_parse code.

#[export] Instance env : Env Demo.world := {
  read_text := Demo.demo_read;
  write_text := Demo.demo_write;
  subprocess_run := Demo.demo_run;
  listdir := Demo.demo_listdir;
  ast_parse := nul_parse;
  post_messages := Demo.demo_post;
  now_isoformat := Demo.demo_now;
  console_print := Demo.demo_print
}.

(** The text [x = 1] followed by a null character. *)
Definition with_nul : string := "x = 1" +:+ String (ascii_of_N 0) "".

End NulDemo.

(** * The rest of the class *)

(** ** Notions for the tool protocol and the turn *)

(** What was written to a file is what reading it gives next. *)
Definition reads_back {W} `{Env W} : Prop :=
  forall p c w w1,
    write_text p c w = (Return tt, w1) -> read_text p w1 = (Return c, w1).

(** A call that leaves a part of the state as it was, whether it returns
    or raises. *)
Definition keeps {W A B} (part : state W -> B) (m : M (state W) A) : Prop :=
  forall st, part (m st).2 = part st.

(** What [_execute_tool] makes of the outcome of a call [m] inside its
    [try] block, once [render] has made the result text. *)
Definition tool_boundary {W A} (m : M W A) (render : A -> string) : M W string :=
  fun w =>
    match m w with
    | (Return a, w') => (Return (render a), w')
    | (Raise e, w') =>
        if is_Exception (exn_class e)
        then (Return ("Tool error: " +:+ exn_str e), w')
        else (Raise e, w')
    end.


(** ** More of the [str] methods *)

Module Text.

(** [s.split(sep)] for a one-character separator; the result is never
    empty. *)
Fixpoint split_on (sep : ascii -> bool) (s : string) : list string :=
  match s with
  | "" => [""]
  | String c s' =>
      if sep c then "" :: split_on sep s'
      else match split_on sep s' with
           | a :: rest => String c a :: rest
           | [] => [String c ""]
           end
  end.

(** [str.lower] on one character. *)
Definition lower_char (c : ascii) : ascii :=
  if Char.is_ascii_upper c || Char.between 192 214 c || Char.between 216 222 c
  then ascii_of_N (Char.code c + 32)
  else c.

(** [s.lower()] *)
Fixpoint lower (s : string) : string :=
  match s with
  | "" => ""
  | String c s' => String (lower_char c) (lower s')
  end.

(** The characters whose upper case lies within U+0000 to U+00FF: all but
    U+00B5 and U+00FF.  On a text made of them [Str.upper] is
    [str.upper]. *)
Definition upper_in_range (s : string) : bool :=
  negb (Str.contains_char
          (fun c => (Char.code c =? 181)%N || (Char.code c =? 255)%N) s).

End Text.

(** ** More of what the program obtains from outside *)

(** What is handed to [console.print] besides text: the panel around the
    highlighted source,
    [Panel(Syntax(content, "python", theme="monokai", line_numbers=True),
    title=title)]. *)
Inductive display :=
| SyntaxPanel (content title : string).

Class Host (W : Type) := {
  (** [os.path.exists(path)] *)
  path_exists : string -> M W bool;
  (** [with open(path, 'r') as f: json.load(f)] *)
  json_load : string -> M W Py.val;
  (** [with open(path, 'w') as f: json.dump(value, f, indent=2)] *)
  json_dump : string -> Py.val -> M W unit;
  (** [datetime.now().strftime(format)] *)
  strftime_now : string -> M W string;
  (** [console.print(x)] for a panel *)
  print_display : display -> M W unit;
  (** The exception raised when an object of the type named has no
      attribute of the name given; its class, [AttributeError], derives
      from [Exception]. *)
  attribute_error : string -> string -> exn
}.

(** The check mark U+2713 of some messages.  It lies outside the range of
    the characters modelled and stands here as the three bytes of its
    UTF-8 form; it only occurs in text handed to the console. *)
Definition check_mark : string :=
  String (ascii_of_N 226) (String (ascii_of_N 156) (String (ascii_of_N 147) "")).

(** ** Dictionaries *)

Module PyDict.

(** [d[key] = value] on the items of a dictionary: the value of an
    existing key is replaced in place, a new key goes to the end. *)
Fixpoint assoc_set (key : string) (v : Py.val) (d : list (string * Py.val))
  : list (string * Py.val) :=
  match d with
  | [] => [(key, v)]
  | (k, x) :: rest =>
      if String.eqb k key then (k, v) :: rest
      else (k, x) :: assoc_set key v rest
  end.

(** [target[key] = value] for a [str] key *)
Definition setitem (target : Py.val) (key : string) (v : Py.val)
  : outcome Py.val :=
  match target with
  | Py.VDict d => Return (Py.VDict (assoc_set key v d))
  | Py.VList _ =>
      Raise (Exn TypeError "list indices must be integers or slices, not str")
  | _ => Raise (Exn TypeError
             ("'" +:+ Py.type_name target
              +:+ "' object does not support item assignment"))
  end.

(** [target.get(key, default)] *)
Definition get_method {W} `{Host W} (target : Py.val) (key : string)
    (default : Py.val) : outcome Py.val :=
  match target with
  | Py.VDict d =>
      Return (match Py.assoc key d with Some v => v | None => default end)
  | _ => Raise (attribute_error (Py.type_name target) "get")
  end.

End PyDict.

(** ** The context file, the file analysis and the configuration *)

(** What [self.config] holds for [_show_config]: the names that
    [sections()] returns and, for each, the keys that iterating over the
    section gives, each with the outcome of the lookup [section[key]].
    The lookup interpolates the stored value, so it may give a text that
    embeds the values of other keys, and it may raise; [items()] performs
    it when the loop reaches the key, not before. *)
Definition config_items : Type :=
  list (string * list (string * outcome string)).

(** [any(secret in key.lower() for secret in ['key', 'token', 'password'])] *)
Definition is_sensitive (key : string) : bool :=
  existsb (fun secret => Str.contains secret (Text.lower key))
          ["key"; "token"; "password"].

Section MoreOfTheClass.

Context {W : Type} `{Env W} `{Host W}.

Local Open Scope py_scope.

(** [self.context = lines] *)
Definition set_context (lines : list string) : M (state W) unit :=
  fun st =>
    (Return tt,
     State (conversation_history st) lines (current_model st) (world st)).

(** [_load_context] *)
Definition _load_context : M (state W) unit :=
  present <- on_world (path_exists "aicode.md") ;
  if present then
    try_except
      (content <- on_world (read_text "aicode.md") ;
       set_context (Text.split_on Char.is_newline content) ;;
       on_world (console_print
         (Text ("[green]" +:+ check_mark
                +:+ " Loaded context from aicode.md[/green]"))))
      is_Exception
      (fun e =>
         on_world (console_print
           (Text ("[yellow]Warning: Could not load context: " +:+ exn_str e
                  +:+ "[/yellow]"))))
  else ret tt.


(** The line [_show_config] prints for an item. *)
Definition config_line (key value : string) : string :=
  let value := if is_sensitive key then "***" else value in
  "  " +:+ key +:+ ": " +:+ value.

(** [_show_config], given what [self.config] holds.  The heading is the
    program's for section names within [Text.upper_in_range]. *)
Definition _show_config (config : config_items) : M W unit :=
  console_print (Text "[bold cyan]Configuration[/bold cyan]") ;;
  for_each config (fun '(section_name, items) =>
    console_print
      (Text (Str.nl +:+ "[yellow]" +:+ Str.upper section_name
             +:+ ":[/yellow]")) ;;
    for_each items (fun '(key, lookup) =>
      value <- of_outcome lookup ;
      console_print (Text (config_line key value)))).

End MoreOfTheClass.

(** ** Sessions *)

(** The fields of [self] that a session stores, as the Python values they
    are: loading assigns to them whatever the file holds. *)
Record pyself := PySelf {
  self_conversation_history : Py.val;
  self_context : Py.val;
  self_current_model : Py.val;
  self_theme : Py.val
}.

Record pystate (W : Type) := PyState { self : pyself; outside : W }.
Arguments PyState {W}.
Arguments self {W}.
Arguments outside {W}.

(** The dictionary [session_data] of [_save_session]. *)
Definition session_data (s : pyself) (stamp : string) : Py.val :=
  Py.VDict
    [ ("conversation_history", self_conversation_history s);
      ("context", self_context s);
      ("current_model", self_current_model s);
      ("theme", self_theme s);
      ("timestamp", Py.VStr stamp) ].

Section Sessions.

Context {W : Type} `{Env W} `{Host W}.

Local Open Scope py_scope.

Definition on_outside {A} (m : M W A) : M (pystate W) A :=
  fun s => let '(o, w) := m (outside s) in (o, PyState (self s) w).

Definition get_self : M (pystate W) pyself := fun s => (Return (self s), s).

Definition set_self (f : pyself -> pyself) : M (pystate W) unit :=
  fun s => (Return tt, PyState (f (self s)) (outside s)).

(** [_save_session]; [name] is [None] when the command gave none. *)
Definition _save_session (name : option string) : M (pystate W) unit :=
  name <- match name with
          | Some n =>
              if Str.is_empty n then
                stamp <- on_outside (strftime_now "%Y%m%d_%H%M") ;
                ret ("session_" +:+ stamp)
              else ret n
          | None =>
              stamp <- on_outside (strftime_now "%Y%m%d_%H%M") ;
              ret ("session_" +:+ stamp)
          end ;
  s <- get_self ;
  stamp <- on_outside now_isoformat ;
  let data := session_data s stamp in
  try_except
    (present <- on_outside (path_exists "sessions.json") ;
     all_sessions <- (if present then on_outside (json_load "sessions.json")
                      else ret (Py.VDict [])) ;
     all_sessions <- of_outcome (PyDict.setitem all_sessions name data) ;
     on_outside (json_dump "sessions.json" all_sessions) ;;
     on_outside (console_print
       (Text ("[green]Session saved as '" +:+ name +:+ "'[/green]"))))
    is_Exception
    (fun e =>
       on_outside (console_print
         (Text ("[red]Error saving session: " +:+ exn_str e +:+ "[/red]")))).

(** [_load_session] *)
Definition _load_session (name : string) : M (pystate W) unit :=
  try_except
    (present <- on_outside (path_exists "sessions.json") ;
     if present then
       all_sessions <- on_outside (json_load "sessions.json") ;
       found <- of_outcome (Py.contains name all_sessions) ;
       if found then
         data <- of_outcome (Py.getitem all_sessions name) ;
         history <- of_outcome
           (PyDict.get_method data "conversation_history" (Py.VList [])) ;
         set_self (fun s => PySelf history (self_context s)
                              (self_current_model s) (self_theme s)) ;;
         lines <- of_outcome (PyDict.get_method data "context" (Py.VList [])) ;
         set_self (fun s => PySelf (self_conversation_history s) lines
                              (self_current_model s) (self_theme s)) ;;
         model <- of_outcome
           (PyDict.get_method data "current_model" (Py.VStr "default")) ;
         set_self (fun s => PySelf (self_conversation_history s) (self_context s)
                              model (self_theme s)) ;;
         theme <- of_outcome
           (PyDict.get_method data "theme" (Py.VStr "default")) ;
         set_self (fun s => PySelf (self_conversation_history s) (self_context s)
                              (self_current_model s) theme) ;;
         on_outside (console_print
           (Text ("[green]Session '" +:+ name +:+ "' loaded[/green]")))
       else
         on_outside (console_print
           (Text ("[red]Session '" +:+ name +:+ "' not found[/red]")))
     else
       on_outside (console_print
         (Text "[yellow]No saved sessions found[/yellow]")))
    is_Exception
    (fun e =>
       on_outside (console_print
         (Text ("[red]Error loading session: " +:+ exn_str e +:+ "[/red]")))).

(** The JSON files of a world, [files], behave as files: a path exists
    when it has a file, loading gives what the file holds, a completed
    dump makes the file hold the value, and printing and reading the clock
    leave the files alone. *)
Definition json_store (files : W -> gmap string Py.val) : Prop :=
  (forall p w, path_exists p w = (Return (bool_decide (is_Some (files w !! p))), w))
  /\ (forall p w v, files w !! p = Some v -> json_load p w = (Return v, w))
  /\ (forall p v w w',
        json_dump p v w = (Return tt, w') -> files w' = <[p := v]> (files w))
  /\ (forall x w o w', console_print x w = (o, w') -> files w' = files w)
  /\ (forall w o w', now_isoformat w = (o, w') -> files w' = files w)
  /\ (forall f w o w', strftime_now f w = (o, w') -> files w' = files w).

End Sessions.

(** ** A second small environment: files holding values, and a console *)

Module Desk.

(** A file holds a value: a text file holds a string. *)
Record world := World {
  store : gmap string Py.val;
  printed : list renderable;
  shown : list display
}.

Definition no_such_file (p : string) : exn :=
  Exn OSError ("[Errno 2] No such file or directory: '" +:+ p +:+ "'").

Definition desk_read (p : string) : M world string :=
  fun w =>
    match store w !! p with
    | Some (Py.VStr text) => (Return text, w)
    | Some _ => (Raise (Exn UnicodeError "invalid start byte"), w)
    | None => (Raise (no_such_file p), w)
    end.

Definition desk_write (p c : string) : M world unit :=
  fun w => (Return tt, World (<[p := Py.VStr c]> (store w)) (printed w) (shown w)).

Definition desk_run (c : string) (t : Z) : M world completed :=
  fun w => (Return (Completed 0 "" ""), w).

Definition desk_listdir (p : string) : M world (list string) :=
  fun w => (Return (List.map fst (map_to_list (store w))), w).

Definition desk_post (model : string) (messages : list message) : M world response :=
  fun w => (Raise (Exn RequestException "connection refused"), w).

Definition desk_now : M world string :=
  fun w => (Return "2024-01-01T00:00:00", w).

Definition desk_print (x : renderable) : M world unit :=
  fun w => (Return tt, World (store w) (printed w ++ [x]) (shown w)).

#[export] Instance env : Env world := {
  read_text := desk_read;
  write_text := desk_write;
  subprocess_run := desk_run;
  listdir := desk_listdir;
  ast_parse := Demo.demo_parse;
  post_messages := desk_post;
  now_isoformat := desk_now;
  console_print := desk_print
}.

Definition desk_exists (p : string) : M world bool :=
  fun w => (Return (bool_decide (is_Some (store w !! p))), w).

Definition desk_load (p : string) : M world Py.val :=
  fun w =>
    match store w !! p with
    | Some v => (Return v, w)
    | None => (Raise (no_such_file p), w)
    end.

Definition desk_dump (p : string) (v : Py.val) : M world unit :=
  fun w => (Return tt, World (<[p := v]> (store w)) (printed w) (shown w)).

Definition desk_strftime (format : string) : M world string :=
  fun w => (Return "20240101_0000", w).

Definition desk_show (d : display) : M world unit :=
  fun w => (Return tt, World (store w) (printed w) (shown w ++ [d])).

(** [AttributeError] is not one of the classes listed; in this
    environment an exception of another class derived from [Exception]
    stands for it, with its message. *)
Definition desk_attribute_error (type attribute : string) : exn :=
  Exn TypeError
    ("'" +:+ type +:+ "' object has no attribute '" +:+ attribute +:+ "'").

#[export] Instance host : Host world := {
  path_exists := desk_exists;
  json_load := desk_load;
  json_dump := desk_dump;
  strftime_now := desk_strftime;
  print_display := desk_show;
  attribute_error := desk_attribute_error
}.

Definition empty : world := World ∅ [] [].

(** A context file of two lines. *)
Definition with_context : world :=
  World {[ "aicode.md" := Py.VStr ("A parser" +:+ Str.nl +:+ "in Python") ]} [] [].

(** The lookup of a value with a percent sign that starts no reference.
    [InterpolationSyntaxError] is not one of the classes listed; an
    exception of another class derived from [Exception] stands for it,
    with its message. *)
Definition bad_percent : exn :=
  Exn ValueError
    "'%' must be followed by '%' or '(', found: '% done'".

Definition config : config_items :=
  [ ("models",
     [("default", Return "http://localhost:11434/v1/chat/completions")]);
    ("settings",
     [("temperature", Return "0.7"); ("api_key", Return "sk-12345");
      ("progress", Raise bad_percent); ("timeout", Return "30")]) ].

Definition config_other_key : config_items :=
  [ ("models",
     [("default", Return "http://localhost:11434/v1/chat/completions")]);
    ("settings",
     [("temperature", Return "0.7"); ("api_key", Return "sk-99999");
      ("progress", Raise bad_percent); ("timeout", Return "30")]) ].

Definition alice : pyself :=
  PySelf
    (Py.VList [Py.VDict [("user", Py.VStr "hi"); ("assistant", Py.VStr "hello");
                         ("timestamp", Py.VStr "2024-01-01T00:00:00")]])
    (Py.VList [Py.VStr "A parser"])
    (Py.VStr "ollama")
    (Py.VStr "dark").

Definition fresh : pyself :=
  PySelf (Py.VList []) (Py.VList []) (Py.VStr "default") (Py.VStr "default").

End Desk.

(** ** Notions for the configuration, the file analysis and the sessions *)

(** Two items with the same key whose lookups have the same outcome, or,
    for a sensitive key, both return a value. *)
Definition same_item (a b : string * outcome string) : Prop :=
  a.1 = b.1
  /\ (a.2 = b.2
      \/ (is_sensitive a.1 = true
          /\ exists v1 v2, a.2 = Return v1 /\ b.2 = Return v2)).

(** Two configurations with the same sections and keys whose lookups
    differ at most in the values returned for sensitive keys. *)
Definition same_but_secrets (c1 c2 : config_items) : Prop :=
  Forall2 (fun s1 s2 => s1.1 = s2.1 /\ Forall2 same_item s1.2 s2.2) c1 c2.


(** The clock can be read and a dump completes. *)
Definition saving_works {W} `{Env W} `{Host W} : Prop :=
  (forall w, exists stamp w', now_isoformat w = (Return stamp, w'))
  /\ (forall p v w, exists w', json_dump p v w = (Return tt, w')).

(** The fields after [_load_session name] when the sessions file holds
    [file]: those of the session stored under [name], with the defaults
    for what it lacks, or the fields as they were when there is no such
    session. *)
Definition restored (name : string) (file : Py.val) (s : pyself) : pyself :=
  match file with
  | Py.VDict d =>
      match Py.assoc name d with
      | Some (Py.VDict data) =>
          PySelf
            (match Py.assoc "conversation_history" data with
             | Some v => v | None => Py.VList [] end)
            (match Py.assoc "context" data with
             | Some v => v | None => Py.VList [] end)
            (match Py.assoc "current_model" data with
             | Some v => v | None => Py.VStr "default" end)
            (match Py.assoc "theme" data with
             | Some v => v | None => Py.VStr "default" end)
      | _ => s
      end
  | _ => s
  end.

(** The items of the sessions file before a save: none without a file. *)
Definition sessions_before {W} (files : W -> gmap string Py.val) (w : W)
  : option (list (string * Py.val)) :=
  match files w !! "sessions.json" with
  | None => Some []
  | Some (Py.VDict d) => Some d
  | Some _ => None
  end.

(** A call that leaves the fields of [self] as they were. *)
Definition keeps_self {W A} (m : M (pystate W) A) : Prop :=
  forall s, self (m s).2 = self s.

(** A world whose sessions file holds one session, saved under
    [friday]. *)
Definition desk_with_session : Desk.world :=
  Desk.World
    {[ "sessions.json" :=
         Py.VDict [("friday", session_data Desk.alice "2024-01-01T00:00:00")] ]}
    [] [].

(** The invocation of [name] with [args] stands in [text] and its
    arguments reach to the end of the text: before it comes any text, then
    the keyword in some letter case, blanks, the name, blanks and the
    arguments. *)
Definition reaches_the_end (text name args : string) : Prop :=
  exists before kw blanks1 blanks2,
    text = before +:+ kw +:+ blanks1 +:+ name +:+ blanks2 +:+ args
    /\ lower_ascii kw = "tool:"
    /\ all_chars Char.is_space blanks1 = true
    /\ all_chars Char.is_space blanks2 = true.

(** * Properties *)

(** ** The primitives on concrete inputs *)

Example split_words :
  Str.split "  path=a.txt   mode=r " = ["path=a.txt"; "mode=r"]
  /\ Str.split ("a" +:+ Str.nl +:+ "b") = ["a"; "b"]
  /\ Str.split "   " = [].
Proof. repeat split; reflexivity. Qed.

Example strip_quotes :
  Str.strip Char.is_quote (dq +:+ "it's" +:+ dq +:+ "'") = "it's"
  /\ Str.strip Char.is_quote (dq +:+ dq) = "".
Proof. split; reflexivity. Qed.

Example split1_first_equals :
  Str.split1 Char.is_equals "a=b=c" = ["a"; "b=c"]
  /\ Str.split1 Char.is_equals "abc" = ["abc"]
  /\ Str.split1 Char.is_equals "=" = [""; ""].
Proof. repeat split; reflexivity. Qed.

Example upper_text : Str.upper "Tool: x" = "TOOL: X".
Proof. reflexivity. Qed.

Example int_text : Str.of_int (-9) = "-9" /\ Str.of_int 127 = "127".
Proof. split; reflexivity. Qed.

Example join_lines : Str.join ", " ["f"; "h"; "g"] = "f, h, g".
Proof. reflexivity. Qed.

Example insert_before_last_element :
  Py.insert (-1) 8 (Py.insert (-1) 7 [1; 2]) = [1; 7; 8; 2]
  /\ Py.insert (-1) 7 ([] : list nat) = [7].
Proof. split; reflexivity. Qed.

Example slice_last_three :
  Py.slice_from (-3) [1; 2; 3; 4; 5] = [3; 4; 5]
  /\ Py.slice_from (-3) [1; 2] = [1; 2].
Proof. split; reflexivity. Qed.

Example findall_samples :
  tool_matches ("tool:read_file" +:+ Str.nl +:+ "path=x  " +:+ Str.nl +:+
                "TOOL: !!! TOOL:" +:+ Str.nl +:+ " abc d=e TOOL: zz")
  = [("read_file", "path=x  "); ("abc", "d=e TOOL: zz")]
  /\ tool_matches "TOOL: a TOOL: b" = [("a", "TOOL: b")]
  /\ tool_matches "please use TOOL: !!!" = [].
Proof. repeat split; reflexivity. Qed.

Example walk_nested :
  List.map Ast.node_kind (Ast.walk Demo.nested_tree)
  = [ Ast.Module_; Ast.FunctionDef "f"; Ast.FunctionDef "h"; Ast.Other;
      Ast.FunctionDef "g"; Ast.Other; Ast.Other; Ast.Other; Ast.Other ].
Proof. reflexivity. Qed.

(** ** Strings *)

Lemma append_cons (c : ascii) (a b : string) :
  String c a +:+ b = String c (a +:+ b).
Proof. reflexivity. Qed.

Lemma append_nil_l (b : string) : "" +:+ b = b.
Proof. reflexivity. Qed.

Lemma append_nil_r (s : string) : s +:+ "" = s.
Proof. induction s as [|c s IH]; [done | by rewrite append_cons, IH]. Qed.

Lemma append_assoc (a b c : string) : (a +:+ b) +:+ c = a +:+ b +:+ c.
Proof. induction a as [|x a IH]; [done | by rewrite !append_cons, IH]. Qed.

Lemma length_append (a b : string) :
  String.length (a +:+ b) = String.length a + String.length b.
Proof. induction a as [|x a IH]; [done | by rewrite append_cons; simpl; rewrite IH]. Qed.

Lemma is_empty_true (s : string) : Str.is_empty s = true -> s = "".
Proof. by destruct s. Qed.

Lemma take_drop_while (p : ascii -> bool) (s : string) :
  s = Str.take_while p s +:+ Str.drop_while p s.
Proof.
  induction s as [|c s IH]; simpl; [done |].
  destruct (p c); [by rewrite append_cons, <- IH | done].
Qed.

Lemma take_while_all (p : ascii -> bool) (s : string) :
  all_chars p (Str.take_while p s) = true.
Proof.
  induction s as [|c s IH]; simpl; [done |].
  destruct (p c) eqn:E; simpl; [by rewrite E | done].
Qed.

Lemma drop_while_first (p : ascii -> bool) (s : string) (c : ascii) :
  first_char (Str.drop_while p s) = Some c -> p c = false.
Proof.
  induction s as [|x s IH]; simpl; [done |].
  destruct (p x) eqn:E; simpl; [done | congruence].
Qed.

Lemma rstrip_decompose (p : ascii -> bool) (s : string) :
  exists r, s = Str.rstrip p s +:+ r /\ all_chars p r = true.
Proof.
  induction s as [|c s (r & Hs & Hr)]; simpl.
  - by exists "".
  - destruct (Str.is_empty (Str.rstrip p s)) eqn:E; simpl.
    + apply is_empty_true in E. rewrite E in Hs. rewrite append_nil_l in Hs. subst r.
      destruct (p c) eqn:Hc.
      * exists (String c s). simpl. by rewrite Hc.
      * exists s. by rewrite E.
    + exists r. by rewrite append_cons, <- Hs.
Qed.

Lemma rstrip_last (p : ascii -> bool) (s : string) (c : ascii) :
  last_char (Str.rstrip p s) = Some c -> p c = false.
Proof.
  induction s as [|x s IH]; simpl; [done |].
  destruct (Str.rstrip p s) as [|y r] eqn:E; simpl.
  - destruct (p x) eqn:Hx; simpl; [done | congruence].
  - exact IH.
Qed.

Lemma rstrip_first (p : ascii -> bool) (s : string) (c : ascii) :
  first_char (Str.rstrip p s) = Some c -> first_char s = Some c.
Proof.
  destruct s as [|x s]; simpl; [done |].
  destruct (Str.is_empty (Str.rstrip p s) && p x); simpl; done.
Qed.

(** What [strip] removes and what it leaves. *)
Lemma strip_spec (p : ascii -> bool) (s : string) :
  (exists l r, s = l +:+ Str.strip p s +:+ r
               /\ all_chars p l = true /\ all_chars p r = true)
  /\ (forall c, first_char (Str.strip p s) = Some c -> p c = false)
  /\ (forall c, last_char (Str.strip p s) = Some c -> p c = false).
Proof.
  unfold Str.strip. split; [| split].
  - destruct (rstrip_decompose p (Str.drop_while p s)) as (r & Hr & Hall).
    exists (Str.take_while p s), r. split; [| split; [apply take_while_all | done]].
    rewrite <- Hr. apply take_drop_while.
  - intros c Hc. apply rstrip_first in Hc. by apply drop_while_first in Hc.
  - intros c. apply rstrip_last.
Qed.

Lemma all_chars_contains (p : ascii -> bool) (s : string) :
  Str.contains_char p s = negb (all_chars (fun c => negb (p c)) s).
Proof.
  induction s as [|c s IH]; simpl; [done |].
  rewrite IH. by destruct (p c).
Qed.

Lemma contains_char_append (p : ascii -> bool) (a b : string) :
  Str.contains_char p (a +:+ b) = Str.contains_char p a || Str.contains_char p b.
Proof.
  induction a as [|c a IH]; [done |].
  rewrite append_cons. simpl. rewrite IH. by rewrite orb_assoc.
Qed.

Lemma rstrip_no_new_chars (p q : ascii -> bool) (s : string) :
  Str.contains_char q s = false -> Str.contains_char q (Str.rstrip p s) = false.
Proof.
  induction s as [|c s IH]; simpl; [done |].
  intros [Hc Hs]%orb_false_elim.
  destruct (Str.is_empty (Str.rstrip p s) && p c); simpl; [done |].
  by rewrite Hc, IH.
Qed.

Lemma drop_while_no_new_chars (p q : ascii -> bool) (s : string) :
  Str.contains_char q s = false -> Str.contains_char q (Str.drop_while p s) = false.
Proof.
  induction s as [|c s IH]; simpl; [done |].
  intros [Hc Hs]%orb_false_elim.
  destruct (p c); simpl; [by apply IH | by rewrite Hc, Hs].
Qed.

Lemma strip_no_new_chars (p q : ascii -> bool) (s : string) :
  Str.contains_char q s = false -> Str.contains_char q (Str.strip p s) = false.
Proof.
  intros Hs. unfold Str.strip.
  by apply rstrip_no_new_chars, drop_while_no_new_chars.
Qed.

(** ** [str.split] *)

Lemma cons_token_app (t : string) (l1 l2 : list string) :
  Str.cons_token t (l1 ++ l2) = Str.cons_token t l1 ++ l2.
Proof. unfold Str.cons_token. by destruct (Str.is_empty t). Qed.

Lemma split_scan_spec (s : string) :
  Str.contains_char Char.is_space (Str.split_scan s).1 = false
  /\ Forall blank_free (Str.split_scan s).2.
Proof.
  induction s as [|c s [IH1 IH2]]; simpl; [by split |].
  destruct (Str.split_scan s) as [t ts]. simpl in *.
  destruct (Char.is_space c) eqn:E; simpl.
  - split; [done |]. unfold Str.cons_token.
    destruct t; simpl; [done |]. constructor; [| done]. by split.
  - by rewrite E, IH1.
Qed.

(** Every word [split] returns is non-empty and free of blanks. *)
Lemma split_blank_free (s : string) : Forall blank_free (Str.split s).
Proof.
  unfold Str.split. pose proof (split_scan_spec s) as [H1 H2].
  destruct (Str.split_scan s) as [t ts]. simpl in *. unfold Str.cons_token.
  destruct t; simpl; [done |]. constructor; [| done]. by split.
Qed.

Lemma split_scan_app_space (a b : string) (c : ascii) :
  Char.is_space c = true ->
  Str.split_scan (a +:+ String c b)
  = ((Str.split_scan a).1, (Str.split_scan a).2 ++ Str.split b).
Proof.
  intros Hc. induction a as [|x a IH].
  - rewrite append_nil_l. simpl. rewrite Hc. unfold Str.split.
    by destruct (Str.split_scan b).
  - rewrite append_cons. simpl. rewrite IH.
    destruct (Str.split_scan a) as [t ts]. simpl.
    destruct (Char.is_space x); simpl; [| done].
    by rewrite cons_token_app.
Qed.

(** Splitting a text at one of its blanks. *)
Lemma split_app_space (a b : string) (c : ascii) :
  Char.is_space c = true ->
  Str.split (a +:+ String c b) = Str.split a ++ Str.split b.
Proof.
  intros Hc. unfold Str.split at 1 2. rewrite split_scan_app_space by done.
  destruct (Str.split_scan a) as [t ts]. simpl. apply cons_token_app.
Qed.

Lemma split_scan_word (t : string) :
  Str.contains_char Char.is_space t = false -> Str.split_scan t = (t, []).
Proof.
  induction t as [|c t IH]; simpl; [done |].
  intros [Hc Ht]%orb_false_elim. by rewrite IH, Hc.
Qed.

(** A text without blanks is one word, or none when it is empty. *)
Lemma split_word (t : string) :
  Str.contains_char Char.is_space t = false -> Str.split t = Str.cons_token t [].
Proof. intros Ht. unfold Str.split. by rewrite split_scan_word. Qed.

(** ** [str.split(sep, 1)] and the argument loop *)

Lemma split1_found (p : ascii -> bool) (s : string) :
  Str.contains_char p s = true ->
  Str.split1 p s
  = [ Str.take_while (fun c => negb (p c)) s;
      match Str.drop_while (fun c => negb (p c)) s with
      | String _ v => v
      | "" => ""
      end ].
Proof.
  induction s as [|c s IH]; simpl; [done |].
  destruct (p c) eqn:E; simpl; [done |].
  intros Hs. by rewrite IH.
Qed.

Lemma unpack2_split1 (arg : string) :
  Str.contains_char Char.is_equals arg = true ->
  exists kv, binding_of arg = Some kv
             /\ unpack2 (Str.split1 Char.is_equals arg) = Return kv.
Proof.
  intros Hc. unfold binding_of. rewrite Hc, split1_found by done.
  eexists. split; reflexivity.
Qed.

(** The key and the raw value of a token are the text before and after
    its first equals sign. *)
Lemma binding_of_spec (arg key value : string) :
  binding_of arg = Some (key, value) <->
  arg = key +:+ String Char.equals value
  /\ Str.contains_char Char.is_equals key = false.
Proof.
  unfold binding_of. revert key. induction arg as [|c arg IH]; intros key; simpl.
  - split; [done |]. intros [Hk _]. by destruct key.
  - destruct (Char.is_equals c) eqn:E; simpl.
    + assert (c = Char.equals) as ->.
      { unfold Char.is_equals, Char.code in E. apply N.eqb_eq in E.
        rewrite <- (ascii_N_embedding c), E. reflexivity. }
      split.
      * intros [= <- <-]. by rewrite append_nil_l.
      * intros [Hk Hn]. destruct key as [|k key].
        -- rewrite append_nil_l in Hk. by injection Hk as ->.
        -- rewrite append_cons in Hk. injection Hk as <- _.
           change (true || Str.contains_char Char.is_equals key = false) in Hn.
           done.
    + split.
      * destruct (Str.contains_char Char.is_equals arg) eqn:Hc; [| done].
        intros [= <- <-]. specialize (IH (Str.take_while (fun c => negb (Char.is_equals c)) arg)).
        destruct IH as [IH _]. destruct (IH eq_refl) as [IH1 IH2].
        rewrite append_cons. simpl. by rewrite <- IH1, E, IH2.
      * intros [Hk Hn]. destruct key as [|k key].
        -- rewrite append_nil_l in Hk. injection Hk as -> _. by vm_compute in E.
        -- rewrite append_cons in Hk. injection Hk as <- Hk. simpl in Hn.
           apply orb_false_elim in Hn as [_ Hn].
           specialize (IH key). destruct IH as [_ IH].
           specialize (IH (conj Hk Hn)).
           destruct (Str.contains_char Char.is_equals arg); [| done].
           by injection IH as -> ->.
Qed.

Lemma omap_cons_eq {A B} (f : A -> option B) (x : A) (l : list A) :
  omap f (x :: l) = match f x with
                    | Some y => y :: omap f l
                    | None => omap f l
                    end.
Proof. reflexivity. Qed.

Lemma parse_loop_spec (tokens : list string) (args : gmap string string) :
  exists m, parse_loop tokens args = Return m /\
    forall key,
      m !! key = match lookup_last key (omap binding_of tokens) with
                 | Some v => Some (Str.strip Char.is_quote v)
                 | None => args !! key
                 end.
Proof.
  revert args. induction tokens as [|arg rest IH]; intros args.
  - by exists args.
  - rewrite omap_cons_eq. cbn [parse_loop].
    destruct (Str.contains_char Char.is_equals arg) eqn:E.
    + destruct (unpack2_split1 arg E) as ([k v] & Hb & Hu). rewrite Hu, Hb.
      destruct (IH (<[k := Str.strip Char.is_quote v]> args)) as (m & Hm & Hl).
      exists m. split; [done |]. intros key. rewrite Hl. cbn [lookup_last].
      destruct (lookup_last key (omap binding_of rest)); [done |].
      destruct (String.eqb_spec k key) as [-> | Hne].
      * by rewrite lookup_insert_eq.
      * by rewrite lookup_insert_ne.
    + unfold binding_of at 1. rewrite E. apply IH.
Qed.

Lemma parse_args_spec (args_str : string) :
  exists m, parse_args args_str = Return m /\
    forall key,
      m !! key = Str.strip Char.is_quote
                   <$> lookup_last key (omap binding_of (Str.split args_str)).
Proof.
  unfold parse_args. destruct args_str as [|c s]; simpl Str.is_empty; cbv iota.
  - exists ∅. split; [done |]. intros key. by rewrite lookup_empty.
  - destruct (parse_loop_spec (Str.split (String c s)) ∅) as (m & Hm & Hl).
    exists m. split; [done |]. intros key. rewrite Hl, lookup_empty.
    by destruct (lookup_last _ _).
Qed.

Lemma lookup_last_elem (key v : string) (l : list (string * string)) :
  lookup_last key l = Some v -> (key, v) ∈ l.
Proof.
  induction l as [|[k x] l IH]; simpl; [done |].
  destruct (lookup_last key l).
  - intros [= ->]. right. by apply IH.
  - destruct (String.eqb_spec k key) as [-> |]; [| done].
    intros [= ->]. left.
Qed.

Lemma split_scan_chars (p : ascii -> bool) (s : string) :
  Str.contains_char p s = false ->
  Str.contains_char p (Str.split_scan s).1 = false
  /\ Forall (fun t => Str.contains_char p t = false) (Str.split_scan s).2.
Proof.
  induction s as [|c s IH]; simpl; [by split |].
  intros [Hc Hs]%orb_false_elim. destruct (IH Hs) as [IH1 IH2].
  destruct (Str.split_scan s) as [t ts]. simpl in *.
  destruct (Char.is_space c); simpl.
  - split; [done |]. unfold Str.cons_token.
    destruct (Str.is_empty t); [done | by constructor].
  - by rewrite Hc, IH1.
Qed.

(** The words of a text are made of characters of the text. *)
Lemma split_chars (p : ascii -> bool) (s : string) :
  Str.contains_char p s = false ->
  Forall (fun t => Str.contains_char p t = false) (Str.split s).
Proof.
  intros Hs. unfold Str.split. destruct (split_scan_chars p s Hs) as [H1 H2].
  destruct (Str.split_scan s) as [t ts]. simpl in *. unfold Str.cons_token.
  destruct (Str.is_empty t); [done | by constructor].
Qed.

Lemma omap_binding_of_none (tokens : list string) :
  Forall (fun t => Str.contains_char Char.is_equals t = false) tokens ->
  omap binding_of tokens = [].
Proof.
  induction 1 as [|t ts Ht _ IH]; [done |].
  rewrite omap_cons_eq. unfold binding_of at 1. by rewrite Ht.
Qed.

(** ** Argument parsing *)

(** C5: the arguments are the words of the raw text; a word is cut at its
    first equals sign into key and value; a word without an equals sign
    contributes nothing and raises nothing; of several words with the same
    key the last one gives the value; the quote marks around the value are
    removed. *)
Theorem C5_argument_parsing (args_str : string) :
  exists args,
    parse_args args_str = Return args
    /\ (forall key,
          args !! key
          = Str.strip Char.is_quote
              <$> lookup_last key (omap binding_of (Str.split args_str)))
    /\ Forall blank_free (Str.split args_str)
    /\ (forall a b c, Char.is_space c = true ->
          Str.split (a +:+ String c b) = (Str.split a ++ Str.split b)%list)
    /\ (forall t, Str.contains_char Char.is_space t = false ->
          Str.split t = Str.cons_token t [])
    /\ (forall arg, Str.contains_char Char.is_equals arg = false ->
          binding_of arg = None)
    /\ (forall arg key value,
          binding_of arg = Some (key, value) <->
          arg = key +:+ String Char.equals value
          /\ Str.contains_char Char.is_equals key = false)
    /\ (forall value,
          (exists l r, value = l +:+ Str.strip Char.is_quote value +:+ r
                       /\ all_chars Char.is_quote l = true
                       /\ all_chars Char.is_quote r = true)
          /\ (forall c, first_char (Str.strip Char.is_quote value) = Some c ->
                        Char.is_quote c = false)
          /\ (forall c, last_char (Str.strip Char.is_quote value) = Some c ->
                        Char.is_quote c = false)).
Proof.
  destruct (parse_args_spec args_str) as (args & Hp & Hl).
  exists args.
  split; [exact Hp |]. split; [exact Hl |].
  split; [apply split_blank_free |].
  split; [intros a b c; apply split_app_space |].
  split; [apply split_word |].
  split; [intros arg Harg; unfold binding_of; by rewrite Harg |].
  split; [apply binding_of_spec |].
  apply strip_spec.
Qed.

(** An instance of C5: a repeated key, a word without equals sign and
    quoted values. *)
Lemma C5_argument_parsing_witness :
  exists args,
    parse_args ("path='a.txt' verbose path=" +:+ dq +:+ "b=c.txt" +:+ dq)
    = Return args
    /\ args !! "path" = Some "b=c.txt"
    /\ args !! "verbose" = None.
Proof.
  destruct (C5_argument_parsing
              ("path='a.txt' verbose path=" +:+ dq +:+ "b=c.txt" +:+ dq))
    as (args & Hp & Hl & _).
  exists args. split; [exact Hp |]. split; rewrite Hl; reflexivity.
Defined.

(** C10, as the program has it: a parsed value never contains a blank, and
    when the words after the first blank have no equals sign the key gets
    the text before that blank with its quote marks removed and those
    words are dropped. *)
Theorem C10_quoted_value_cut_at_blank :
  (forall args_str args key value,
      parse_args args_str = Return args ->
      args !! key = Some value ->
      Str.contains_char Char.is_space value = false)
  /\ (forall key value rest c,
        Str.contains_char Char.is_space key = false ->
        Str.contains_char Char.is_equals key = false ->
        Str.contains_char Char.is_space value = false ->
        Char.is_space c = true ->
        Str.contains_char Char.is_equals rest = false ->
        parse_args (key +:+ String Char.equals (value +:+ String c rest))
        = Return {[ key := Str.strip Char.is_quote value ]}).
Proof.
  split.
  - intros args_str args key value Hp Hv.
    destruct (parse_args_spec args_str) as (m & Hm & Hl).
    rewrite Hp in Hm. injection Hm as <-. rewrite Hl in Hv.
    destruct (lookup_last key _) as [v|] eqn:E; [| done].
    injection Hv as <-. apply lookup_last_elem in E.
    apply list_elem_of_omap in E as (tok & Htok & Hb).
    apply binding_of_spec in Hb as [-> _].
    pose proof (split_blank_free args_str) as Hall.
    rewrite Forall_forall in Hall. destruct (Hall _ Htok) as [_ Hblank].
    rewrite contains_char_append in Hblank.
    apply orb_false_elim in Hblank as [_ Hblank]. simpl in Hblank.
    by apply strip_no_new_chars.
  - intros key value rest c Hk1 Hk2 Hv Hc Hrest.
    set (tok := key +:+ String Char.equals value).
    assert (key +:+ String Char.equals (value +:+ String c rest)
            = tok +:+ String c rest) as ->.
    { unfold tok. by rewrite append_assoc, append_cons. }
    destruct (parse_args_spec (tok +:+ String c rest)) as (m & Hm & Hl).
    rewrite Hm. f_equal. apply map_eq. intros k. rewrite Hl.
    rewrite split_app_space by done.
    assert (Str.split tok = [tok]) as ->.
    { rewrite split_word.
      - unfold tok. by destruct key.
      - unfold tok. rewrite contains_char_append, Hk1. simpl. by rewrite Hv. }
    rewrite omap_app, (omap_binding_of_none (Str.split rest))
      by (by apply split_chars).
    rewrite app_nil_r, omap_cons_eq.
    assert (binding_of tok = Some (key, value)) as ->.
    { by apply binding_of_spec. }
    simpl. destruct (String.eqb_spec key k) as [-> | Hne].
    + by rewrite lookup_singleton_eq.
    + by rewrite lookup_singleton_ne.
Qed.

(** The example of C10: [content] is bound to [hello]. *)
Lemma C10_quoted_value_cut_at_blank_witness :
  parse_args ("content=" +:+ dq +:+ "hello world" +:+ dq)
  = Return {[ "content" := "hello" ]}.
Proof.
  exact (proj2 C10_quoted_value_cut_at_blank
           "content" (dq +:+ "hello") ("world" +:+ dq) " "%char
           eq_refl eq_refl eq_refl eq_refl eq_refl).
Defined.

(** C10 as stated fails: a word after the blank that has an equals sign
    is not dropped, it binds a key of its own, and it replaces the value
    when its key is the same. *)
Lemma C10_counterexample :
  (exists args,
     parse_args ("content=" +:+ dq +:+ "a b=c" +:+ dq) = Return args
     /\ Str.split ("content=" +:+ dq +:+ "a b=c" +:+ dq)
        = ["content=" +:+ dq +:+ "a"; "b=c" +:+ dq]
     /\ Str.contains_char Char.is_equals ("b=c" +:+ dq) = true
     /\ args !! "content" = Some "a"
     /\ args !! "b" = Some "c")
  /\ (exists args,
        parse_args ("content=" +:+ dq +:+ "x content=y" +:+ dq) = Return args
        /\ args !! "content" = Some "y").
Proof.
  split.
  - destruct (parse_args_spec ("content=" +:+ dq +:+ "a b=c" +:+ dq))
      as (args & Hp & Hl).
    exists args. split; [exact Hp |]. repeat split; try reflexivity.
    + by rewrite Hl.
    + by rewrite Hl.
  - destruct (parse_args_spec ("content=" +:+ dq +:+ "x content=y" +:+ dq))
      as (args & Hp & Hl).
    exists args. split; [exact Hp |]. by rewrite Hl.
Qed.

(** ** The tool-call pattern *)

Lemma space_not_word (c : ascii) : Char.is_space c = true -> Char.is_word c = false.
Proof.
  destruct c as [[] [] [] [] [] [] [] []]; vm_compute; congruence.
Qed.

(** A greedy repetition followed by something that always matches takes
    the longest run. *)
Lemma star_total (ok : ascii -> bool) (k : string -> option Re.result) (s : string) :
  (forall t, is_Some (k t)) ->
  Re.star ok k s = k (Str.drop_while ok s).
Proof.
  intros Hk. induction s as [|c s IH]; simpl; [done |].
  destruct (ok c); [| done]. rewrite IH.
  by destruct (Hk (Str.drop_while ok s)) as [r ->].
Qed.

(** Giving characters back does not help when what follows cannot start
    with a character of the repetition. *)
Lemma star_no_backtrack (ok : ascii -> bool) (k : string -> option Re.result)
    (s : string) :
  (forall c t, ok c = true -> k (String c t) = None) ->
  Re.star ok k s = k (Str.drop_while ok s).
Proof.
  intros Hk. induction s as [|c s IH]; simpl; [done |].
  destruct (ok c) eqn:E; [| done]. rewrite IH.
  destruct (k (Str.drop_while ok s)); [done |]. by apply Hk.
Qed.

Lemma length_drop_while (p : ascii -> bool) (s : string) :
  String.length (Str.drop_while p s) <= String.length s.
Proof.
  induction s as [|c s IH]; simpl; [done |].
  destruct (p c); simpl; lia.
Qed.

Lemma take_consumed (p : ascii -> bool) (s : string) :
  Str.take (String.length s - String.length (Str.drop_while p s)) s
  = Str.take_while p s.
Proof.
  induction s as [|c s IH]; simpl; [done |].
  destruct (p c); simpl.
  - pose proof (length_drop_while p s).
    replace (S (String.length s) - String.length (Str.drop_while p s))
      with (S (String.length s - String.length (Str.drop_while p s))) by lia.
    simpl. by rewrite IH.
  - by rewrite Nat.sub_diag.
Qed.

Lemma run_literal (p : string) (rest : list Re.item) (opens caps : list string)
    (s : string) :
  Re.run true (Re.literal p ++ rest) opens caps s
  = if starts_with_ci p s
    then Re.run true rest opens caps (Str.drop (String.length p) s)
    else None.
Proof.
  revert s. induction p as [|a p IH]; intros s; [by destruct s |].
  change (Re.literal (String a p)) with (Re.One (Re.Lit a) :: Re.literal p).
  destruct s as [|b s]; [done |]. simpl.
  destruct (Ascii.eqb (Char.lower b) (Char.lower a)); [apply IH | done].
Qed.

Lemma run_star (ic : bool) (a : Re.atom) (p : list Re.item)
    (opens caps : list string) (s : string) :
  Re.run ic (Re.Star a :: p) opens caps s
  = Re.star (Re.accepts ic a) (Re.run ic p opens caps) s.
Proof. reflexivity. Qed.

Lemma run_open (ic : bool) (p : list Re.item) (opens caps : list string)
    (s : string) :
  Re.run ic (Re.GroupOpen :: p) opens caps s = Re.run ic p (s :: opens) caps s.
Proof. reflexivity. Qed.

Lemma run_close (ic : bool) (p : list Re.item) (opens caps : list string)
    (s0 s : string) :
  Re.run ic (Re.GroupClose :: p) (s0 :: opens) caps s
  = Re.run ic p opens
      (caps ++ [Str.take (String.length s0 - String.length s) s0]) s.
Proof. reflexivity. Qed.

Lemma run_plus (ic : bool) (a : Re.atom) (p : list Re.item)
    (opens caps : list string) (c : ascii) (s : string) :
  Re.run ic (Re.Plus a :: p) opens caps (String c s)
  = if Re.accepts ic a c
    then Re.star (Re.accepts ic a) (Re.run ic p opens caps) s
    else None.
Proof. reflexivity. Qed.

(** The second group and the blanks before it. *)
Lemma run_arguments (caps : list string) (s : string) :
  Re.run true
    [Re.Star (Re.Class Char.is_space); Re.GroupOpen;
     Re.Star (Re.Class Char.not_newline); Re.GroupClose] [] caps s
  = let s4 := Str.drop_while Char.is_space s in
    Some (caps ++ [Str.take_while Char.not_newline s4],
          Str.drop_while Char.not_newline s4).
Proof.
  assert (forall t,
    Re.run true [Re.GroupOpen; Re.Star (Re.Class Char.not_newline); Re.GroupClose]
      [] caps t
    = Some (caps ++ [Str.take_while Char.not_newline t],
            Str.drop_while Char.not_newline t)) as Hargs.
  { intros t. rewrite run_open, run_star.
    change (Re.accepts true (Re.Class Char.not_newline)) with Char.not_newline.
    rewrite star_total by (intros u; by eexists).
    rewrite run_close. cbn [Re.run]. by rewrite take_consumed. }
  rewrite run_star.
  change (Re.accepts true (Re.Class Char.is_space)) with Char.is_space.
  rewrite star_total by (intros t; rewrite Hargs; by eexists).
  by rewrite Hargs.
Qed.

(** The backtracking match of [tool_pattern] is the match written out. *)
Lemma run_tool_pattern (s : string) :
  Re.run true tool_pattern [] [] s = match_tool_at s.
Proof.
  unfold tool_pattern, match_tool_at. rewrite run_literal.
  destruct (starts_with_ci "TOOL:" s); [| done].
  change (String.length "TOOL:") with 5.
  generalize (Str.drop 5 s). clear s. intros s1.
  rewrite run_star.
  change (Re.accepts true (Re.Class Char.is_space)) with Char.is_space.
  rewrite star_no_backtrack.
  2:{ intros c t Hc. rewrite run_open, run_plus.
      change (Re.accepts true (Re.Class Char.is_word) c) with (Char.is_word c).
      by rewrite (space_not_word c Hc). }
  generalize (Str.drop_while Char.is_space s1). clear s1. intros s2.
  rewrite run_open.
  destruct s2 as [|c s']; [done |].
  rewrite run_plus.
  change (Re.accepts true (Re.Class Char.is_word)) with Char.is_word.
  cbn [Str.take_while Str.drop_while].
  destruct (Char.is_word c) eqn:Hc; [| done].
  cbn [Str.is_empty].
  rewrite star_total.
  2:{ intros t. rewrite run_close, run_arguments. by eexists. }
  rewrite run_close, run_arguments. cbn zeta. cbn [app].
  pose proof (take_consumed Char.is_word (String c s')) as Hn.
  cbn [Str.take_while Str.drop_while] in Hn. rewrite Hc in Hn.
  by rewrite Hn.
Qed.

Lemma starts_with_ci_occurs (p s : string) :
  starts_with_ci p s = true ->
  exists mid post, s = mid +:+ post /\ lower_ascii mid = lower_ascii p.
Proof.
  revert s. induction p as [|a p IH]; intros s; simpl.
  - intros _. by exists "", s.
  - destruct s as [|b s]; [done |].
    intros [Hb Hs]%andb_prop. apply Ascii.eqb_eq in Hb.
    destruct (IH s Hs) as (mid & post & -> & Hm).
    exists (String b mid), post. split; [done |]. simpl. by rewrite Hb, Hm.
Qed.

Lemma suffix_of_refl (s : string) : suffix_of s s.
Proof. by exists "". Qed.

Lemma suffix_of_tail (t s : string) (c : ascii) :
  suffix_of t s -> suffix_of t (String c s).
Proof. intros [pre ->]. by exists (String c pre). Qed.

(** Without a match at any position the scan finds nothing. *)
Lemma scan_nothing (ic : bool) (p : list Re.item) (skip : nat) (s : string) :
  (forall t, suffix_of t s -> Re.run ic p [] [] t = None) ->
  Re.scan ic p skip s = [].
Proof.
  revert skip. induction s as [|c s IH]; intros skip Hs; simpl.
  - rewrite (Hs "" (suffix_of_refl _)). by destruct skip.
  - destruct skip as [|k].
    + rewrite (Hs _ (suffix_of_refl _)). apply IH.
      intros t Ht. by apply Hs, suffix_of_tail.
    + apply IH. intros t Ht. by apply Hs, suffix_of_tail.
Qed.

Lemma no_keyword_no_matches (text : string) :
  ~ occurs_ci "TOOL:" text -> tool_matches text = [].
Proof.
  intros Hno. unfold tool_matches, Re.findall. rewrite scan_nothing; [done |].
  intros t [pre ->]. rewrite run_tool_pattern. unfold match_tool_at.
  destruct (starts_with_ci "TOOL:" t) eqn:E; [| done].
  exfalso. apply Hno. apply starts_with_ci_occurs in E as (mid & post & -> & Hm).
  by exists pre, mid, post.
Qed.

(** ** The tool executor *)

Section Executor.

Context {W : Type} `{Env W}.

Lemma execute_tool_parsed (tool_name args_str : string)
    (args : gmap string string) (w : W) :
  parse_args args_str = Return args ->
  _execute_tool tool_name args_str w
  = try_except (dispatch tool_name args) is_Exception
      (fun e => ret ("Tool error: " +:+ exn_str e)) w.
Proof. intros Hp. unfold _execute_tool, bind, of_outcome. by rewrite Hp. Qed.

(** What [_execute_tool] makes of the outcome of its [try] block. *)
Lemma execute_tool_outcome (tool_name args_str : string)
    (args : gmap string string) (w : W) :
  parse_args args_str = Return args ->
  _execute_tool tool_name args_str w
  = match dispatch tool_name args w with
    | (Return text, w') => (Return text, w')
    | (Raise e, w') =>
        if is_Exception (exn_class e)
        then (Return ("Tool error: " +:+ exn_str e), w')
        else (Raise e, w')
    end.
Proof.
  intros Hp. rewrite (execute_tool_parsed _ _ _ _ Hp). unfold try_except.
  by destruct (dispatch tool_name args w) as [[text | e] w'].
Qed.

Lemma get_lookup (args : gmap string string) (key default : string) :
  get args key default = match args !! key with Some v => v | None => default end.
Proof. reflexivity. Qed.

Ltac tool_name_cases tool_name :=
  unfold dispatch;
  repeat match goal with
         | |- context [String.eqb tool_name ?lit] =>
             destruct (String.eqb_spec tool_name lit)
         end.

(** An exception leaving the [try] block comes from the environment. *)
Lemma dispatch_faults (tool_name : string) (args : gmap string string)
    (w w' : W) (e : exn) :
  ordinary_faults ->
  dispatch tool_name args w = (Raise e, w') ->
  is_Exception (exn_class e) = true.
Proof.
  intros (Hread & Hwrite & Hrun & Hlist & Hparse).
  tool_name_cases tool_name.
  - destruct (Str.is_empty _); [done |]. apply Hread.
  - destruct (Str.is_empty _); [done |]. unfold bind.
    destruct (write_text _ _ w) as [[[] | ex] wx] eqn:E; [done |].
    intros [= -> ->]. by eapply Hwrite.
  - destruct (Str.is_empty _); [done |]. unfold bind.
    destruct (subprocess_run _ _ w) as [[r | ex] wx] eqn:E; [done |].
    intros [= -> ->]. by eapply Hrun.
  - destruct (Str.is_empty _); [done |]. unfold of_outcome, _analyze_code_content.
    destruct (ast_parse _) as [tree | ex] eqn:E; [done |].
    destruct (is_SyntaxError _); [done |].
    destruct (is_Exception (exn_class ex)) eqn:E0; [done |].
    intros [= -> ->]. by eapply Hparse.
  - unfold bind. destruct (listdir _ w) as [[l | ex] wx] eqn:E; [done |].
    intros [= -> ->]. by eapply Hlist.
  - done.
Qed.



(** C8: a built-in tool run without its required argument returns the
    error string that names the parameter, and does nothing else. *)
Theorem C8_missing_argument_named (args_str : string)
    (args : gmap string string) (w : W) :
  parse_args args_str = Return args ->
  (args !! "path" = None ->
     _execute_tool "read_file" args_str w
     = (Return "Error: path parameter required", w)
     /\ _execute_tool "write_file" args_str w
        = (Return "Error: path parameter required", w))
  /\ (args !! "command" = None ->
        _execute_tool "execute_command" args_str w
        = (Return "Error: command parameter required", w))
  /\ (args !! "code" = None ->
        _execute_tool "analyze_code" args_str w
        = (Return "Error: code parameter required", w)).
Proof.
  intros Hp. split; [intros Hnone; split | split; intros Hnone];
    rewrite (execute_tool_outcome _ _ _ _ Hp); unfold dispatch;
    cbn [String.eqb Ascii.eqb Bool.eqb]; rewrite !get_lookup, ?Hnone; reflexivity.
Qed.

(** C7: a text in which [TOOL:] does not occur in any letter case has no
    invocation; the text [TOOL: read_file path=/tmp/x.txt] has exactly the
    invocation of [read_file] with [path=/tmp/x.txt]; [read_file] returns
    what reading the file at the path gives, and the [Tool error] string
    when reading it fails. *)
Theorem C7_no_keyword_and_read_file :
  (forall text, ~ occurs_ci "TOOL:" text -> tool_matches text = [])
  /\ tool_matches "TOOL: read_file path=/tmp/x.txt"
     = [("read_file", "path=/tmp/x.txt")]
  /\ parse_args "path=/tmp/x.txt" = Return {[ "path" := "/tmp/x.txt" ]}
  /\ (forall args_str args path w,
        parse_args args_str = Return args ->
        args !! "path" = Some path ->
        path <> "" ->
        (forall text w', read_text path w = (Return text, w') ->
           _execute_tool "read_file" args_str w = (Return text, w'))
        /\ (forall e w', read_text path w = (Raise e, w') ->
              is_Exception (exn_class e) = true ->
              _execute_tool "read_file" args_str w
              = (Return ("Tool error: " +:+ exn_str e), w'))).
Proof.
  split; [exact no_keyword_no_matches |].
  split; [reflexivity |].
  split.
  { reflexivity. }
  intros args_str args path w Hp Hpath Hne.
  assert (dispatch "read_file" args w = read_text path w) as Hd.
  { unfold dispatch. cbn [String.eqb Ascii.eqb Bool.eqb]. rewrite get_lookup, Hpath.
    by destruct path. }
  split.
  - intros text w' Hr. by rewrite (execute_tool_outcome _ _ _ _ Hp), Hd, Hr.
  - intros e w' Hr He. by rewrite (execute_tool_outcome _ _ _ _ Hp), Hd, Hr, He.
Qed.

End Executor.

(** ** The executor in the small environment *)

Lemma demo_ordinary_faults : ordinary_faults (H := Demo.env).
Proof.
  unfold ordinary_faults. cbn [read_text write_text subprocess_run listdir ast_parse Demo.env].
  split; [| split; [| split; [| split]]].
  - intros p w e w'. unfold Demo.demo_read.
    destruct (Demo.files w !! p); [done |]. by intros [= <- _].
  - intros p c w e w'. by unfold Demo.demo_write.
  - intros c t w e w'. unfold Demo.demo_run, Demo.demo_shell.
    destruct (String.eqb c "false"); [done |].
    destruct (String.eqb c "hang"); [| done]. by intros [= <- _].
  - intros p w e w'. unfold Demo.demo_listdir.
    destruct (String.eqb p "."); [done |]. by intros [= <- _].
  - intros code e. unfold Demo.demo_parse.
    destruct (String.eqb code Demo.three_lines_src); [done |].
    destruct (String.eqb code Demo.nested_src); [done |]. by intros [= <-].
Qed.

Section Boundary.

Context {W : Type} `{Env W}.

(** C1: whatever the tool name and the raw arguments, [_execute_tool]
    returns a string: parsing the arguments, which happens before the
    [try] block, cannot raise, and every fault of the environment inside
    the block is turned into an error string.  A failed read, a failed
    write and a failed listing give [Tool error] followed by the text of
    the exception, with the world as the failed operation left it; a text
    the parser rejects gives the analyzer's error string.
    [execute_command] runs the command with a timeout of 30 seconds; when
    it completes the result is the report of its exit code, output and
    error output, and when the timeout expires, or the shell fails
    otherwise, the result is a [Tool error] string. *)
Theorem C1_execute_tool_returns_a_string :
  ordinary_faults ->
  (forall tool_name args_str w,
     exists text w', _execute_tool tool_name args_str w = (Return text, w'))
  /\ (forall args_str args w,
        parse_args args_str = Return args ->
        (forall path e w',
           args !! "path" = Some path -> path <> "" ->
           read_text path w = (Raise e, w') ->
           _execute_tool "read_file" args_str w
           = (Return ("Tool error: " +:+ exn_str e), w'))
        /\ (forall path e w',
              args !! "path" = Some path -> path <> "" ->
              write_text path (get args "content" "") w = (Raise e, w') ->
              _execute_tool "write_file" args_str w
              = (Return ("Tool error: " +:+ exn_str e), w'))
        /\ (forall e w',
              listdir (get args "path" ".") w = (Raise e, w') ->
              _execute_tool "list_files" args_str w
              = (Return ("Tool error: " +:+ exn_str e), w'))
        /\ (forall code e,
              args !! "code" = Some code -> code <> "" ->
              ast_parse code = Raise e ->
              _execute_tool "analyze_code" args_str w
              = (Return ((if is_SyntaxError (exn_class e)
                          then "Syntax Error: " else "Analysis Error: ")
                         +:+ exn_str e), w)))
  /\ (forall args_str args command w,
        parse_args args_str = Return args ->
        args !! "command" = Some command ->
        command <> "" ->
        (forall r w', subprocess_run command 30 w = (Return r, w') ->
           _execute_tool "execute_command" args_str w
           = (Return ("Exit code: " +:+ Str.of_int (returncode r) +:+ Str.nl +:+
                      "Output: " +:+ stdout r +:+ Str.nl +:+
                      "Error: " +:+ stderr r), w'))
        /\ (forall e w', subprocess_run command 30 w = (Raise e, w') ->
              _execute_tool "execute_command" args_str w
              = (Return ("Tool error: " +:+ exn_str e), w'))).
Proof.
  intros Hord. split; [| split].
  - intros tool_name args_str w.
    destruct (parse_args_spec args_str) as (args & Hp & _).
    rewrite (execute_tool_outcome _ _ _ _ Hp).
    destruct (dispatch tool_name args w) as [[text | e] w'] eqn:E.
    + by exists text, w'.
    + rewrite (dispatch_faults _ _ _ _ _ Hord E). by eexists _, _.
  - intros args_str args w Hp.
    destruct Hord as (Hread & Hwrite & _ & Hlist & Hparse).
    split; [| split; [| split]].
    + intros path e w' Hpath Hne Hr.
      rewrite (execute_tool_outcome _ _ _ _ Hp). unfold dispatch.
      cbn [String.eqb Ascii.eqb Bool.eqb]. rewrite get_lookup, Hpath.
      destruct path as [|c path]; [done |]. cbn [Str.is_empty].
      by rewrite Hr, (Hread _ _ _ _ Hr).
    + intros path e w' Hpath Hne Hr.
      rewrite (execute_tool_outcome _ _ _ _ Hp). unfold dispatch.
      cbn [String.eqb Ascii.eqb Bool.eqb]. rewrite (get_lookup args "path"), Hpath.
      destruct path as [|c path]; [done |]. cbn [Str.is_empty]. unfold bind.
      by rewrite Hr, (Hwrite _ _ _ _ _ Hr).
    + intros e w' Hr.
      rewrite (execute_tool_outcome _ _ _ _ Hp). unfold dispatch.
      cbn [String.eqb Ascii.eqb Bool.eqb]. unfold bind.
      by rewrite Hr, (Hlist _ _ _ _ Hr).
    + intros code e Hcode Hne Hr.
      rewrite (execute_tool_outcome _ _ _ _ Hp). unfold dispatch.
      cbn [String.eqb Ascii.eqb Bool.eqb]. rewrite get_lookup, Hcode.
      destruct code as [|c code]; [done |]. cbn [Str.is_empty].
      unfold of_outcome, _analyze_code_content. rewrite Hr.
      destruct (is_SyntaxError (exn_class e)); [done |].
      by rewrite (Hparse _ _ Hr).
  - intros args_str args command w Hp Hc Hne.
    assert (dispatch "execute_command" args w
            = bind (subprocess_run command 30)
                (fun r => ret ("Exit code: " +:+ Str.of_int (returncode r) +:+ Str.nl +:+
                               "Output: " +:+ stdout r +:+ Str.nl +:+
                               "Error: " +:+ stderr r)) w) as Hd.
    { unfold dispatch. cbn [String.eqb Ascii.eqb Bool.eqb]. rewrite get_lookup, Hc.
      by destruct command. }
    split.
    + intros r w' Hr. rewrite (execute_tool_outcome _ _ _ _ Hp), Hd.
      unfold bind. by rewrite Hr.
    + intros e w' Hr. rewrite (execute_tool_outcome _ _ _ _ Hp), Hd.
      unfold bind. rewrite Hr.
      destruct Hord as (_ & _ & Hrun & _). by rewrite (Hrun _ _ _ _ _ Hr).
Qed.

End Boundary.

(** C1 in the small environment: a command that fails, a command that
    outlives the timeout, a directory that does not exist and a text the
    parser rejects. *)
Lemma C1_execute_tool_returns_a_string_witness :
  _execute_tool "execute_command" "command=false" Demo.w0
  = (Return ("Exit code: 1" +:+ Str.nl +:+ "Output: " +:+ Str.nl +:+ "Error: "),
     Demo.w0)
  /\ _execute_tool "execute_command" "command=hang" Demo.w0
     = (Return "Tool error: Command 'hang' timed out after 30 seconds", Demo.w0)
  /\ _execute_tool "list_files" "path=nowhere" Demo.w0
     = (Return "Tool error: [Errno 2] No such file or directory: 'nowhere'",
        Demo.w0)
  /\ _execute_tool "analyze_code" "code=def" Demo.w0
     = (Return "Syntax Error: invalid syntax (<unknown>, line 1)", Demo.w0).
Proof.
  destruct (C1_execute_tool_returns_a_string (H := Demo.env) demo_ordinary_faults)
    as (_ & Hfault & Hcmd).
  assert (forall k c : string, ({[ k := c ]} : gmap string string) !! k = Some c)
    as Hlook by (intros k c; apply lookup_singleton_eq).
  split; [| split; [| split]].
  - assert (parse_args "command=false" = Return {[ "command" := "false" ]})
      as Hp by reflexivity.
    assert ("false" <> "") as Hne by done.
    destruct (Hcmd _ _ "false" Demo.w0 Hp (Hlook _ _) Hne) as [Hdone _].
    exact (Hdone (Completed 1 "" "") Demo.w0 eq_refl).
  - assert (parse_args "command=hang" = Return {[ "command" := "hang" ]})
      as Hp by reflexivity.
    assert ("hang" <> "") as Hne by done.
    destruct (Hcmd _ _ "hang" Demo.w0 Hp (Hlook _ _) Hne) as [_ Hexpired].
    exact (Hexpired _ Demo.w0 eq_refl).
  - assert (parse_args "path=nowhere" = Return {[ "path" := "nowhere" ]})
      as Hp by reflexivity.
    destruct (Hfault _ _ Demo.w0 Hp) as (_ & _ & Hlist & _).
    exact (Hlist _ Demo.w0 eq_refl).
  - assert (parse_args "code=def" = Return {[ "code" := "def" ]})
      as Hp by reflexivity.
    assert ("def" <> "") as Hne by done.
    destruct (Hfault _ _ Demo.w0 Hp) as (_ & _ & _ & Hcode).
    exact (Hcode "def" _ (Hlook _ _) Hne eq_refl).
Defined.

Lemma not_registered_READ_FILE : "READ_FILE" ∉ registry.
Proof.
  unfold registry. intros Hin.
  repeat (apply elem_of_cons in Hin as [Hin | Hin]; [discriminate |]).
  by apply elem_of_nil in Hin.
Qed.


(** C7 in the small environment: the file [x] holds [hello] and there is
    no file [y]. *)
Lemma C7_no_keyword_and_read_file_witness :
  _execute_tool "read_file" "path=x" Demo.w0 = (Return "hello", Demo.w0)
  /\ _execute_tool "read_file" "path=y" Demo.w0
     = (Return "Tool error: [Errno 2] No such file or directory: 'y'", Demo.w0).
Proof.
  destruct (C7_no_keyword_and_read_file (H := Demo.env)) as (_ & _ & _ & Hread).
  assert (forall p : string, ({[ "path" := p ]} : gmap string string) !! "path" = Some p)
    as Hlook by (intros p; apply lookup_singleton_eq).
  split.
  - assert (parse_args "path=x" = Return {[ "path" := "x" ]}) as Hp by reflexivity.
    assert ("x" <> "") as Hne by done.
    destruct (Hread _ _ "x" Demo.w0 Hp (Hlook _) Hne) as [Hfound _].
    exact (Hfound "hello" Demo.w0 eq_refl).
  - assert (parse_args "path=y" = Return {[ "path" := "y" ]}) as Hp by reflexivity.
    assert ("y" <> "") as Hne by done.
    destruct (Hread _ _ "y" Demo.w0 Hp (Hlook _) Hne) as [_ Hmissing].
    exact (Hmissing _ Demo.w0 eq_refl eq_refl).
Defined.

(** C8 in the small environment: [write_file] given a content and no
    path. *)
Lemma C8_missing_argument_named_witness :
  _execute_tool "write_file" "content=abc" Demo.w0
  = (Return "Error: path parameter required", Demo.w0).
Proof.
  assert (parse_args "content=abc" = Return {[ "content" := "abc" ]})
    as Hp by reflexivity.
  destruct (C8_missing_argument_named (H := Demo.env) _ _ Demo.w0 Hp) as [Hpath _].
  apply Hpath. reflexivity.
Defined.

(** ** Invocations that reach over a line end *)

(** Every invocation has a name made of word characters, at least one,
    and arguments without a newline. *)
Lemma scan_forall (P : list string -> Prop) (ic : bool) (p : list Re.item)
    (skip : nat) (s : string) :
  (forall t caps rest, Re.run ic p [] [] t = Some (caps, rest) -> P caps) ->
  Forall P (Re.scan ic p skip s).
Proof.
  intros Hrun. revert skip. induction s as [|c s IH]; intros skip; simpl.
  - destruct skip; [| done].
    destruct (Re.run ic p [] [] "") as [[caps rest] |] eqn:E; [| done].
    constructor; [by eapply Hrun | done].
  - destruct skip as [|k]; [| apply IH].
    destruct (Re.run ic p [] [] (String c s)) as [[caps rest] |] eqn:E; [| apply IH].
    constructor; [by eapply Hrun | apply IH].
Qed.

Lemma take_while_no_other (p : ascii -> bool) (s : string) :
  Str.contains_char (fun c => negb (p c)) (Str.take_while p s) = false.
Proof.
  induction s as [|c s IH]; simpl; [done |].
  destruct (p c) eqn:E; simpl; [by rewrite E, IH | done].
Qed.

Lemma tool_matches_shape (text : string) :
  Forall (fun '(name, args) =>
            name <> "" /\ all_chars Char.is_word name = true
            /\ Str.contains_char Char.is_newline args = false)
         (tool_matches text).
Proof.
  unfold tool_matches. rewrite Forall_fmap.
  apply scan_forall. intros t caps rest. rewrite run_tool_pattern.
  unfold match_tool_at. destruct (starts_with_ci "TOOL:" t); [| done].
  set (s2 := Str.drop_while Char.is_space (Str.drop 5 t)).
  set (s4 := Str.drop_while Char.is_space (Str.drop_while Char.is_word s2)).
  destruct (Str.is_empty (Str.take_while Char.is_word s2)) eqn:E; [done |].
  intros [= <- _]. clearbody s2 s4. simpl.
  split; [intros Hn; by rewrite Hn in E |].
  split; [apply take_while_all |].
  pose proof (take_while_no_other Char.not_newline s4) as Hnl.
  rewrite <- Hnl. generalize (Str.take_while Char.not_newline s4).
  clear. intros s. induction s as [|c s IH]; simpl; [done |].
  rewrite IH. unfold Char.not_newline. by rewrite negb_involutive.
Qed.

(** C6 on the text [TOOL: list_files / hello world]: the keyword and the
    name stand on the first line, and nothing follows them there, yet the
    invocation found has the second line as its arguments; and on the text
    [TOOL: / foo bar], whose keyword has no name on its line, an
    invocation of [foo] is found. *)
Lemma C6_arguments_from_the_next_line :
  tool_matches ("TOOL: list_files" +:+ Str.nl +:+ "hello world")
  = [("list_files", "hello world")]
  /\ tool_matches "TOOL: list_files" = [("list_files", "")]
  /\ tool_matches ("TOOL:" +:+ Str.nl +:+ "foo bar") = [("foo", "bar")]
  /\ tool_matches "TOOL:" = [].
Proof. repeat split; reflexivity. Qed.

(** ** The messages of a request *)

Lemma slice_from_last_3 {A} (l : list A) : Py.slice_from (-3) l = last_k 3 l.
Proof.
  unfold Py.slice_from, last_k. cbn [Z.ltb Z.compare]. f_equal. lia.
Qed.

Lemma insert_before_last {A} (x last : A) (pre : list A) :
  Py.insert (-1) x (pre ++ [last]) = pre ++ [x; last].
Proof.
  unfold Py.insert. cbn [Z.ltb Z.compare].
  replace (Z.to_nat (Z.max 0 (Z.of_nat (length (pre ++ [last])) + -1)))
    with (length pre) by (rewrite length_app; simpl; lia).
  by rewrite take_app_length, drop_app_length.
Qed.

Lemma splice_before_last (pre : list message) (last : message) (e : exchange) :
  splice (pre ++ [last]) e = pre ++ exchange_pair e ++ [last].
Proof.
  unfold splice. rewrite insert_before_last.
  change (pre ++ [Message "user" (Py.VStr (user e)); last])
    with (pre ++ [Message "user" (Py.VStr (user e))] ++ [last]).
  rewrite app_assoc, insert_before_last. by rewrite <- app_assoc.
Qed.

Lemma fold_splice (es : list exchange) (pre : list message) (last : message) :
  fold_left splice es (pre ++ [last])
  = pre ++ flat_map exchange_pair es ++ [last].
Proof.
  revert pre. induction es as [|e es IH]; intros pre; [done |].
  cbn [fold_left flat_map]. rewrite splice_before_last, app_assoc, IH.
  by rewrite <- !app_assoc.
Qed.

(** C2: the messages are the system message, made of the base prompt and,
    when there are context lines, the heading and the first ten of them;
    then the last three exchanges of the history, oldest first, each as a
    user message and an assistant message; then the user message of the
    current turn.  Of five exchanges the last three are sent; without
    history the messages are the system message and the user message. *)
Theorem C2_build_messages (context : list string) (history : list exchange)
    (user_input : string) :
  let system :=
    Message "system"
      (Py.VStr (base_prompt +:+
                match context with
                | [] => ""
                | _ => context_heading +:+ Str.join Str.nl (take 10 context)
                end)) in
  let current := Message "user" (Py.VStr user_input) in
  build_messages context history user_input
  = system :: flat_map exchange_pair (last_k 3 history) ++ [current]
  /\ (forall e1 e2 e3 e4 e5,
        build_messages context [e1; e2; e3; e4; e5] user_input
        = [ system;
            Message "user" (Py.VStr (user e3)); Message "assistant" (assistant e3);
            Message "user" (Py.VStr (user e4)); Message "assistant" (assistant e4);
            Message "user" (Py.VStr (user e5)); Message "assistant" (assistant e5);
            current ])
  /\ build_messages context [] user_input = [system; current].
Proof.
  intros system current.
  assert (Message "system" (Py.VStr (_get_system_prompt context)) = system) as Hsys.
  { unfold system, _get_system_prompt. destruct context; [| done].
    by rewrite append_nil_r. }
  assert (forall h, build_messages context h user_input
                    = system :: flat_map exchange_pair (last_k 3 h) ++ [current])
    as Hgen.
  { intros h. unfold build_messages. rewrite Hsys. fold current.
    destruct h as [|e h]; [done |].
    rewrite slice_from_last_3.
    apply (fold_splice (last_k 3 (e :: h)) [system] current). }
  split; [apply Hgen |]. split; [| apply Hgen].
  intros e1 e2 e3 e4 e5. apply Hgen.
Qed.

(** C2 on a history of four exchanges and two context lines. *)
Lemma C2_build_messages_witness :
  List.map role
    (build_messages ["line 1"; "line 2"]
       [ Exchange "u1" (Py.VStr "a1") "t1"; Exchange "u2" (Py.VStr "a2") "t2";
         Exchange "u3" (Py.VStr "a3") "t3"; Exchange "u4" (Py.VStr "a4") "t4" ]
       "now")
  = ["system"; "user"; "assistant"; "user"; "assistant"; "user"; "assistant"; "user"]
  /\ List.map content
       (tail (build_messages ["line 1"; "line 2"]
          [ Exchange "u1" (Py.VStr "a1") "t1"; Exchange "u2" (Py.VStr "a2") "t2";
            Exchange "u3" (Py.VStr "a3") "t3"; Exchange "u4" (Py.VStr "a4") "t4" ]
          "now"))
     = [Py.VStr "u2"; Py.VStr "a2"; Py.VStr "u3"; Py.VStr "a3";
        Py.VStr "u4"; Py.VStr "a4"; Py.VStr "now"].
Proof.
  rewrite (proj1 (C2_build_messages ["line 1"; "line 2"]
       [ Exchange "u1" (Py.VStr "a1") "t1"; Exchange "u2" (Py.VStr "a2") "t2";
         Exchange "u3" (Py.VStr "a3") "t3"; Exchange "u4" (Py.VStr "a4") "t4" ]
       "now")).
  split; reflexivity.
Defined.

(** ** The order of [ast.walk] *)

Section Walk.

Import AstOrder.

Lemma forest_size_app (a b : list Ast.node) :
  Ast.forest_size (a ++ b) = Ast.forest_size a + Ast.forest_size b.
Proof.
  unfold Ast.forest_size. rewrite List.map_app.
  induction (List.map Ast.size a) as [|x l IH]; simpl; lia.
Qed.

Lemma size_children (n : Ast.node) :
  Ast.size n = S (Ast.forest_size (Ast.children n)).
Proof. by destruct n. Qed.

Lemma forest_size_children (l : list Ast.node) :
  Ast.forest_size l = length l + Ast.forest_size (child_forest l).
Proof.
  induction l as [|n l IH]; [done |].
  change (child_forest (n :: l)) with (Ast.children n ++ child_forest l).
  change (Ast.forest_size (n :: l)) with (Ast.size n + Ast.forest_size l).
  rewrite forest_size_app, size_children, IH. simpl. lia.
Qed.

(** Once the nodes waiting in the deque have been yielded, the deque holds
    what was behind them and then their children. *)
Lemma walk_loop_front (fuel : nat) (front back : list Ast.node) :
  Ast.walk_loop (length front + fuel) (front ++ back)
  = front ++ Ast.walk_loop fuel (back ++ child_forest front).
Proof.
  revert back. induction front as [|n front IH]; intros back.
  - unfold child_forest. simpl. by rewrite app_nil_r.
  - cbn [length Nat.add app Ast.walk_loop]. f_equal.
    rewrite <- app_assoc, IH. f_equal. f_equal.
    change (child_forest (n :: front)) with (Ast.children n ++ child_forest front).
    by rewrite app_assoc.
Qed.

Lemma height_positive (n : Ast.node) : 0 < height n.
Proof. destruct n. simpl. lia. Qed.

Lemma forest_height_cons (n : Ast.node) (l : list Ast.node) :
  forest_height (n :: l) = Nat.max (height n) (forest_height l).
Proof. reflexivity. Qed.

Lemma forest_height_app (a b : list Ast.node) :
  forest_height (a ++ b) = Nat.max (forest_height a) (forest_height b).
Proof.
  unfold forest_height. rewrite List.map_app. apply list_max_app.
Qed.

Lemma forest_height_children (l : list Ast.node) (d : nat) :
  forest_height l <= S d -> forest_height (child_forest l) <= d.
Proof.
  induction l as [|n l IH]; [intros _; cbn; lia |].
  change (child_forest (n :: l)) with (Ast.children n ++ child_forest l).
  rewrite forest_height_cons, forest_height_app. intros Hmax.
  assert (forest_height (Ast.children n) <= d).
  { destruct n as [k cs]. simpl in *. unfold forest_height. lia. }
  assert (forest_height (child_forest l) <= d) by (apply IH; lia).
  lia.
Qed.

(** With fuel for every node, the loop of [ast.walk] lists a forest level
    by level. *)
Lemma walk_loop_level_order (d : nat) (l : list Ast.node) :
  forest_height l <= d ->
  Ast.walk_loop (Ast.forest_size l) l = level_order d l.
Proof.
  revert l. induction d as [|d IH]; intros l Hd.
  - destruct l as [|n l]; [done |].
    rewrite forest_height_cons in Hd. pose proof (height_positive n). lia.
  - rewrite forest_size_children.
    pose proof (walk_loop_front (Ast.forest_size (child_forest l)) l []) as Hw.
    rewrite app_nil_r in Hw. rewrite Hw. cbn [app level_order].
    f_equal. apply IH. by apply forest_height_children.
Qed.

(** [ast.walk] yields the nodes in breadth-first order. *)
Lemma walk_breadth_first (tree : Ast.node) :
  Ast.walk tree = breadth_first tree.
Proof.
  unfold Ast.walk, breadth_first.
  replace (Ast.size tree) with (Ast.forest_size [tree])
    by (unfold Ast.forest_size; simpl; lia).
  apply walk_loop_level_order. unfold forest_height. simpl. lia.
Qed.

(** More fuel than there are nodes changes nothing. *)
Lemma walk_loop_enough_fuel (extra : nat) (l : list Ast.node) :
  Ast.walk_loop (Ast.forest_size l + extra) l
  = Ast.walk_loop (Ast.forest_size l) l.
Proof.
  remember (Ast.forest_size l) as k eqn:Hk. revert l Hk.
  induction k as [k IH] using lt_wf_ind. intros l Hk.
  destruct l as [|n l].
  - subst k. cbn. by destruct extra.
  - pose proof (size_children n) as Hn.
    assert (Ast.forest_size (n :: l) = Ast.size n + Ast.forest_size l) as Hc
      by reflexivity.
    destruct k as [|k]; [lia |]. cbn [Nat.add Ast.walk_loop]. f_equal.
    apply IH; [lia |]. rewrite forest_size_app. lia.
Qed.

Lemma document_forest_app (a b : list Ast.node) :
  document_forest (a ++ b) = document_forest a ++ document_forest b.
Proof. unfold document_forest. by rewrite List.map_app, concat_app. Qed.

Lemma document_order_children (n : Ast.node) :
  Ast.document_order n = n :: document_forest (Ast.children n).
Proof. by destruct n. Qed.

Lemma document_forest_levels (l : list Ast.node) :
  document_forest l ≡ₚ l ++ document_forest (child_forest l).
Proof.
  induction l as [|n l IH]; [done |].
  change (document_forest (n :: l))
    with (Ast.document_order n ++ document_forest l).
  change (child_forest (n :: l)) with (Ast.children n ++ child_forest l).
  rewrite document_order_children, document_forest_app, IH.
  cbn [app]. constructor.
  rewrite !app_assoc. apply Permutation_app_tail, Permutation_app_comm.
Qed.

Lemma level_order_document_forest (d : nat) (l : list Ast.node) :
  forest_height l <= d -> level_order d l ≡ₚ document_forest l.
Proof.
  revert l. induction d as [|d IH]; intros l Hd.
  - destruct l as [|n l]; [done |].
    rewrite forest_height_cons in Hd. pose proof (height_positive n). lia.
  - cbn [level_order]. rewrite document_forest_levels.
    apply Permutation_app_head, IH. by apply forest_height_children.
Qed.

(** [ast.walk] yields every node of the tree once. *)
Lemma walk_document_order (tree : Ast.node) :
  Ast.walk tree ≡ₚ Ast.document_order tree.
Proof.
  rewrite walk_breadth_first. unfold breadth_first.
  rewrite level_order_document_forest by (unfold forest_height; simpl; lia).
  unfold document_forest. simpl. by rewrite app_nil_r.
Qed.

End Walk.

(** ** The code analyzer *)

Lemma fold_visit (nodes : list Ast.node) (acc : names) :
  fold_left visit nodes acc
  = Names (functions acc ++ omap def_name nodes)
          (classes acc ++ omap class_name nodes)
          (imports acc ++ flat_map import_targets nodes).
Proof.
  revert acc. induction nodes as [|n nodes IH]; intros acc.
  - destruct acc. simpl. by rewrite !app_nil_r.
  - cbn [fold_left]. rewrite IH. rewrite omap_cons_eq, omap_cons_eq.
    cbn [flat_map]. unfold visit, def_name, class_name, import_targets.
    destruct (Ast.node_kind n); cbn [functions classes imports];
      by rewrite <- ?app_assoc, ?app_nil_r.
Qed.

Lemma collect_spec (tree : Ast.node) :
  collect tree
  = Names (omap def_name (Ast.walk tree))
          (omap class_name (Ast.walk tree))
          (flat_map import_targets (Ast.walk tree)).
Proof. unfold collect. by rewrite fold_visit. Qed.

Lemma report_lines (code : string) (found : names) :
  report code found
  = Str.join Str.nl
      (("Lines of code: " +:+ Str.of_int (Z.of_nat (length (Str.split code))))
       :: optional_line "Functions: " (functions found)
       ++ optional_line "Classes: " (classes found)
       ++ optional_line "Imports: " (take 5 (imports found))).
Proof.
  unfold report, optional_line.
  destruct (functions found), (classes found), (imports found); reflexivity.
Qed.

Section Analyzer.

Context {W : Type} `{Env W}.

(** C3, as the program has it: for a text that parses, the names of the
    functions defined with [def], the names of the classes and the targets
    of the imports (the module names of plain imports, [from] and the
    module for the other form) are collected in the order of [ast.walk],
    which is breadth-first, so each of them once but a nested definition
    after the definitions of the enclosing level; the report gives the
    number of blank-separated words of the text as line count and lists at
    most the first five imports.  For a text the parser rejects the
    result is the diagnostic alone, without names: after [Syntax Error]
    when the parser raises a syntax error, after [Analysis Error] when it
    raises another exception. *)
Theorem C3_analysis_in_walk_order (code : string) :
  (forall tree, ast_parse code = Return tree ->
     _analyze_code_content code = Return (report code (collect tree))
     /\ functions (collect tree) = omap def_name (AstOrder.breadth_first tree)
     /\ classes (collect tree) = omap class_name (AstOrder.breadth_first tree)
     /\ imports (collect tree)
        = flat_map import_targets (AstOrder.breadth_first tree)
     /\ functions (collect tree) ≡ₚ omap def_name (Ast.document_order tree)
     /\ classes (collect tree) ≡ₚ omap class_name (Ast.document_order tree)
     /\ imports (collect tree)
        ≡ₚ flat_map import_targets (Ast.document_order tree))
  /\ (forall found,
        report code found
        = Str.join Str.nl
            (("Lines of code: "
              +:+ Str.of_int (Z.of_nat (length (Str.split code))))
             :: optional_line "Functions: " (functions found)
             ++ optional_line "Classes: " (classes found)
             ++ optional_line "Imports: " (take 5 (imports found))))
  /\ (forall e, ast_parse code = Raise e ->
        is_SyntaxError (exn_class e) = true ->
        _analyze_code_content code = Return ("Syntax Error: " +:+ exn_str e))
  /\ (forall e, ast_parse code = Raise e ->
        is_SyntaxError (exn_class e) = false ->
        is_Exception (exn_class e) = true ->
        _analyze_code_content code = Return ("Analysis Error: " +:+ exn_str e)).
Proof.
  split; [| split; [| split]].
  - intros tree Hparse. unfold _analyze_code_content. rewrite Hparse.
    rewrite collect_spec. cbn [functions classes imports].
    split; [done |]. rewrite walk_breadth_first.
    split; [done |]. split; [done |]. split; [done |].
    rewrite <- walk_breadth_first.
    split; [| split].
    + apply omap_Permutation, walk_document_order.
    + apply omap_Permutation, walk_document_order.
    + apply Permutation_flat_map, walk_document_order.
  - apply report_lines.
  - intros e Hparse He. unfold _analyze_code_content. by rewrite Hparse, He.
  - intros e Hparse Hs He. unfold _analyze_code_content.
    by rewrite Hparse, Hs, He.
Qed.

End Analyzer.

(** C3 on the three lines [def f(): pass], [class C: pass], [import os],
    on the text [def f(:], and, with the parser of Python 3.11, on a text
    that holds a null character. *)
Lemma C3_analysis_in_walk_order_witness :
  _analyze_code_content Demo.three_lines_src
  = Return ("Lines of code: 8" +:+ Str.nl +:+ "Functions: f" +:+ Str.nl +:+
            "Classes: C" +:+ Str.nl +:+ "Imports: os")
  /\ collect Demo.three_lines_tree = Names ["f"] ["C"] ["os"]
  /\ _analyze_code_content "def f(:"
     = Return "Syntax Error: invalid syntax (<unknown>, line 1)"
  /\ _analyze_code_content (H := NulDemo.env) NulDemo.with_nul
     = Return "Analysis Error: source code string cannot contain null bytes".
Proof.
  split; [| split; [| split]].
  - destruct (C3_analysis_in_walk_order (H := Demo.env) Demo.three_lines_src)
      as [Hok _].
    destruct (Hok Demo.three_lines_tree eq_refl) as [Hreport _].
    rewrite Hreport. reflexivity.
  - reflexivity.
  - destruct (C3_analysis_in_walk_order (H := Demo.env) "def f(:")
      as (_ & _ & Hbad & _).
    exact (Hbad _ eq_refl eq_refl).
  - destruct (C3_analysis_in_walk_order (H := NulDemo.env) NulDemo.with_nul)
      as (_ & _ & _ & Hother).
    exact (Hother _ eq_refl eq_refl eq_refl).
Defined.

(** C3 as stated fails: with [g] defined inside [f] and [h] after [f], the
    order of the text is [f], [g], [h], and the analyzer reports [f], [h],
    [g]. *)
Lemma C3_counterexample :
  omap def_name (Ast.document_order Demo.nested_tree) = ["f"; "g"; "h"]
  /\ functions (collect Demo.nested_tree) = ["f"; "h"; "g"]
  /\ functions (collect Demo.nested_tree)
     <> omap def_name (Ast.document_order Demo.nested_tree)
  /\ _analyze_code_content Demo.nested_src
     = Return ("Lines of code: 8" +:+ Str.nl +:+ "Functions: f, h, g").
Proof. repeat split; try reflexivity. discriminate. Qed.

(** ** The conversation history *)

Create HintDb history discriminated.

Section History.

Context {W : Type} `{Env W}.

Lemma keeps_ret {A} (a : A) : keeps_history (W := W) (ret a).
Proof. by intros st. Qed.

Lemma keeps_raise {A} (e : exn) : keeps_history (W := W) (A := A) (raise e).
Proof. by intros st. Qed.

Lemma keeps_of_outcome {A} (o : outcome A) : keeps_history (W := W) (of_outcome o).
Proof. by intros st. Qed.

Lemma keeps_get_state : keeps_history (W := W) get_state.
Proof. by intros st. Qed.

Lemma keeps_on_world {A} (m : M W A) : keeps_history (on_world m).
Proof. intros st. unfold on_world. by destruct (m (world st)). Qed.

Lemma keeps_bind {A B} (m : M (state W) A) (f : A -> M (state W) B) :
  keeps_history m -> (forall a, keeps_history (f a)) -> keeps_history (bind m f).
Proof.
  intros Hm Hf st. unfold bind. specialize (Hm st).
  destruct (m st) as [[a | e] st1]; simpl in *; [| done].
  by rewrite Hf.
Qed.

Lemma keeps_try {A} (body : M (state W) A) (cls : exc_class -> bool)
    (handler : exn -> M (state W) A) :
  keeps_history body -> (forall e, keeps_history (handler e)) ->
  keeps_history (try_except body cls handler).
Proof.
  intros Hb Hh st. unfold try_except. specialize (Hb st).
  destruct (body st) as [[a | e] st1]; simpl in *; [done |].
  destruct (cls (exn_class e)); [| done]. by rewrite Hh.
Qed.

Lemma keeps_if {A} (b : bool) (m1 m2 : M (state W) A) :
  keeps_history m1 -> keeps_history m2 -> keeps_history (if b then m1 else m2).
Proof. by destruct b. Qed.

Hint Resolve keeps_ret keeps_raise keeps_of_outcome keeps_get_state
  keeps_on_world keeps_bind keeps_try keeps_if : history.

Lemma keeps_send_to_model (messages : list message) :
  keeps_history (_send_to_model messages).
Proof. unfold _send_to_model. auto 10 with history. Qed.

Lemma keeps_display_response (reply : Py.val) :
  keeps_history (_display_response reply).
Proof. unfold _display_response. auto 10 with history. Qed.

(** [extract_reply] gives a reply that counts as true only from an object
    with a non-empty [choices]. *)
Lemma extract_reply_truthy (resp : response) (reply : Py.val) :
  extract_reply resp = Return reply -> Py.truthy reply = true ->
  exists data, json resp = Return data /\ has_choices data.
Proof.
  unfold extract_reply, outcome_bind. destruct (json resp) as [data | e]; [| done].
  intros Hx Ht. exists data. split; [done |].
  destruct data as [| b | z | m x | s | l | d]; simpl in Hx; try done.
  - destruct (Str.contains "choices" s); [done |].
    injection Hx as <-. done.
  - destruct (existsb (Py.is_str "choices") l); [done |].
    injection Hx as <-. done.
  - destruct (Py.assoc "choices" d) as [c |] eqn:Hc.
    + rewrite bool_decide_eq_true_2 in Hx by eauto. simpl in Hx.
      destruct (Py.truthy c) eqn:Hc'; [by exists d, c |].
      injection Hx as <-. done.
    + rewrite bool_decide_eq_false_2 in Hx by (by intros [? ?]). simpl in Hx.
      injection Hx as <-. done.
Qed.

(** A reply that counts as true comes from a response with status 200 and
    a non-empty [choices]. *)
Lemma send_to_model_reply (messages : list message) (st st1 : state W)
    (reply : Py.val) :
  _send_to_model messages st = (Return reply, st1) ->
  Py.truthy reply = true ->
  exists resp w1 data,
    post_messages (current_model st) messages (world st) = (Return resp, w1)
    /\ status_code resp = 200%Z
    /\ json resp = Return data
    /\ has_choices data
    /\ extract_reply resp = Return reply.
Proof.
  unfold _send_to_model, bind, get_state, try_except, on_world, of_outcome, ret.
  destruct (post_messages (current_model st) messages (world st))
    as [[resp | e] w1] eqn:Hpost.
  - destruct (Z.eqb_spec (status_code resp) 200) as [Hs | Hs].
    + destruct (extract_reply resp) as [v | e] eqn:Hx.
      * intros [= -> <-] Ht.
        destruct (extract_reply_truthy _ _ Hx Ht) as (data & Hj & Hc).
        by exists resp, w1, data.
      * destruct (is_RequestException (exn_class e)); [| done].
        cbn. destruct (console_print _ w1) as [[[] | e1] w2]; cbn; [| done].
        destruct (console_print _ w2) as [[[] | e2] w3]; cbn; [| done].
        intros [= <- _]. done.
    + cbn. destruct (console_print _ w1) as [[[] | e1] w2]; cbn.
      * intros [= <- _]. done.
      * destruct (is_RequestException (exn_class e1)); [| done].
        cbn. destruct (console_print _ w2) as [[[] | e2] w3]; cbn; [| done].
        destruct (console_print _ w3) as [[[] | e3] w4]; cbn; [| done].
        intros [= <- _]. done.
  - cbn. destruct (is_RequestException (exn_class e)); [| done].
    cbn. destruct (console_print _ w1) as [[[] | e1] w2]; cbn; [| done].
    destruct (console_print _ w2) as [[[] | e2] w3]; cbn; [| done].
    intros [= <- _]. done.
Qed.

(** A turn appends at most one exchange, and one only after a successful
    round trip. *)
Lemma process_conversation_history (user_input : string) (st : state W) :
  let st' := (_process_conversation user_input st).2 in
  let messages :=
    build_messages (context st) (conversation_history st) user_input in
  conversation_history st' = conversation_history st
  \/ exists reply stamp resp w1 data,
       conversation_history st'
       = conversation_history st ++ [Exchange user_input reply stamp]
       /\ Str.contains "TOOL:" (Str.upper user_input) = false
       /\ post_messages (current_model st) messages (world st) = (Return resp, w1)
       /\ status_code resp = 200%Z
       /\ json resp = Return data
       /\ has_choices data
       /\ extract_reply resp = Return reply
       /\ Py.truthy reply = true.
Proof.
  intros st' messages. subst st'.
  destruct (_process_conversation user_input st) as [o st'] eqn:Hrun.
  cbn [snd]. unfold _process_conversation in Hrun.
  destruct (Str.contains "TOOL:" (Str.upper user_input)) eqn:Htool.
  { left. pose proof (keeps_on_world (_execute_tool_request user_input) st) as Hk.
    by rewrite Hrun in Hk. }
  unfold bind at 1 in Hrun. unfold get_state at 1 in Hrun. fold messages in Hrun.
  unfold bind at 1 in Hrun.
  pose proof (keeps_send_to_model messages st) as Hkeep.
  destruct (_send_to_model messages st) as [[reply | e] st1] eqn:Hsend;
    cbn [snd] in Hkeep; [| left; congruence].
  destruct (Py.truthy reply) eqn:Htruthy.
  2:{ left. pose proof (keeps_on_world
        (console_print (Text "[red]Error: Could not get response from model[/red]"))
        st1) as Hk.
      rewrite Hrun in Hk. cbn [snd] in Hk. congruence. }
  unfold bind at 1 in Hrun.
  pose proof (keeps_display_response reply st1) as Hdisp.
  destruct (_display_response reply st1) as [[[] | e] st2]; cbn [snd] in Hdisp;
    [| left; congruence].
  unfold bind at 1 in Hrun.
  pose proof (keeps_on_world now_isoformat st2) as Hnow.
  destruct (on_world now_isoformat st2) as [[stamp | e] st3]; cbn [snd] in Hnow;
    [| left; congruence].
  right. unfold append_history in Hrun. injection Hrun as <- <-.
  destruct (send_to_model_reply _ _ _ _ Hsend Htruthy)
    as (resp & w1 & data & Hpost & Hstatus & Hjson & Hchoices & Hreply).
  exists reply, stamp, resp, w1, data. cbn [conversation_history].
  rewrite Hnow, Hdisp, Hkeep. done.
Qed.

(** C9: a turn whose round trip fails, by an exception of the request, by
    a status other than 200, by a body that does not decode, or by missing
    or empty [choices], leaves the history as it was; the history changes
    only by appending the exchange of a turn whose round trip returned a
    reply. *)
Theorem C9_failed_round_trip_keeps_history (user_input : string) (st : state W) :
  let st' := (_process_conversation user_input st).2 in
  let messages :=
    build_messages (context st) (conversation_history st) user_input in
  (forall e w1,
     post_messages (current_model st) messages (world st) = (Raise e, w1) ->
     conversation_history st' = conversation_history st)
  /\ (forall resp w1,
        post_messages (current_model st) messages (world st) = (Return resp, w1) ->
        status_code resp <> 200%Z ->
        conversation_history st' = conversation_history st)
  /\ (forall resp w1,
        post_messages (current_model st) messages (world st) = (Return resp, w1) ->
        (forall data, json resp = Return data -> ~ has_choices data) ->
        conversation_history st' = conversation_history st)
  /\ (conversation_history st' <> conversation_history st ->
      exists reply stamp resp w1 data,
        conversation_history st'
        = conversation_history st ++ [Exchange user_input reply stamp]
        /\ post_messages (current_model st) messages (world st) = (Return resp, w1)
        /\ status_code resp = 200%Z
        /\ json resp = Return data
        /\ has_choices data
        /\ extract_reply resp = Return reply
        /\ Py.truthy reply = true).
Proof.
  intros st' messages.
  destruct (process_conversation_history user_input st)
    as [Hsame | (reply & stamp & resp & w1 & data & Happ & Htool & Hpost
                 & Hstatus & Hjson & Hchoices & Hreply & Htruthy)];
    fold st' in Hsame || fold st' in Happ; fold messages in Hpost || idtac.
  - repeat split; try done.
  - split; [| split; [| split]].
    + intros e w2 Hpost'. congruence.
    + intros resp' w2 Hpost' Hne. congruence.
    + intros resp' w2 Hpost' Hno. exfalso.
      assert (resp' = resp) as -> by congruence. by eapply Hno.
    + intros _. by exists reply, stamp, resp, w1, data.
Qed.

End History.

(** C9 in the small environment: the endpoint answers with status 500 and
    the history stays empty. *)
Lemma C9_failed_round_trip_keeps_history_witness :
  conversation_history (_process_conversation "hello" Demo.st0).2 = [].
Proof.
  destruct (C9_failed_round_trip_keeps_history (H := Demo.env) "hello" Demo.st0)
    as (_ & Hstatus & _).
  refine (Hstatus (Response 500 (Return Py.VNone)) Demo.w0 eq_refl _).
  discriminate.
Defined.

(** A successful turn in the small environment appends its exchange. *)
Lemma successful_turn_appends :
  conversation_history
    (_process_conversation "hello"
       (State [] [] "default" (Demo.World ∅ (Demo.http_ok "hi") [] 0))).2
  = [Exchange "hello" (Py.VStr "hi") "2024-01-01T00:00:0"].
Proof. reflexivity. Qed.

(** * Properties of the rest of the class *)

(** ** What the tools receive *)

(** A parsed value has no blank. *)
Lemma parsed_value_blank_free (args_str : string) (args : gmap string string)
    (key value : string) :
  parse_args args_str = Return args ->
  args !! key = Some value ->
  Str.contains_char Char.is_space value = false.
Proof.
  intros Hp Hv. destruct (parse_args_spec args_str) as (m & Hm & Hl).
  rewrite Hp in Hm. injection Hm as <-. rewrite Hl in Hv.
  destruct (lookup_last key _) as [v|] eqn:E; [| done].
  injection Hv as <-. apply lookup_last_elem in E.
  apply list_elem_of_omap in E as (tok & Htok & Hb).
  apply binding_of_spec in Hb as [-> _].
  pose proof (split_blank_free args_str) as Hall.
  rewrite Forall_forall in Hall. destruct (Hall _ Htok) as [_ Hblank].
  rewrite contains_char_append in Hblank.
  apply orb_false_elim in Hblank as [_ Hblank]. simpl in Hblank.
  by apply strip_no_new_chars.
Qed.

(** A text without blanks is empty or one word. *)
Lemma split_one_word (t : string) :
  t <> "" -> Str.contains_char Char.is_space t = false -> Str.split t = [t].
Proof. intros Hne Hb. rewrite split_word by done. by destruct t. Qed.

Section Tools.

Context {W : Type} `{Env W}.

Lemma execute_tool_boundary {A} (tool_name args_str : string)
    (args : gmap string string) (m : M W A) (render : A -> string) (w : W) :
  parse_args args_str = Return args ->
  dispatch tool_name args w = bind m (fun a => ret (render a)) w ->
  _execute_tool tool_name args_str w = tool_boundary m render w.
Proof.
  intros Hp Hd. rewrite (execute_tool_outcome _ _ _ _ Hp), Hd.
  unfold bind, tool_boundary, ret. by destruct (m w) as [[a | e] w'].
Qed.


(** X2: the code the [analyze_code] tool hands to the analyzer is one word,
    so whenever that code parses the report starts with a line count
    of 1. *)
Theorem X2_analyze_code_tool_counts_one (args_str : string) (w : W) :
  _execute_tool "analyze_code" args_str w
  = (Return "Error: code parameter required", w)
  \/ exists code,
       Str.split code = [code]
       /\ _execute_tool "analyze_code" args_str w
          = match _analyze_code_content code with
            | Return text => (Return text, w)
            | Raise e => (Raise e, w)
            end
       /\ forall tree, ast_parse code = Return tree ->
            _analyze_code_content code
            = Return (Str.join Str.nl
                        ("Lines of code: 1"
                         :: optional_line "Functions: " (functions (collect tree))
                         ++ optional_line "Classes: " (classes (collect tree))
                         ++ optional_line "Imports: "
                              (take 5 (imports (collect tree))))).
Proof.
  destruct (parse_args_spec args_str) as (args & Hp & _).
  assert (forall code, args !! "code" = Some code -> code <> "" ->
            dispatch "analyze_code" args w
            = of_outcome (_analyze_code_content code) w) as Hd.
  { intros code Hc Hne. unfold dispatch. cbn [String.eqb Ascii.eqb Bool.eqb].
    rewrite get_lookup, Hc. by destruct code. }
  destruct (args !! "code") as [code |] eqn:Hc.
  - destruct code as [| c code].
    + left. rewrite (execute_tool_outcome _ _ _ _ Hp). unfold dispatch.
      cbn [String.eqb Ascii.eqb Bool.eqb]. by rewrite get_lookup, Hc.
    + right. exists (String c code).
      assert (Str.split (String c code) = [String c code]) as Hone.
      { apply split_one_word; [done |]. by eapply parsed_value_blank_free. }
      split; [done |]. split.
      * rewrite (execute_tool_outcome _ _ _ _ Hp), (Hd _ eq_refl) by done.
        unfold of_outcome, _analyze_code_content.
        destruct (ast_parse (String c code)) as [tree | e]; [done |].
        destruct (is_SyntaxError (exn_class e)); [done |].
        by destruct (is_Exception (exn_class e)) eqn:He; [| rewrite He].
      * intros tree Hparse. unfold _analyze_code_content. rewrite Hparse.
        by rewrite report_lines, Hone.
  - left. rewrite (execute_tool_outcome _ _ _ _ Hp). unfold dispatch.
    cbn [String.eqb Ascii.eqb Bool.eqb]. by rewrite get_lookup, Hc.
Qed.

(** The arguments of a [path=... content=...] line. *)
Lemma parse_path_content (p c : string) :
  Str.contains_char Char.is_space p = false ->
  Str.contains_char Char.is_space c = false ->
  exists args,
    parse_args ("path=" +:+ p +:+ " content=" +:+ c) = Return args
    /\ args !! "path" = Some (Str.strip Char.is_quote p)
    /\ args !! "content" = Some (Str.strip Char.is_quote c).
Proof.
  intros Hp Hc.
  destruct (parse_args_spec ("path=" +:+ p +:+ " content=" +:+ c))
    as (args & Hparse & Hl).
  exists args. split; [done |].
  assert (Str.split ("path=" +:+ p +:+ " content=" +:+ c)
          = ["path=" +:+ p; "content=" +:+ c]) as Hsplit.
  { change ("path=" +:+ p +:+ " content=" +:+ c)
      with ("path=" +:+ p +:+ String " "%char ("content=" +:+ c)).
    rewrite <- append_assoc, split_app_space by done.
    rewrite (split_one_word ("path=" +:+ p)), (split_one_word ("content=" +:+ c));
      [done | done | | done |].
    - by rewrite contains_char_append, Hc.
    - by rewrite contains_char_append, Hp. }
  assert (binding_of ("path=" +:+ p) = Some ("path", p)) as Hb1
    by (by apply binding_of_spec).
  assert (binding_of ("content=" +:+ c) = Some ("content", c)) as Hb2
    by (by apply binding_of_spec).
  split; rewrite Hl, Hsplit, !omap_cons_eq, Hb1, Hb2; reflexivity.
Qed.

(** The arguments of a line with one [key=value] word. *)
Lemma parse_one_binding (key value : string) :
  Str.contains_char Char.is_space key = false ->
  Str.contains_char Char.is_equals key = false ->
  Str.contains_char Char.is_space value = false ->
  exists args,
    parse_args (key +:+ String Char.equals value) = Return args
    /\ args !! key = Some (Str.strip Char.is_quote value).
Proof.
  intros Hk1 Hk2 Hv.
  destruct (parse_args_spec (key +:+ String Char.equals value))
    as (args & Hparse & Hl).
  exists args. split; [done |]. rewrite Hl, split_one_word.
  - rewrite omap_cons_eq.
    assert (binding_of (key +:+ String Char.equals value) = Some (key, value))
      as -> by (by apply binding_of_spec).
    cbn. by rewrite String.eqb_refl.
  - by destruct key.
  - rewrite contains_char_append, Hk1. simpl. by rewrite Hv.
Qed.

(** X3: for a path and a content without blanks and without quote marks at
    their ends, writing with [write_file] and then reading with
    [read_file] gives the content back, in a file system where a file
    reads as it was written.  The content may be empty. *)
Theorem X3_write_then_read (p c : string) (w w1 : W) :
  reads_back ->
  p <> "" ->
  Str.contains_char Char.is_space p = false ->
  Str.contains_char Char.is_space c = false ->
  Str.strip Char.is_quote p = p ->
  Str.strip Char.is_quote c = c ->
  write_text p c w = (Return tt, w1) ->
  _execute_tool "write_file" ("path=" +:+ p +:+ " content=" +:+ c) w
  = (Return ("File written: " +:+ p), w1)
  /\ _execute_tool "read_file" ("path=" +:+ p) w1 = (Return c, w1).
Proof.
  intros Hfs Hne Hpb Hcb Hps Hcs Hw.
  destruct (parse_path_content p c Hpb Hcb) as (args & Hparse & Hpath & Hcontent).
  destruct (parse_one_binding "path" p eq_refl eq_refl Hpb) as (args1 & Hparse1 & Hpath1).
  rewrite Hps in Hpath, Hpath1. rewrite Hcs in Hcontent.
  split.
  - rewrite (execute_tool_outcome _ _ _ _ Hparse). unfold dispatch.
    cbn [String.eqb Ascii.eqb Bool.eqb]. rewrite !get_lookup, Hpath, Hcontent.
    destruct p; [done |]. cbn [Str.is_empty]. unfold bind, ret. by rewrite Hw.
  - change ("path=" +:+ p) with ("path" +:+ String Char.equals p).
    rewrite (execute_tool_outcome _ _ _ _ Hparse1). unfold dispatch.
    cbn [String.eqb Ascii.eqb Bool.eqb]. rewrite !get_lookup, Hpath1.
    destruct p; [done |]. cbn [Str.is_empty]. by rewrite (Hfs _ _ _ _ Hw).
Qed.

End Tools.

Lemma demo_reads_back : reads_back (H := Demo.env).
Proof.
  intros p c w w1. cbn [write_text read_text Demo.env].
  unfold Demo.demo_write, Demo.demo_read. intros [= <-]. cbn [Demo.files].
  by rewrite lookup_insert_eq.
Qed.

(** X3 in the small environment. *)
Lemma X3_write_then_read_witness :
  (_execute_tool "read_file" "path=notes.txt"
     (_execute_tool "write_file" "path=notes.txt content=a=b" Demo.w0).2).1
  = Return "a=b".
Proof.
  destruct (X3_write_then_read (H := Demo.env) "notes.txt" "a=b" Demo.w0
              (Demo.demo_write "notes.txt" "a=b" Demo.w0).2
              demo_reads_back ltac:(done) eq_refl eq_refl eq_refl eq_refl eq_refl)
    as [Hwrite Hread].
  change ("path=" +:+ "notes.txt" +:+ " content=" +:+ "a=b")
    with "path=notes.txt content=a=b" in *.
  change ("path=" +:+ "notes.txt") with "path=notes.txt" in *.
  rewrite Hwrite. cbn [snd]. by rewrite Hread.
Defined.

(** The example of the system prompt, [command="python script.py"], runs
    [python]. *)
Example prompt_example_runs_python :
  exists args,
    parse_args ("command=" +:+ dq +:+ "python script.py" +:+ dq) = Return args
    /\ args !! "command" = Some "python".
Proof.
  destruct (parse_args_spec ("command=" +:+ dq +:+ "python script.py" +:+ dq))
    as (args & Hp & Hl).
  exists args. split; [done |]. by rewrite Hl.
Qed.

(** ** The gate of a turn and the parser *)

Lemma upper_append (a b : string) :
  Str.upper (a +:+ b) = Str.upper a +:+ Str.upper b.
Proof.
  induction a as [|c a IH]; [done |].
  rewrite append_cons. cbn [Str.upper]. by rewrite IH, append_assoc.
Qed.

Lemma contains_suffix (needle a b : string) :
  Str.starts_with needle b = true -> Str.contains needle (a +:+ b) = true.
Proof.
  intros Hb. induction a as [|c a IH].
  - rewrite append_nil_l. destruct b; cbn [Str.contains]; by rewrite Hb.
  - rewrite append_cons. cbn [Str.contains]. rewrite IH. apply orb_true_r.
Qed.

(** A character that equals an ASCII letter or the colon, letter case
    apart, has that letter in upper case, or the colon, as its upper
    case. *)
Lemma upper_of_keyword_char (c l : ascii) :
  l ∈ ["T"; "O"; "L"; ":"]%char ->
  Ascii.eqb (Char.lower c) (Char.lower l) = true ->
  Char.upper c = String l "".
Proof.
  intros Hl.
  repeat (apply elem_of_cons in Hl as [-> | Hl]);
    [| | | | by apply elem_of_nil in Hl];
    destruct c as [[] [] [] [] [] [] [] []]; vm_compute; congruence.
Qed.

Lemma keyword_in_upper (t : string) :
  starts_with_ci "TOOL:" t = true ->
  Str.starts_with "TOOL:" (Str.upper t) = true.
Proof.
  destruct t as [|c1 [|c2 [|c3 [|c4 [|c5 t]]]]]; try done;
    cbn [starts_with_ci]; try (rewrite ?andb_false_r; done).
  intros H. repeat (apply andb_prop in H as [? H]).
  cbn [Str.upper].
  rewrite (upper_of_keyword_char c1 "T"), (upper_of_keyword_char c2 "O"),
    (upper_of_keyword_char c3 "O"), (upper_of_keyword_char c4 "L"),
    (upper_of_keyword_char c5 ":"); try done;
    try (repeat first [apply list_elem_of_here | apply list_elem_of_further]).
Qed.

Lemma gate_closed_no_matches (user_input : string) :
  Str.contains "TOOL:" (Str.upper user_input) = false ->
  tool_matches user_input = [].
Proof.
  intros Hgate. unfold tool_matches, Re.findall. rewrite scan_nothing; [done |].
  intros t [pre ->]. rewrite run_tool_pattern. unfold match_tool_at.
  destruct (starts_with_ci "TOOL:" t) eqn:E; [| done].
  apply keyword_in_upper in E.
  rewrite upper_append, (contains_suffix _ _ _ E) in Hgate. done.
Qed.

Section Gate.

Context {W : Type} `{Env W}.

(** X4: the test of [_process_conversation] for the keyword never hides an
    invocation from the parser: a text in which the parser finds one
    passes the test, and is executed instead of being sent to the
    model. *)
Theorem X4_gate_passes_every_invocation (user_input : string) (st : state W) :
  tool_matches user_input <> [] ->
  Str.contains "TOOL:" (Str.upper user_input) = true
  /\ _process_conversation user_input st
     = on_world (_execute_tool_request user_input) st.
Proof.
  intros Hm.
  assert (Str.contains "TOOL:" (Str.upper user_input) = true) as Hgate.
  { destruct (Str.contains "TOOL:" (Str.upper user_input)) eqn:E; [done |].
    by apply gate_closed_no_matches in E. }
  split; [done |]. unfold _process_conversation. by rewrite Hgate.
Qed.

(** X5: a text that holds the keyword but no invocation is dropped
    without a word: nothing is executed, nothing is printed, nothing is
    sent to the model and the state stays as it is. *)
Theorem X5_keyword_without_invocation_is_dropped (user_input : string)
    (st : state W) :
  Str.contains "TOOL:" (Str.upper user_input) = true ->
  tool_matches user_input = [] ->
  _process_conversation user_input st = (Return tt, st).
Proof.
  intros Hgate Hm. unfold _process_conversation. rewrite Hgate.
  unfold on_world, _execute_tool_request. rewrite Hm. cbn. by destruct st.
Qed.

End Gate.

(** X4 in the small environment. *)
Lemma X4_gate_passes_every_invocation_witness :
  _process_conversation "tool: read_file path=x" Demo.st0
  = on_world (_execute_tool_request "tool: read_file path=x") Demo.st0.
Proof.
  apply (X4_gate_passes_every_invocation (H := Demo.env)). discriminate.
Defined.

(** X5 in the small environment. *)
Lemma X5_keyword_without_invocation_is_dropped_witness :
  _process_conversation "What does TOOL: ??? do" Demo.st0 = (Return tt, Demo.st0).
Proof.
  apply (X5_keyword_without_invocation_is_dropped (H := Demo.env));
    reflexivity.
Defined.

(** ** Invocations on one line *)

Lemma tool_pattern_needs_text : Re.run true tool_pattern [] [] "" = None.
Proof. reflexivity. Qed.

Lemma scan_skip_all (ic : bool) (p : list Re.item) (skip : nat) (s : string) :
  Re.run ic p [] [] "" = None ->
  String.length s <= skip ->
  Re.scan ic p skip s = [].
Proof.
  intros Hnil. revert skip. induction s as [|c s IH]; intros skip Hlen.
  - cbn [Re.scan]. rewrite Hnil. by destruct skip.
  - destruct skip as [|k]; [simpl in Hlen; lia |]. cbn [Re.scan].
    apply IH. simpl in Hlen. lia.
Qed.

Lemma drop_no_new_chars (p : ascii -> bool) (n : nat) (s : string) :
  Str.contains_char p s = false -> Str.contains_char p (Str.drop n s) = false.
Proof.
  revert s. induction n as [|n IH]; intros s; [by destruct s |].
  destruct s as [|c s]; [done |]. cbn [Str.drop Str.contains_char].
  intros [_ Hs]%orb_false_elim. by apply IH.
Qed.

Lemma drop_while_all (p : ascii -> bool) (s : string) :
  Str.contains_char (fun c => negb (p c)) s = false ->
  Str.drop_while p s = "" /\ Str.take_while p s = s.
Proof.
  induction s as [|c s IH]; [done |]. cbn.
  intros [Hc Hs]%orb_false_elim. apply negb_false_iff in Hc. rewrite Hc.
  destruct (IH Hs) as [-> ->]. done.
Qed.

Lemma no_newline_all_not_newline (s : string) :
  Str.contains_char Char.is_newline s = false ->
  Str.contains_char (fun c => negb (Char.not_newline c)) s = false.
Proof.
  intros Hs. rewrite <- Hs. clear Hs. induction s as [|c s IH]; [done |].
  cbn [Str.contains_char]. unfold Char.not_newline at 1.
  by rewrite negb_involutive, IH.
Qed.

(** On a text without newline a match reaches to the end. *)
Lemma match_tool_to_the_end (s : string) (caps : list string) (rest : string) :
  Str.contains_char Char.is_newline s = false ->
  match_tool_at s = Some (caps, rest) -> rest = "".
Proof.
  intros Hs. unfold match_tool_at.
  destruct (starts_with_ci "TOOL:" s); [| done].
  destruct (Str.is_empty _); [done |]. intros [= _ <-].
  apply drop_while_all, no_newline_all_not_newline.
  repeat apply drop_while_no_new_chars.
  exact (drop_no_new_chars _ 5 s Hs).
Qed.


Lemma scan_forall_suffix (P : list string -> Prop) (ic : bool)
    (p : list Re.item) (skip : nat) (s : string) :
  (forall t caps rest,
     suffix_of t s -> Re.run ic p [] [] t = Some (caps, rest) -> P caps) ->
  Forall P (Re.scan ic p skip s).
Proof.
  revert skip. induction s as [|c s IH]; intros skip Hrun; simpl.
  - destruct skip; [| done].
    destruct (Re.run ic p [] [] "") as [[caps rest] |] eqn:E; [| done].
    constructor; [| done]. eapply Hrun; [apply suffix_of_refl | done].
  - assert (forall k, Forall P (Re.scan ic p k s)) as Htail.
    { intros k. apply IH. intros t caps rest Ht. by apply Hrun, suffix_of_tail. }
    destruct skip as [|k]; [| apply Htail].
    destruct (Re.run ic p [] [] (String c s)) as [[caps rest] |] eqn:E;
      [| apply Htail].
    constructor; [| apply Htail]. eapply Hrun; [apply suffix_of_refl | done].
Qed.

Lemma suffix_no_new_chars (p : ascii -> bool) (t s : string) :
  suffix_of t s ->
  Str.contains_char p s = false -> Str.contains_char p t = false.
Proof.
  intros [pre ->]. rewrite contains_char_append.
  by intros [_ ?]%orb_false_elim.
Qed.

Lemma starts_with_ci_split (p s : string) :
  starts_with_ci p s = true ->
  exists kw, s = kw +:+ Str.drop (String.length p) s
             /\ lower_ascii kw = lower_ascii p.
Proof.
  revert s. induction p as [|a p IH]; intros s; simpl.
  - intros _. exists "". split; [by destruct s | done].
  - destruct s as [|b s]; [done |].
    intros [Hb Hs]%andb_prop. apply Ascii.eqb_eq in Hb.
    destruct (IH s Hs) as (kw & Hkw & Hlow).
    exists (String b kw). cbn [Str.drop]. split.
    + by rewrite append_cons, <- Hkw.
    + simpl. by rewrite Hb, Hlow.
Qed.

(** The parts of the text a match of the pattern is made of. *)
Lemma match_tool_parts (t : string) (caps : list string) (rest : string) :
  match_tool_at t = Some (caps, rest) ->
  exists kw blanks1 name blanks2 args,
    caps = [name; args]
    /\ t = kw +:+ blanks1 +:+ name +:+ blanks2 +:+ args +:+ rest
    /\ lower_ascii kw = "tool:"
    /\ all_chars Char.is_space blanks1 = true
    /\ all_chars Char.is_space blanks2 = true.
Proof.
  unfold match_tool_at.
  destruct (starts_with_ci "TOOL:" t) eqn:Hstart; [| done].
  apply starts_with_ci_split in Hstart as (kw & Ht & Hkw).
  change (String.length "TOOL:") with 5 in Ht.
  set (s1 := Str.drop 5 t) in *.
  set (s2 := Str.drop_while Char.is_space s1).
  set (s3 := Str.drop_while Char.is_word s2).
  set (s4 := Str.drop_while Char.is_space s3).
  destruct (Str.is_empty (Str.take_while Char.is_word s2)); [done |].
  intros [= <- <-].
  exists kw, (Str.take_while Char.is_space s1), (Str.take_while Char.is_word s2),
    (Str.take_while Char.is_space s3), (Str.take_while Char.not_newline s4).
  split; [done |]. split.
  - rewrite <- (take_drop_while Char.not_newline s4). fold s4.
    unfold s4. rewrite <- (take_drop_while Char.is_space s3).
    unfold s3. rewrite <- (take_drop_while Char.is_word s2).
    unfold s2. by rewrite <- (take_drop_while Char.is_space s1).
  - split; [done |]. split; apply take_while_all.
Qed.

(** X6: a text without newline holds at most one invocation, and the
    arguments of that invocation reach to the end of the text: whatever
    follows its name on the line, a second keyword too, belongs to its
    arguments. *)
Theorem X6_one_invocation_per_line (text : string) :
  Str.contains_char Char.is_newline text = false ->
  length (tool_matches text) <= 1
  /\ forall name args,
       (name, args) ∈ tool_matches text -> reaches_the_end text name args.
Proof.
  intros Hnl. split.
  - unfold tool_matches, Re.findall. rewrite length_map.
    induction text as [|c text IH]; [vm_compute; lia |].
    cbn [Re.scan]. rewrite run_tool_pattern.
    destruct (match_tool_at (String c text)) as [[caps rest] |] eqn:E.
    + apply match_tool_to_the_end in E as ->; [| done].
      rewrite scan_skip_all.
      * simpl. lia.
      * apply tool_pattern_needs_text.
      * simpl. lia.
    + apply IH. cbn in Hnl. by apply orb_false_elim in Hnl as [_ ?].
  - intros name args Hin. unfold tool_matches in Hin.
    apply list_elem_of_fmap in Hin as (caps & Hpair & Hcaps).
    pose proof (scan_forall_suffix
      (fun caps => reaches_the_end text (nth 0 caps "") (nth 1 caps ""))
      true tool_pattern 0 text) as Hall.
    rewrite Forall_forall in Hall. injection Hpair as -> ->.
    apply Hall; [| exact Hcaps]. clear caps Hcaps.
    intros t caps rest Ht. rewrite run_tool_pattern. intros Hm.
    pose proof (match_tool_to_the_end t caps rest
                  (suffix_no_new_chars _ _ _ Ht Hnl) Hm) as ->.
    apply match_tool_parts in Hm
      as (kw & blanks1 & name & blanks2 & args & -> & Hparts & Hkw & Hb1 & Hb2).
    destruct Ht as [before ->]. cbn [nth].
    exists before, kw, blanks1, blanks2. split; [| done].
    rewrite Hparts at 1. by rewrite append_nil_r.
Qed.

(** X6 on a line with two keywords. *)
Lemma X6_one_invocation_per_line_witness :
  length (tool_matches "TOOL: read_file path=a TOOL: read_file path=b") <= 1
  /\ forall name args,
       (name, args) ∈ tool_matches "TOOL: read_file path=a TOOL: read_file path=b" ->
       reaches_the_end "TOOL: read_file path=a TOOL: read_file path=b" name args.
Proof. apply X6_one_invocation_per_line. reflexivity. Defined.

(** ** A line written as the usage shows it *)

Lemma word_not_space (c : ascii) : Char.is_word c = true -> Char.is_space c = false.
Proof.
  intros Hw. destruct (Char.is_space c) eqn:E; [| done].
  by rewrite (space_not_word c E) in Hw.
Qed.

Lemma newline_is_space (c : ascii) : Char.is_newline c = true -> Char.is_space c = true.
Proof. destruct c as [[] [] [] [] [] [] [] []]; vm_compute; congruence. Qed.

Lemma no_blank_no_newline (s : string) :
  Str.contains_char Char.is_space s = false ->
  Str.contains_char Char.is_newline s = false.
Proof.
  induction s as [|c s IH]; [done |]. cbn.
  intros [Hc Hs]%orb_false_elim. rewrite (IH Hs), orb_false_r.
  destruct (Char.is_newline c) eqn:E; [| done].
  by rewrite (newline_is_space c E) in Hc.
Qed.

Lemma first_char_append (a b : string) :
  a <> "" -> first_char (a +:+ b) = first_char a.
Proof. by destruct a. Qed.

Lemma drop_while_stops (p : ascii -> bool) (s : string) :
  (forall c, first_char s = Some c -> p c = false) -> Str.drop_while p s = s.
Proof.
  destruct s as [|c s]; [done |]. intros Hc. cbn. by rewrite (Hc c eq_refl).
Qed.

Lemma span_append (p : ascii -> bool) (a b : string) :
  all_chars p a = true ->
  (forall c, first_char b = Some c -> p c = false) ->
  Str.take_while p (a +:+ b) = a /\ Str.drop_while p (a +:+ b) = b.
Proof.
  intros Ha Hb. induction a as [|x a IH].
  - rewrite append_nil_l. split; [| by apply drop_while_stops].
    destruct b as [|c b]; [done |]. cbn. by rewrite (Hb c eq_refl).
  - cbn in Ha. apply andb_prop in Ha as [Hx Ha]. destruct (IH Ha) as [IH1 IH2].
    rewrite append_cons. cbn. by rewrite Hx, IH1, IH2.
Qed.

(** The match of the pattern on a line [TOOL: name args]. *)
Lemma match_tool_line (name args : string) :
  name <> "" ->
  all_chars Char.is_word name = true ->
  Str.contains_char Char.is_newline args = false ->
  (forall c, first_char args = Some c -> Char.is_space c = false) ->
  match_tool_at ("TOOL: " +:+ name +:+ " " +:+ args) = Some ([name; args], "").
Proof.
  intros Hne Hword Hnl Hfirst. unfold match_tool_at.
  change ("TOOL: " +:+ name +:+ " " +:+ args)
    with (String "T" (String "O" (String "O" (String "L" (String ":"
            (String " " (name +:+ String " " args))))))).
  cbn [starts_with_ci Str.drop].
  change (Ascii.eqb (Char.lower "T") (Char.lower "T")) with true.
  change (Ascii.eqb (Char.lower "O") (Char.lower "O")) with true.
  change (Ascii.eqb (Char.lower "L") (Char.lower "L")) with true.
  change (Ascii.eqb (Char.lower ":") (Char.lower ":")) with true.
  cbn [andb Str.drop_while].
  change (Char.is_space " ") with true. cbv iota.
  rewrite (drop_while_stops Char.is_space (name +:+ String " " args)).
  2:{ intros c. rewrite first_char_append by done. intros Hc.
      apply word_not_space. destruct name as [|x name]; [done |].
      cbn in Hc, Hword. injection Hc as ->. by apply andb_prop in Hword as [? _]. }
  destruct (span_append Char.is_word name (String " " args) Hword) as [-> ->].
  { by intros c [= <-]. }
  destruct name as [|x name]; [done |]. cbn [Str.is_empty Str.drop_while].
  change (Char.is_space " ") with true. cbv iota.
  rewrite (drop_while_stops Char.is_space args Hfirst).
  by destruct (drop_while_all Char.not_newline args
                 (no_newline_all_not_newline args Hnl)) as [-> ->].
Qed.

Lemma tool_line_matches (name args : string) :
  name <> "" ->
  all_chars Char.is_word name = true ->
  Str.contains_char Char.is_newline args = false ->
  (forall c, first_char args = Some c -> Char.is_space c = false) ->
  Re.scan true tool_pattern 0 ("TOOL: " +:+ name +:+ " " +:+ args)
  = [[name; args]].
Proof.
  intros Hne Hword Hnl Hfirst.
  pose proof (match_tool_line name args Hne Hword Hnl Hfirst) as Hm.
  remember ("TOOL: " +:+ name +:+ " " +:+ args) as line eqn:Hline.
  destruct line as [|c line]; [done |].
  cbn [Re.scan]. rewrite run_tool_pattern, Hm. f_equal.
  apply scan_skip_all; [apply tool_pattern_needs_text |]. simpl. lia.
Qed.

(** X7: a line made of the keyword, a tool name and arguments, as the
    usage column of [_show_tools] writes it, is parsed back into that
    name and those arguments. *)
Theorem X7_usage_line_round_trip (name args : string) :
  name <> "" ->
  all_chars Char.is_word name = true ->
  Str.contains_char Char.is_newline args = false ->
  (forall c, first_char args = Some c -> Char.is_space c = false) ->
  tool_matches ("TOOL: " +:+ name +:+ " " +:+ args) = [(name, args)].
Proof.
  intros Hne Hword Hnl Hfirst. unfold tool_matches, Re.findall.
  by rewrite tool_line_matches.
Qed.

(** X7 on the usage line of [write_file]. *)
Lemma X7_usage_line_round_trip_witness :
  tool_matches ("TOOL: " +:+ "write_file" +:+ " "
                +:+ ("path=filename content=" +:+ dq +:+ "text" +:+ dq))
  = [("write_file", "path=filename content=" +:+ dq +:+ "text" +:+ dq)].
Proof.
  apply X7_usage_line_round_trip; [done | reflexivity | reflexivity |].
  by intros c [= <-].
Defined.

Section ReadLine.

Context {W : Type} `{Env W}.

(** X8: for a path without blanks and without quote marks at its ends, the
    line [TOOL: read_file path=<path>] reads that very file and prints
    the heading and then what was read, or the [Tool error] text. *)
Theorem X8_read_file_line (p : string) (w : W) :
  p <> "" ->
  Str.contains_char Char.is_space p = false ->
  Str.strip Char.is_quote p = p ->
  _execute_tool_request ("TOOL: read_file path=" +:+ p) w
  = bind (tool_boundary (read_text p) (fun text => text))
      (fun text =>
         bind (console_print (Text "[cyan]Tool result (read_file):[/cyan]"))
           (fun _ => console_print (Text text))) w.
Proof.
  intros Hne Hblank Hstrip.
  assert (tool_matches ("TOOL: read_file path=" +:+ p)
          = [("read_file", "path=" +:+ p)]) as Hm.
  { unfold tool_matches, Re.findall.
    change ("TOOL: read_file path=" +:+ p)
      with ("TOOL: " +:+ "read_file" +:+ " " +:+ ("path=" +:+ p)).
    rewrite tool_line_matches; try done.
    - rewrite contains_char_append. by rewrite (no_blank_no_newline p Hblank).
    - by intros c [= <-]. }
  unfold _execute_tool_request. rewrite Hm. cbn [for_each].
  destruct (parse_one_binding "path" p eq_refl eq_refl Hblank)
    as (args & Hparse & Hpath).
  rewrite Hstrip in Hpath.
  assert (_execute_tool "read_file" ("path=" +:+ p) w
          = tool_boundary (read_text p) (fun text => text) w) as Hx.
  { apply (execute_tool_boundary _ _ _ _ _ _ Hparse). unfold dispatch.
    cbn [String.eqb Ascii.eqb Bool.eqb]. rewrite get_lookup, Hpath.
    destruct p as [|c p]; [done |]. cbn [Str.is_empty]. unfold bind, ret.
    by destruct (read_text (String c p) w) as [[text | e] w']. }
  cbv beta iota. unfold bind, ret. rewrite Hx.
  destruct (tool_boundary (read_text p) (fun text => text) w) as [[text | e] w1];
    [| done].
  destruct (console_print _ w1) as [[[] | e1] w2]; [| done].
  by destruct (console_print _ w2) as [[[] | e2] w3].
Qed.

End ReadLine.

(** X8 in the small environment: the file [x] holds [hello]. *)
Lemma X8_read_file_line_witness :
  Demo.console (_execute_tool_request "TOOL: read_file path=x" Demo.w0).2
  = [Text "[cyan]Tool result (read_file):[/cyan]"; Text "hello"].
Proof.
  pose proof (X8_read_file_line (H := Demo.env) "x" Demo.w0
                ltac:(done) eq_refl eq_refl) as Hrun.
  change ("TOOL: read_file path=" +:+ "x") with "TOOL: read_file path=x" in Hrun.
  rewrite Hrun. reflexivity.
Defined.

(** ** The keyword and the name of an invocation *)

Lemma length_lower_ascii (s : string) :
  String.length (lower_ascii s) = String.length s.
Proof. induction s as [|c s IH]; [done |]. cbn. by rewrite IH. Qed.

Lemma starts_with_ci_append (p kw rest : string) :
  lower_ascii kw = lower_ascii p ->
  starts_with_ci p (kw +:+ rest) = true
  /\ Str.drop (String.length p) (kw +:+ rest) = rest.
Proof.
  revert kw. induction p as [|a p IH]; intros kw Hkw.
  - destruct kw; [| done]. rewrite append_nil_l. split; [done |].
    by destruct rest.
  - destruct kw as [|b kw]; [done |]. cbn in Hkw. injection Hkw as Hb Hkw.
    destruct (IH kw Hkw) as [IH1 IH2]. rewrite append_cons.
    cbn [starts_with_ci Str.drop String.length]. rewrite Hb, IH1, IH2.
    by rewrite Ascii.eqb_refl.
Qed.

(** The match of the pattern on a line made of the keyword in any letter
    case, a name and arguments. *)
Lemma match_keyword_line (kw name args : string) :
  lower_ascii kw = "tool:" ->
  name <> "" ->
  all_chars Char.is_word name = true ->
  Str.contains_char Char.is_newline args = false ->
  (forall c, first_char args = Some c -> Char.is_space c = false) ->
  match_tool_at (kw +:+ " " +:+ name +:+ " " +:+ args) = Some ([name; args], "").
Proof.
  intros Hkw Hne Hword Hnl Hfirst. unfold match_tool_at.
  destruct (starts_with_ci_append "TOOL:" kw (" " +:+ name +:+ " " +:+ args))
    as [Hstart Hdrop]; [by rewrite Hkw |].
  change (String.length "TOOL:") with 5 in Hdrop. rewrite Hstart, Hdrop.
  change (" " +:+ name +:+ " " +:+ args) with (String " " (name +:+ String " " args)).
  cbn [Str.drop_while].
  change (Char.is_space " ") with true. cbv iota.
  rewrite (drop_while_stops Char.is_space (name +:+ String " " args)).
  2:{ intros c. rewrite first_char_append by done. intros Hc.
      apply word_not_space. destruct name as [|x name]; [done |].
      cbn in Hc, Hword. injection Hc as ->. by apply andb_prop in Hword as [? _]. }
  destruct (span_append Char.is_word name (String " " args) Hword) as [-> ->].
  { by intros c [= <-]. }
  destruct name as [|x name]; [done |]. cbn [Str.is_empty Str.drop_while].
  change (Char.is_space " ") with true. cbv iota.
  rewrite (drop_while_stops Char.is_space args Hfirst).
  by destruct (drop_while_all Char.not_newline args
                 (no_newline_all_not_newline args Hnl)) as [-> ->].
Qed.

Lemma keyword_line_matches (kw name args : string) :
  lower_ascii kw = "tool:" ->
  name <> "" ->
  all_chars Char.is_word name = true ->
  Str.contains_char Char.is_newline args = false ->
  (forall c, first_char args = Some c -> Char.is_space c = false) ->
  tool_matches (kw +:+ " " +:+ name +:+ " " +:+ args) = [(name, args)].
Proof.
  intros Hkw Hne Hword Hnl Hfirst.
  pose proof (match_keyword_line kw name args Hkw Hne Hword Hnl Hfirst) as Hm.
  unfold tool_matches, Re.findall.
  remember (kw +:+ " " +:+ name +:+ " " +:+ args) as line eqn:Hline.
  destruct line as [|c line]; [done |].
  cbn [Re.scan]. rewrite run_tool_pattern, Hm.
  rewrite scan_skip_all; [done | apply tool_pattern_needs_text |]. simpl. lia.
Qed.

Lemma registry_lower_case (name : string) :
  name ∈ registry -> lower_ascii name = name.
Proof.
  unfold registry. intros Hin.
  repeat (apply elem_of_cons in Hin as [-> | Hin]; [reflexivity |]).
  by apply elem_of_nil in Hin.
Qed.

Section UnknownTool.

Context {W : Type} `{Env W}.

Lemma execute_unknown_tool (tool_name args_str : string) (w : W) :
  tool_name ∉ registry ->
  _execute_tool tool_name args_str w
  = (Return ("Unknown tool: " +:+ tool_name), w).
Proof.
  intros Hn. destruct (parse_args_spec args_str) as (args & Hp & _).
  rewrite (execute_tool_outcome _ _ _ _ Hp).
  assert (dispatch tool_name args w = (Return ("Unknown tool: " +:+ tool_name), w)) as ->.
  { unfold dispatch;
    repeat match goal with
           | |- context [String.eqb tool_name ?lit] =>
               destruct (String.eqb_spec tool_name lit)
           end; try done; exfalso; apply Hn; subst tool_name;
      unfold registry; set_solver. }
  done.
Qed.

(** C4, as the program has it: the keyword is recognised in any letter
    case and the name that follows it is handed to the executor as it is
    written; there it is compared with the names of the tools as written,
    so a name that is none of the five, be it one of them in another
    letter case, gives the [Unknown tool] string with the name as written
    and nothing else happens; the request prints that string under the
    heading of the name, so the invocation is not dropped. *)
Theorem C4_unknown_tool_named_verbatim :
  (forall tool_name args_str (w : W),
     tool_name ∉ registry ->
     _execute_tool tool_name args_str w
     = (Return ("Unknown tool: " +:+ tool_name), w))
  /\ (forall tool_name args_str (w : W),
        lower_ascii tool_name ∈ registry ->
        tool_name <> lower_ascii tool_name ->
        _execute_tool tool_name args_str w
        = (Return ("Unknown tool: " +:+ tool_name), w))
  /\ (forall kw name args,
        lower_ascii kw = "tool:" ->
        name <> "" ->
        all_chars Char.is_word name = true ->
        Str.contains_char Char.is_newline args = false ->
        (forall c, first_char args = Some c -> Char.is_space c = false) ->
        tool_matches (kw +:+ " " +:+ name +:+ " " +:+ args) = [(name, args)]
        /\ forall w : W,
             name ∉ registry ->
             _execute_tool_request (kw +:+ " " +:+ name +:+ " " +:+ args) w
             = bind (console_print
                       (Text ("[cyan]Tool result (" +:+ name +:+ "):[/cyan]")))
                 (fun _ => console_print (Text ("Unknown tool: " +:+ name))) w).
Proof.
  split; [| split].
  - intros tool_name args_str w. apply execute_unknown_tool.
  - intros tool_name args_str w Hlow Hcase. apply execute_unknown_tool.
    intros Hin. apply Hcase. by rewrite (registry_lower_case _ Hin).
  - intros kw name args Hkw Hne Hword Hnl Hfirst.
    pose proof (keyword_line_matches kw name args Hkw Hne Hword Hnl Hfirst) as Hm.
    split; [done |]. intros w Hn.
    unfold _execute_tool_request. rewrite Hm. cbn [for_each].
    cbv beta iota. unfold bind, ret.
    rewrite (execute_unknown_tool name args w Hn).
    destruct (console_print _ w) as [[[] | e1] w1]; [| done].
    by destruct (console_print _ w1) as [[[] | e2] w2].
Qed.

End UnknownTool.

(** C4 in the small environment: after a keyword in lower case,
    [READ_FILE] is not the tool [read_file]. *)
Lemma C4_unknown_tool_named_verbatim_witness :
  _execute_tool "READ_FILE" "path=x" Demo.w0
  = (Return "Unknown tool: READ_FILE", Demo.w0)
  /\ tool_matches "tool: READ_FILE path=x" = [("READ_FILE", "path=x")]
  /\ Demo.console (_execute_tool_request "tool: READ_FILE path=x" Demo.w0).2
     = [Text "[cyan]Tool result (READ_FILE):[/cyan]";
        Text "Unknown tool: READ_FILE"].
Proof.
  destruct (C4_unknown_tool_named_verbatim (H := Demo.env))
    as (Hunknown & Hcase & Hline).
  split; [| split].
  - apply Hcase; [| discriminate].
    unfold registry. apply list_elem_of_here.
  - destruct (Hline "tool:" "READ_FILE" "path=x") as [Hm _];
      [reflexivity | done | reflexivity | reflexivity | by intros c [= <-] |].
    exact Hm.
  - destruct (Hline "tool:" "READ_FILE" "path=x") as [_ Hrun];
      [reflexivity | done | reflexivity | reflexivity | by intros c [= <-] |].
    change ("tool:" +:+ " " +:+ "READ_FILE" +:+ " " +:+ "path=x")
      with "tool: READ_FILE path=x" in Hrun.
    rewrite (Hrun Demo.w0 not_registered_READ_FILE). reflexivity.
Defined.

(** C4 as stated fails: the invocation [TOOL: READ_FILE path=x] keeps its
    name as written and is answered with the [Unknown tool] string, where
    [read_file] with the same arguments returns the content of the file. *)
Lemma C4_counterexample :
  tool_matches "TOOL: READ_FILE path=x" = [("READ_FILE", "path=x")]
  /\ _execute_tool "READ_FILE" "path=x" Demo.w0
     = (Return "Unknown tool: READ_FILE", Demo.w0)
  /\ _execute_tool "read_file" "path=x" Demo.w0 = (Return "hello", Demo.w0)
  /\ (_execute_tool "READ_FILE" "path=x" Demo.w0).1
     <> (_execute_tool "read_file" "path=x" Demo.w0).1.
Proof. repeat split; try reflexivity. discriminate. Qed.

(** ** The size of a request *)

Lemma build_messages_shape (context : list string) (history : list exchange)
    (user_input : string) :
  build_messages context history user_input
  = Message "system" (Py.VStr (_get_system_prompt context))
    :: flat_map exchange_pair (last_k 3 history)
    ++ [Message "user" (Py.VStr user_input)].
Proof.
  unfold build_messages. destruct history as [|e h]; [done |].
  rewrite slice_from_last_3.
  apply (fold_splice (last_k 3 (e :: h))
           [Message "system" (Py.VStr (_get_system_prompt context))]).
Qed.

Lemma length_exchange_pairs (es : list exchange) :
  length (flat_map exchange_pair es) = 2 * length es.
Proof. induction es as [|e es IH]; [done |]. cbn [flat_map]. simpl. lia. Qed.

Lemma last_k_snoc {A} (k : nat) (l : list A) (x : A) :
  last_k (S k) (l ++ [x]) = last_k k l ++ [x].
Proof.
  unfold last_k. rewrite length_app. cbn [length].
  replace (length l + 1 - S k) with (length l - k) by lia.
  rewrite drop_app_le by lia. done.
Qed.

(** X9: a request carries the system message, the current user message
    and two messages for each of at most three exchanges, so never more
    than eight messages however long the history; and the exchange stored
    last stands right before the current user message. *)
Theorem X9_request_size (context : list string) (history : list exchange)
    (user_input : string) :
  length (build_messages context history user_input)
  = 2 + 2 * Nat.min 3 (length history)
  /\ length (build_messages context history user_input) <= 8
  /\ forall e,
       exists before,
         build_messages context (history ++ [e]) user_input
         = before ++ exchange_pair e ++ [Message "user" (Py.VStr user_input)].
Proof.
  assert (length (build_messages context history user_input)
          = 2 + 2 * Nat.min 3 (length history)) as Hlen.
  { rewrite build_messages_shape. cbn [length]. rewrite length_app.
    rewrite length_exchange_pairs. unfold last_k. rewrite length_drop.
    cbn [length]. lia. }
  split; [done |]. split; [lia |].
  intros e. rewrite build_messages_shape, last_k_snoc, flat_map_app.
  exists (Message "system" (Py.VStr (_get_system_prompt context))
          :: flat_map exchange_pair (last_k 2 history)).
  cbn [flat_map]. by rewrite app_nil_r, <- app_assoc.
Qed.

(** ** What a turn leaves alone *)

Section Untouched.

Context {W : Type} `{Env W}.
Context {B : Type} (part : state W -> B).

(** [part] reads neither the world nor the history. *)
Hypothesis part_of_context_and_model :
  forall h1 h2 c m (w1 w2 : W), part (State h1 c m w1) = part (State h2 c m w2).

Lemma keeps_part_ret {A} (a : A) : keeps part (ret a).
Proof. by intros st. Qed.

Lemma keeps_part_of_outcome {A} (o : outcome A) : keeps part (of_outcome o).
Proof. by intros st. Qed.

Lemma keeps_part_get_state : keeps part get_state.
Proof. by intros st. Qed.

Lemma keeps_part_on_world {A} (m : M W A) : keeps part (on_world m).
Proof.
  intros st. unfold on_world. destruct (m (world st)) as [o w]. cbn [snd].
  destruct st. apply part_of_context_and_model.
Qed.

Lemma keeps_part_append (x : exchange) : keeps part (append_history x).
Proof. intros st. destruct st. apply part_of_context_and_model. Qed.

Lemma keeps_part_bind {A C} (m : M (state W) A) (f : A -> M (state W) C) :
  keeps part m -> (forall a, keeps part (f a)) -> keeps part (bind m f).
Proof.
  intros Hm Hf st. unfold bind. specialize (Hm st).
  destruct (m st) as [[a | e] st1]; simpl in *; [| done].
  by rewrite Hf.
Qed.

Lemma keeps_part_try {A} (body : M (state W) A) (cls : exc_class -> bool)
    (handler : exn -> M (state W) A) :
  keeps part body -> (forall e, keeps part (handler e)) ->
  keeps part (try_except body cls handler).
Proof.
  intros Hb Hh st. unfold try_except. specialize (Hb st).
  destruct (body st) as [[a | e] st1]; simpl in *; [done |].
  destruct (cls (exn_class e)); [| done]. by rewrite Hh.
Qed.

Lemma keeps_part_if {A} (b : bool) (m1 m2 : M (state W) A) :
  keeps part m1 -> keeps part m2 -> keeps part (if b then m1 else m2).
Proof. by destruct b. Qed.

Lemma keeps_part_turn (user_input : string) :
  keeps part (_process_conversation user_input).
Proof.
  unfold _process_conversation, _send_to_model, _display_response.
  repeat first
    [ apply keeps_part_if | apply keeps_part_bind | apply keeps_part_try
    | apply keeps_part_on_world | apply keeps_part_append
    | apply keeps_part_ret | apply keeps_part_of_outcome
    | apply keeps_part_get_state | intro ].
Qed.

End Untouched.

(** X10: a turn changes neither the context lines nor the selected model,
    whether it runs tools, gets a reply, fails or raises. *)
Theorem X10_turn_keeps_context_and_model {W} `{Env W} (user_input : string)
    (st : state W) :
  context (_process_conversation user_input st).2 = context st
  /\ current_model (_process_conversation user_input st).2 = current_model st.
Proof.
  split.
  - by apply (keeps_part_turn context).
  - by apply (keeps_part_turn current_model).
Qed.

(** ** The context file *)

Lemma split_on_nonempty (sep : ascii -> bool) (s : string) :
  Text.split_on sep s <> [].
Proof.
  induction s as [|c s IH]; [done |]. cbn.
  destruct (sep c); [done |]. by destruct (Text.split_on sep s).
Qed.

Lemma join_cons_char (sep : string) (c : ascii) (a : string) (rest : list string) :
  Str.join sep (String c a :: rest) = String c (Str.join sep (a :: rest)).
Proof. destruct rest; [done |]. cbn [Str.join]. by rewrite append_cons. Qed.

Lemma join_cons_cons (sep x y : string) (l : list string) :
  Str.join sep (x :: y :: l) = x +:+ sep +:+ Str.join sep (y :: l).
Proof. reflexivity. Qed.

Lemma newline_char (c : ascii) : Char.is_newline c = true -> c = Char.newline.
Proof.
  unfold Char.is_newline, Char.code. intros E. apply N.eqb_eq in E.
  rewrite <- (ascii_N_embedding c), E. reflexivity.
Qed.

(** Joining the lines of a text with newlines gives the text back. *)
Lemma join_split_on (s : string) :
  Str.join Str.nl (Text.split_on Char.is_newline s) = s.
Proof.
  induction s as [|c s IH]; [done |]. cbn [Text.split_on].
  destruct (Char.is_newline c) eqn:E.
  - apply newline_char in E as ->.
    pose proof (split_on_nonempty Char.is_newline s) as Hne.
    destruct (Text.split_on Char.is_newline s) as [|a rest]; [done |].
    rewrite join_cons_cons, IH. reflexivity.
  - pose proof (split_on_nonempty Char.is_newline s) as Hne.
    destruct (Text.split_on Char.is_newline s) as [|a rest]; [done |].
    by rewrite join_cons_char, IH.
Qed.

Section ContextFile.

Context {W : Type} `{Env W} `{Host W}.

(** X11: after [_load_context] has read the context file, the context is
    the list of the lines of the file, which is never empty and which
    joined by newlines is the file again; so a file of at most ten lines
    stands in the system prompt word for word under the heading, and an
    empty file still brings the heading.  History and model stay as they
    are, also when printing the confirmation fails.  Without the file
    nothing happens, and when reading fails the context is kept. *)
Theorem X11_context_file_round_trip (st : state W) :
  (forall w0 content w1,
     path_exists "aicode.md" (world st) = (Return true, w0) ->
     read_text "aicode.md" w0 = (Return content, w1) ->
     let st' := (_load_context st).2 in
     context st' = Text.split_on Char.is_newline content
     /\ context st' <> []
     /\ Str.join Str.nl (context st') = content
     /\ (length (context st') <= 10 ->
         _get_system_prompt (context st')
         = base_prompt +:+ context_heading +:+ content)
     /\ conversation_history st' = conversation_history st
     /\ current_model st' = current_model st)
  /\ (forall w0,
        path_exists "aicode.md" (world st) = (Return false, w0) ->
        _load_context st
        = (Return tt,
           State (conversation_history st) (context st) (current_model st) w0))
  /\ (forall w0 e w1,
        path_exists "aicode.md" (world st) = (Return true, w0) ->
        read_text "aicode.md" w0 = (Raise e, w1) ->
        context (_load_context st).2 = context st).
Proof.
  split; [| split].
  - intros w0 content w1 Hex Hread st'.
    assert (context st' = Text.split_on Char.is_newline content
            /\ conversation_history st' = conversation_history st
            /\ current_model st' = current_model st) as (Hctx & Hh & Hm).
    { subst st'. unfold _load_context, bind, on_world, try_except, set_context.
      rewrite Hex. cbn. rewrite Hread. cbn.
      destruct (console_print _ w1) as [[[] | e] w2]; cbn; [done |].
      destruct (is_Exception (exn_class e)); cbn; [| done].
      by destruct (console_print _ w2) as [[[] | e2] w3]. }
    split; [done |]. rewrite Hctx.
    split; [apply split_on_nonempty |].
    split; [apply join_split_on |].
    split; [| done].
    intros Hlen. unfold _get_system_prompt.
    pose proof (split_on_nonempty Char.is_newline content) as Hne.
    destruct (Text.split_on Char.is_newline content) as [|a rest] eqn:E; [done |].
    rewrite take_ge by lia. by rewrite <- E, join_split_on.
  - intros w0 Hex. unfold _load_context, bind, on_world. rewrite Hex. by cbn.
  - intros w0 e w1 Hex Hread.
    unfold _load_context, bind, on_world, try_except.
    rewrite Hex. cbn. rewrite Hread. cbn.
    destruct (is_Exception (exn_class e)); cbn; [| done].
    by destruct (console_print _ w1) as [[[] | e2] w2].
Qed.

End ContextFile.

(** X11 in the second small environment: a context file of two lines. *)
Lemma X11_context_file_round_trip_witness :
  _get_system_prompt
    (context (_load_context (H := Desk.env) (H0 := Desk.host) (State [] [] "default" Desk.with_context)).2)
  = base_prompt +:+ context_heading +:+ "A parser" +:+ Str.nl +:+ "in Python".
Proof.
  destruct (X11_context_file_round_trip (H := Desk.env) (H0 := Desk.host)
              (State [] [] "default" Desk.with_context)) as [Hload _].
  destruct (Hload Desk.with_context ("A parser" +:+ Str.nl +:+ "in Python")
              Desk.with_context eq_refl eq_refl)
    as (Hctx & _ & _ & Hprompt & _).
  apply Hprompt. rewrite Hctx. vm_compute. lia.
Defined.

(** ** The configuration display *)

Lemma for_each_ext {S A B} (l1 : list A) (l2 : list B)
    (f : A -> M S unit) (g : B -> M S unit) :
  Forall2 (fun x y => forall s, f x s = g y s) l1 l2 ->
  forall s, for_each l1 f s = for_each l2 g s.
Proof.
  induction 1 as [|x y l1 l2 Hxy _ IH]; intros s; [done |].
  cbn [for_each]. unfold bind. rewrite Hxy.
  destruct (g y s) as [[[] | e] s']; [apply IH | done].
Qed.


Section Config.

Context {W : Type} `{Env W}.

Lemma config_item_same (a b : string * outcome string) (w : W) :
  same_item a b ->
  bind (of_outcome a.2) (fun value => console_print (Text (config_line a.1 value))) w
  = bind (of_outcome b.2) (fun value => console_print (Text (config_line b.1 value))) w.
Proof.
  destruct a as [k1 o1], b as [k2 o2]. unfold same_item. cbn [fst snd].
  intros [<- [<- | (Hs & v1 & v2 & -> & ->)]]; [done |].
  unfold bind, of_outcome, config_line. by rewrite Hs.
Qed.

(** X12: the value that the lookup of a sensitive key returns, a key that
    holds [key], [token] or [password] in any letter case, is not printed
    on the line of that key, which shows three stars: two configurations
    with the same sections and keys whose lookups agree on every other
    key, and succeed on the sensitive ones, are displayed alike.  What
    the lookup of another key returns is printed as it is, with whatever
    it interpolates, and a lookup that raises ends the display there.
    The section names are taken within [Text.upper_in_range], where the
    heading printed is the one the program prints. *)
Theorem X12_config_display_hides_secrets (c1 c2 : config_items) :
  Forall (fun section => Text.upper_in_range section.1 = true) c1 ->
  same_but_secrets c1 c2 ->
  (forall w, _show_config c1 w = _show_config c2 w)
  /\ (forall key value,
        is_sensitive key = true -> config_line key value = "  " +:+ key +:+ ": ***")
  /\ (forall key value,
        is_sensitive key = false ->
        config_line key value = "  " +:+ key +:+ ": " +:+ value).
Proof.
  intros _ Hsame. split; [| split].
  - intros w. unfold _show_config, bind.
    destruct (console_print _ w) as [[[] | e] w1]; [| done].
    apply for_each_ext. clear w w1.
    induction Hsame as [|[n1 i1] [n2 i2] c1 c2 [Hn Hi] _ IH]; [done |].
    constructor; [| done]. cbn in Hn, Hi. subst n2. intros w.
    destruct (console_print _ w) as [[[] | e] w1]; [| done].
    apply for_each_ext. clear w w1.
    induction Hi as [|a b i1 i2 Hab _ IHi]; [done |].
    constructor; [| done]. intros w.
    pose proof (config_item_same a b w Hab) as Hline. unfold bind in Hline.
    by destruct a, b.
  - intros key value Hs. unfold config_line. by rewrite Hs.
  - intros key value Hs. unfold config_line. by rewrite Hs.
Qed.

End Config.

Lemma desk_configs_differ_in_secrets :
  same_but_secrets Desk.config Desk.config_other_key.
Proof.
  assert (forall a : string * outcome string, same_item a a) as Hrefl.
  { intros a. split; [done | by left]. }
  unfold Desk.config, Desk.config_other_key.
  apply Forall2_cons. split.
  { split; [done |]. apply Forall2_cons. split; [apply Hrefl | constructor]. }
  apply Forall2_cons. split; [| constructor].
  split; [done |]. cbn [snd].
  apply Forall2_cons. split; [apply Hrefl |].
  apply Forall2_cons. split.
  { split; [done |]. right. split; [reflexivity |]. by eexists _, _. }
  apply Forall2_cons. split; [apply Hrefl |].
  apply Forall2_cons. split; [apply Hrefl | constructor].
Qed.

(** X12 in the second small environment: another API key, the same
    display, in which the key is starred and which ends at the lookup
    that raises. *)
Lemma X12_config_display_hides_secrets_witness :
  _show_config (H := Desk.env) Desk.config Desk.empty
  = _show_config (H := Desk.env) Desk.config_other_key Desk.empty
  /\ (_show_config (H := Desk.env) Desk.config Desk.empty).1
     = Raise Desk.bad_percent
  /\ Desk.printed (_show_config (H := Desk.env) Desk.config Desk.empty).2
     = [ Text "[bold cyan]Configuration[/bold cyan]";
         Text (Str.nl +:+ "[yellow]MODELS:[/yellow]");
         Text "  default: http://localhost:11434/v1/chat/completions";
         Text (Str.nl +:+ "[yellow]SETTINGS:[/yellow]");
         Text "  temperature: 0.7";
         Text "  api_key: ***" ].
Proof.
  split; [| split].
  - apply (X12_config_display_hides_secrets (H := Desk.env)).
    + repeat constructor.
    + apply desk_configs_differ_in_secrets.
  - reflexivity.
  - reflexivity.
Defined.

(** ** The analysis of a file *)

Section AnalyzeFile.

Context {W : Type} `{Env W} `{Host W}.


End AnalyzeFile.




(** ** Sessions *)

Lemma assoc_set_same (key : string) (v : Py.val) (d : list (string * Py.val)) :
  Py.assoc key (PyDict.assoc_set key v d) = Some v.
Proof.
  induction d as [|[k x] d IH]; cbn.
  - by rewrite String.eqb_refl.
  - destruct (String.eqb k key) eqn:E; cbn; by rewrite E.
Qed.

Lemma assoc_set_other (key key' : string) (v : Py.val) (d : list (string * Py.val)) :
  key' <> key ->
  Py.assoc key' (PyDict.assoc_set key v d) = Py.assoc key' d.
Proof.
  intros Hne. induction d as [|[k x] d IH]; cbn.
  - destruct (String.eqb_spec key key'); [congruence | done].
  - destruct (String.eqb_spec k key) as [-> | Hk]; cbn.
    + by destruct (String.eqb_spec key key'); [congruence |].
    + by rewrite IH.
Qed.

Section SessionFiles.

Context {W : Type} `{Env W} `{Host W}.

Lemma keeps_self_ret {A} (a : A) : keeps_self (W := W) (ret a).
Proof. by intros s. Qed.

Lemma keeps_self_of_outcome {A} (o : outcome A) : keeps_self (W := W) (of_outcome o).
Proof. by intros s. Qed.

Lemma keeps_self_get : keeps_self (W := W) get_self.
Proof. by intros s. Qed.

Lemma keeps_self_on_outside {A} (m : M W A) : keeps_self (on_outside m).
Proof. intros s. unfold on_outside. by destruct (m (outside s)). Qed.

Lemma keeps_self_bind {A B} (m : M (pystate W) A) (f : A -> M (pystate W) B) :
  keeps_self m -> (forall a, keeps_self (f a)) -> keeps_self (bind m f).
Proof.
  intros Hm Hf s. unfold bind. specialize (Hm s).
  destruct (m s) as [[a | e] s1]; simpl in *; [| done].
  by rewrite Hf.
Qed.

Lemma keeps_self_try {A} (body : M (pystate W) A) (cls : exc_class -> bool)
    (handler : exn -> M (pystate W) A) :
  keeps_self body -> (forall e, keeps_self (handler e)) ->
  keeps_self (try_except body cls handler).
Proof.
  intros Hb Hh s. unfold try_except. specialize (Hb s).
  destruct (body s) as [[a | e] s1]; simpl in *; [done |].
  destruct (cls (exn_class e)); [| done]. by rewrite Hh.
Qed.

Lemma keeps_self_if {A} (b : bool) (m1 m2 : M (pystate W) A) :
  keeps_self m1 -> keeps_self m2 -> keeps_self (if b then m1 else m2).
Proof. by destruct b. Qed.

Ltac keeps_self_steps :=
  repeat first
    [ apply keeps_self_if | apply keeps_self_bind | apply keeps_self_try
    | apply keeps_self_on_outside | apply keeps_self_ret
    | apply keeps_self_of_outcome | apply keeps_self_get | intro ].

Lemma save_keeps_self (name : option string) : keeps_self (_save_session name).
Proof.
  unfold _save_session. destruct name as [n |]; [destruct (Str.is_empty n) |];
    keeps_self_steps.
Qed.

Ltac any_print :=
  repeat match goal with
  | |- context [console_print ?x ?w] =>
      destruct (console_print x w) as [[[] | ?] ?]; cbn
  | |- context [if is_Exception ?c then _ else _] =>
      destruct (is_Exception c); cbn
  end; try done.

(** What [_load_session] leaves in the fields, read off the sessions
    file. *)
Lemma load_self (files : W -> gmap string Py.val) (name : string)
    (s : pyself) (w : W) :
  json_store files ->
  self (_load_session name (PyState s w)).2
  = match files w !! "sessions.json" with
    | Some file => restored name file s
    | None => s
    end.
Proof.
  intros (Hexists & Hload & _).
  unfold _load_session, try_except, bind, on_outside. cbn [outside self].
  rewrite Hexists.
  destruct (files w !! "sessions.json") as [file |] eqn:Hfile; cbn.
  2: { any_print. }
  rewrite (Hload _ _ _ Hfile). cbn.
  destruct file as [| b | z | f | t | l | d]; cbn; any_print.
  - destruct (Str.contains name t); cbn; any_print.
  - destruct (existsb _ l); cbn; any_print.
  - destruct (Py.assoc name d) as [data |] eqn:Hdata; cbn; [| any_print].
    destruct data as [| b | z | f | t | l | data]; cbn; any_print.
Qed.

(** What [_save_session] leaves in the sessions file. *)
Lemma save_files (files : W -> gmap string Py.val) (name : string)
    (s : pyself) (w : W) (d : list (string * Py.val)) :
  json_store files -> saving_works -> name <> "" ->
  sessions_before files w = Some d ->
  exists stamp,
    files (outside (_save_session (Some name) (PyState s w)).2) !! "sessions.json"
    = Some (Py.VDict (PyDict.assoc_set name (session_data s stamp) d)).
Proof.
  intros (Hexists & Hload & Hdump & Hprint & Hnow & _) [Hclock Hdumps] Hname Hd.
  destruct (Hclock w) as (stamp & w1 & Hstamp).
  pose proof (Hnow _ _ _ Hstamp) as Hw1.
  exists stamp.
  unfold _save_session.
  destruct (Str.is_empty name) eqn:Hempty.
  { destruct name; [done | discriminate]. }
  unfold try_except, bind, ret, get_self, on_outside. cbn [outside self].
  rewrite Hstamp. cbn [outside self]. rewrite Hexists, Hw1.
  unfold sessions_before in Hd.
  destruct (files w !! "sessions.json") as [file |] eqn:Hfile; cbn.
  - destruct file; try discriminate. injection Hd as ->.
    rewrite (Hload "sessions.json" w1 (Py.VDict d)) by by rewrite Hw1.
    cbn.
    destruct (Hdumps "sessions.json"
                (Py.VDict (PyDict.assoc_set name (session_data s stamp) d)) w1)
      as [w2 Hw2].
    rewrite Hw2. cbn.
    pose proof (Hdump _ _ _ _ Hw2) as Hfiles2.
    match goal with
    | |- context [console_print ?x w2] =>
        destruct (console_print x w2) as [[[] | e] w3] eqn:Hp
    end; cbn.
    + rewrite (Hprint _ _ _ _ Hp), Hfiles2. by rewrite lookup_insert_eq.
    + destruct (is_Exception (exn_class e)); cbn.
      * match goal with
        | |- context [console_print ?x w3] =>
            destruct (console_print x w3) as [o w4] eqn:Hp'
        end; cbn.
        rewrite (Hprint _ _ _ _ Hp'), (Hprint _ _ _ _ Hp), Hfiles2.
        by rewrite lookup_insert_eq.
      * rewrite (Hprint _ _ _ _ Hp), Hfiles2. by rewrite lookup_insert_eq.
  - injection Hd as <-. cbn.
    destruct (Hdumps "sessions.json"
                (Py.VDict (PyDict.assoc_set name (session_data s stamp) [])) w1)
      as [w2 Hw2].
    cbn in Hw2. rewrite Hw2. cbn.
    pose proof (Hdump _ _ _ _ Hw2) as Hfiles2.
    match goal with
    | |- context [console_print ?x w2] =>
        destruct (console_print x w2) as [[[] | e] w3] eqn:Hp
    end; cbn.
    + rewrite (Hprint _ _ _ _ Hp), Hfiles2. by rewrite lookup_insert_eq.
    + destruct (is_Exception (exn_class e)); cbn.
      * match goal with
        | |- context [console_print ?x w3] =>
            destruct (console_print x w3) as [o w4] eqn:Hp'
        end; cbn.
        rewrite (Hprint _ _ _ _ Hp'), (Hprint _ _ _ _ Hp), Hfiles2.
        by rewrite lookup_insert_eq.
      * rewrite (Hprint _ _ _ _ Hp), Hfiles2. by rewrite lookup_insert_eq.
Qed.

Lemma restored_saved (name : string) (s s' : pyself) (stamp : string)
    (d : list (string * Py.val)) :
  restored name (Py.VDict (PyDict.assoc_set name (session_data s stamp) d)) s'
  = s.
Proof.
  unfold restored. rewrite assoc_set_same. by destruct s.
Qed.

(** X14. A session saved under a name and loaded again under that name
    gives back the conversation history, the context, the model and the
    theme that were saved, whatever the fields hold at the time of loading
    and whatever other sessions the file holds. *)
Theorem X14_session_round_trip (files : W -> gmap string Py.val)
    (name : string) (saved current : pyself) (w : W) :
  json_store files -> saving_works -> name <> "" ->
  is_Some (sessions_before files w) ->
  let after_save := outside (_save_session (Some name) (PyState saved w)).2 in
  self (_load_session name (PyState current after_save)).2 = saved.
Proof.
  intros Hstore Hworks Hname [d Hd] after_save.
  destruct (save_files files name saved w d Hstore Hworks Hname Hd)
    as [stamp Hfile].
  rewrite (load_self files name current after_save Hstore).
  subst after_save. rewrite Hfile. apply restored_saved.
Qed.

(** X16. Loading changes the fields only when the sessions file is a
    dictionary that holds a dictionary under the name: with no file, a
    name that is not stored, or a file of another shape, the four fields
    are left as they were. *)
Theorem X16_load_of_a_missing_session (files : W -> gmap string Py.val)
    (name : string) (current : pyself) (w : W) :
  json_store files ->
  (forall d data, files w !! "sessions.json" = Some (Py.VDict d) ->
                  Py.assoc name d <> Some (Py.VDict data)) ->
  self (_load_session name (PyState current w)).2 = current.
Proof.
  intros Hstore Hnone. rewrite (load_self files) by done.
  destruct (files w !! "sessions.json") as [file |]; [| done].
  unfold restored. destruct file as [| | | | | | d]; try done.
  destruct (Py.assoc name d) as [data |] eqn:Hdata; [| done].
  destruct data as [| | | | | | data]; try done.
  by destruct (Hnone d data).
Qed.

End SessionFiles.

Section SavedFile.

Context {W : Type} `{Env W} `{Host W}.

(** The sessions file after a save whose dump completes. *)
Lemma save_files_at (files : W -> gmap string Py.val) (name : string)
    (s : pyself) (w w1 w2 : W) (d : list (string * Py.val)) (stamp : string) :
  json_store files -> name <> "" ->
  sessions_before files w = Some d ->
  now_isoformat w = (Return stamp, w1) ->
  json_dump "sessions.json"
    (Py.VDict (PyDict.assoc_set name (session_data s stamp) d)) w1
  = (Return tt, w2) ->
  files (outside (_save_session (Some name) (PyState s w)).2) !! "sessions.json"
  = Some (Py.VDict (PyDict.assoc_set name (session_data s stamp) d)).
Proof.
  intros (Hexists & Hload & Hdump & Hprint & Hnow & _) Hname Hd Hstamp Hw2.
  pose proof (Hnow _ _ _ Hstamp) as Hw1.
  pose proof (Hdump _ _ _ _ Hw2) as Hfiles2.
  unfold _save_session.
  destruct (Str.is_empty name) eqn:Hempty.
  { destruct name; [done | discriminate]. }
  unfold try_except, bind, ret, get_self, on_outside. cbn [outside self].
  rewrite Hstamp. cbn [outside self]. rewrite Hexists, Hw1.
  unfold sessions_before in Hd.
  assert (forall w3 o w4, console_print o w2 = (w3, w4) ->
            files w4 !! "sessions.json"
            = Some (Py.VDict (PyDict.assoc_set name (session_data s stamp) d)))
    as Hafter.
  { intros w3 o w4 Hp. rewrite (Hprint _ _ _ _ Hp), Hfiles2.
    by rewrite lookup_insert_eq. }
  destruct (files w !! "sessions.json") as [file |] eqn:Hfile; cbn.
  - destruct file; try discriminate. injection Hd as ->.
    rewrite (Hload "sessions.json" w1 (Py.VDict d)) by by rewrite Hw1.
    cbn. rewrite Hw2. cbn.
    match goal with
    | |- context [console_print ?x w2] =>
        destruct (console_print x w2) as [[[] | e] w3] eqn:Hp
    end; cbn.
    + by eapply Hafter.
    + destruct (is_Exception (exn_class e)); cbn.
      * match goal with
        | |- context [console_print ?x w3] =>
            destruct (console_print x w3) as [o w4] eqn:Hp'
        end; cbn.
        rewrite (Hprint _ _ _ _ Hp'). by eapply Hafter.
      * by eapply Hafter.
  - injection Hd as <-. cbn. cbn in Hw2. rewrite Hw2. cbn.
    match goal with
    | |- context [console_print ?x w2] =>
        destruct (console_print x w2) as [[[] | e] w3] eqn:Hp
    end; cbn.
    + by eapply Hafter.
    + destruct (is_Exception (exn_class e)); cbn.
      * match goal with
        | |- context [console_print ?x w3] =>
            destruct (console_print x w3) as [o w4] eqn:Hp'
        end; cbn.
        rewrite (Hprint _ _ _ _ Hp'). by eapply Hafter.
      * by eapply Hafter.
Qed.

(** A sessions file that does not hold a dictionary stays as it is. *)
Lemma save_files_not_a_dictionary (files : W -> gmap string Py.val)
    (name : string) (s : pyself) (w : W) :
  json_store files -> name <> "" ->
  sessions_before files w = None ->
  files (outside (_save_session (Some name) (PyState s w)).2) = files w.
Proof.
  intros (Hexists & Hload & Hdump & Hprint & Hnow & _) Hname Hd.
  unfold _save_session.
  destruct (Str.is_empty name) eqn:Hempty.
  { destruct name; [done | discriminate]. }
  unfold try_except, bind, ret, get_self, on_outside. cbn [outside self].
  destruct (now_isoformat w) as [[stamp | e] w1] eqn:Hstamp; cbn [outside self].
  2: { exact (Hnow _ _ _ Hstamp). }
  pose proof (Hnow _ _ _ Hstamp) as Hw1.
  rewrite Hexists, Hw1. unfold sessions_before in Hd.
  destruct (files w !! "sessions.json") as [file |] eqn:Hfile; [| done]. cbn.
  rewrite (Hload "sessions.json" w1 file) by by rewrite Hw1.
  destruct file; try discriminate; cbn;
    match goal with
    | |- context [console_print ?x w1] =>
        destruct (console_print x w1) as [o w2] eqn:Hp
    end; cbn; by rewrite (Hprint _ _ _ _ Hp).
Qed.

(** X15. Saving a session leaves the four fields as they are.  When the
    dump of the save completes, every session stored under another name
    is as it was: loading another name after the save gives the fields
    that loading it before the save gives.  When the sessions file does
    not hold a dictionary the save leaves the file as it is.  Nothing is
    stated for a dump that fails: the program dumps into the file it has
    just opened for writing. *)
Theorem X15_save_disturbs_nothing_else (files : W -> gmap string Py.val)
    (name other : string) (saved current : pyself) (w : W) :
  json_store files -> name <> "" -> other <> name ->
  let after := (_save_session (Some name) (PyState saved w)).2 in
  self after = saved
  /\ (forall d stamp w1 w2,
        sessions_before files w = Some d ->
        now_isoformat w = (Return stamp, w1) ->
        json_dump "sessions.json"
          (Py.VDict (PyDict.assoc_set name (session_data saved stamp) d)) w1
        = (Return tt, w2) ->
        self (_load_session other (PyState current (outside after))).2
        = self (_load_session other (PyState current w)).2)
  /\ (sessions_before files w = None -> files (outside after) = files w).
Proof.
  intros Hstore Hname Hother after. split; [| split].
  - apply (save_keeps_self (Some name) (PyState saved w)).
  - intros d stamp w1 w2 Hd Hstamp Hdump.
    pose proof (save_files_at files name saved w w1 w2 d stamp
                  Hstore Hname Hd Hstamp Hdump) as Hfile.
    rewrite !(load_self files) by done.
    subst after. rewrite Hfile.
    unfold sessions_before in Hd. unfold restored at 1.
    rewrite (assoc_set_other name other) by done.
    destruct (files w !! "sessions.json") as [file |].
    + destruct file; try discriminate. by injection Hd as ->.
    + by injection Hd as <-.
  - intros Hnone. by apply save_files_not_a_dictionary.
Qed.

End SavedFile.

Lemma desk_json_store : json_store (H := Desk.env) (H0 := Desk.host) Desk.store.
Proof.
  repeat split.
  - intros p w v Hv. cbn. unfold Desk.desk_load. by rewrite Hv.
  - intros p v w w' [= <-]. done.
  - intros x w o w' [= _ <-]. done.
  - intros w o w' [= _ <-]. done.
  - intros f w o w' [= _ <-]. done.
Qed.

Lemma desk_saving_works : saving_works (H := Desk.env) (H0 := Desk.host).
Proof. split; intros; by repeat eexists. Qed.

Lemma X14_session_round_trip_witness :
  self (_load_session (H := Desk.env) (H0 := Desk.host) "monday"
          (PyState Desk.fresh
             (outside (_save_session (H := Desk.env) (H0 := Desk.host)
                         (Some "monday")
                         (PyState Desk.alice desk_with_session)).2))).2
  = Desk.alice.
Proof.
  apply (X14_session_round_trip (H := Desk.env) (H0 := Desk.host) Desk.store
           "monday" Desk.alice Desk.fresh desk_with_session
           desk_json_store desk_saving_works).
  - discriminate.
  - eexists. vm_compute. reflexivity.
Defined.

Lemma X15_save_disturbs_nothing_else_witness :
  let after := (_save_session (H := Desk.env) (H0 := Desk.host) (Some "monday")
                  (PyState Desk.fresh desk_with_session)).2 in
  self after = Desk.fresh
  /\ self (_load_session (H := Desk.env) (H0 := Desk.host) "friday"
             (PyState Desk.fresh (outside after))).2
     = self (_load_session (H := Desk.env) (H0 := Desk.host) "friday"
               (PyState Desk.fresh desk_with_session)).2.
Proof.
  destruct (X15_save_disturbs_nothing_else (H := Desk.env) (H0 := Desk.host)
              Desk.store "monday" "friday" Desk.fresh Desk.fresh
              desk_with_session desk_json_store)
    as (Hself & Hother & _); [discriminate | discriminate |].
  split; [exact Hself |].
  eapply Hother.
  - vm_compute. reflexivity.
  - reflexivity.
  - reflexivity.
Defined.

Lemma X16_load_of_a_missing_session_witness :
  self (_load_session (H := Desk.env) (H0 := Desk.host) "monday"
          (PyState Desk.fresh desk_with_session)).2
  = Desk.fresh.
Proof.
  apply (X16_load_of_a_missing_session (H := Desk.env) (H0 := Desk.host)
           Desk.store "monday" Desk.fresh desk_with_session desk_json_store).
  intros d data Hd. vm_compute in Hd. injection Hd as <-. discriminate.
Defined.
